(** * QEMUController: a shallow embedding of [src/QEMUController.py]

    The controller shells out to [pgrep], [virsh] and the QEMU binary and
    interprets their exit codes and output.  The embedding keeps that shape:

    - [Py] holds the Python built-ins the controller calls
      ([bytes.decode], [str.strip], [str.lower], [str.splitlines], [int],
      and the one regular expression of [get_vms]), on UTF-8 text;
    - [Host] is the interface to the operating system ([subprocess.Popen],
      [communicate], [wait], [os.kill], [time.sleep], [time.time]);
    - the methods of [QEMUController] are written in a state-and-exception
      monad over a host world, and every host call is recorded in a trace. *)

From stdpp Require Import base tactics option list gmap strings.
From Stdlib Require Import ZArith Ascii String Lia.

#[local] Open Scope string_scope.
#[local] Open Scope Z_scope.

(** ** Python string built-ins *)

Module Py.

(** A [bytes] value is held as it is, one [ascii] per byte.  A [str] is
    held as its UTF-8 encoding: [decode] checks that the bytes are one, and
    the built-ins below read code points off the encoded text. *)

Definition byte (c : ascii) : N := N_of_ascii c.

Definition byte_is (n : N) (c : ascii) : bool := (byte c =? n)%N.

Definition in_range (lo hi : N) (c : ascii) : bool :=
  ((lo <=? byte c) && (byte c <=? hi))%N.

(** The states of a strict UTF-8 decoder: [U0] between code points; [U1],
    [U2], [U3] when that many continuation bytes (80..BF) are due; and
    after the lead bytes E0, ED, F0, F4 the states that narrow the next
    byte, to rule out overlong forms, surrogates and code points beyond
    U+10FFFF. *)
Inductive Utf8 := U0 | U1 | U2 | U3 | UE0 | UED | UF0 | UF4.

Definition utf8_step (st : Utf8) (c : ascii) : option Utf8 :=
  match st with
  | U0 =>
      if in_range 0 127 c then Some U0
      else if in_range 194 223 c then Some U1
      else if byte_is 224 c then Some UE0
      else if byte_is 237 c then Some UED
      else if in_range 225 239 c then Some U2
      else if byte_is 240 c then Some UF0
      else if in_range 241 243 c then Some U3
      else if byte_is 244 c then Some UF4
      else None
  | U1 => if in_range 128 191 c then Some U0 else None
  | U2 => if in_range 128 191 c then Some U1 else None
  | U3 => if in_range 128 191 c then Some U2 else None
  | UE0 => if in_range 160 191 c then Some U1 else None
  | UED => if in_range 128 159 c then Some U1 else None
  | UF0 => if in_range 144 191 c then Some U2 else None
  | UF4 => if in_range 128 143 c then Some U2 else None
  end.

Fixpoint utf8_run (st : Utf8) (l : list ascii) : option Utf8 :=
  match l with
  | [] => Some st
  | c :: t =>
      match utf8_step st c with
      | Some st' => utf8_run st' t
      | None => None
      end
  end.

(** [b.decode()]: the text, or [None] for [UnicodeDecodeError]. *)
Definition decode (b : string) : option string :=
  match utf8_run U0 (list_ascii_of_string b) with
  | Some U0 => Some b
  | _ => None
  end.

(** [whole x]: the bytes [x] are complete code points, so that decoding
    goes on after them as it would from the start; [ascii7 c]: the byte
    [c] is a code point of its own. *)
Definition whole (x : list ascii) : Prop :=
  forall y, utf8_run U0 (x ++ y) = utf8_run U0 y.

Definition ascii7 (c : ascii) : Prop := in_range 0 127 c = true.

(** [str.isspace] on the code points of one byte: TAB, LF, VT, FF, CR, FS,
    GS, RS, US and the blank. *)
Definition isspace (c : ascii) : bool :=
  match c with
  | "009" | "010" | "011" | "012" | "013"
  | "028" | "029" | "030" | "031" | " " => true
  | _ => false
  end%char.

(** ... of two bytes: U+0085 (C2 85) and U+00A0 (C2 A0). *)
Definition isspace2 (c d : ascii) : bool :=
  byte_is 194 c && (byte_is 133 d || byte_is 160 d).

(** ... of three bytes: U+1680 (E1 9A 80), U+2000 to U+200A (E2 80 80..8A),
    U+2028, U+2029, U+202F (E2 80 A8, A9, AF), U+205F (E2 81 9F) and
    U+3000 (E3 80 80). *)
Definition isspace3 (c d e : ascii) : bool :=
  (byte_is 225 c && byte_is 154 d && byte_is 128 e)
  || (byte_is 226 c && byte_is 128 d && (in_range 128 138 e || byte_is 168 e || byte_is 169 e || byte_is 175 e))
  || (byte_is 226 c && byte_is 129 d && byte_is 159 e)
  || (byte_is 227 c && byte_is 128 d && byte_is 128 e).

(** The number of bytes of the code point at the head of [l], when the
    tests [p1], [p2], [p3] recognise it (the longest first), and 0
    otherwise. *)
Definition code_len (p1 : ascii -> bool) (p2 : ascii -> ascii -> bool)
    (p3 : ascii -> ascii -> ascii -> bool) (l : list ascii) : nat :=
  match l with
  | c :: d :: e :: _ =>
      if p3 c d e then 3 else if p2 c d then 2 else if p1 c then 1 else 0
  | [c; d] => if p2 c d then 2 else if p1 c then 1 else 0
  | [c] => if p1 c then 1 else 0
  | [] => 0
  end%nat.

(** The whitespace code point at the head of a text, and at the head of a
    text read backwards. *)
Definition space_len : list ascii -> nat := code_len isspace isspace2 isspace3.

Definition space_len_rev : list ascii -> nat :=
  code_len isspace (fun d c => isspace2 c d) (fun e d c => isspace3 c d e).

(** Drop the code points [len] recognises at the head of [l], one per
    round; as many rounds as [l] has bytes are enough. *)
Fixpoint drop_codes (len : list ascii -> nat) (rounds : nat) (l : list ascii) : list ascii :=
  match rounds with
  | O => l
  | S rounds' =>
      match len l with
      | O => l
      | n => drop_codes len rounds' (drop n l)
      end
  end.

Definition lstrip (l : list ascii) : list ascii :=
  drop_codes space_len (List.length l) l.

Definition rstrip (l : list ascii) : list ascii :=
  rev (drop_codes space_len_rev (List.length l) (rev l)).

(** [s.strip()] *)
Definition strip (s : string) : string :=
  string_of_list_ascii (rstrip (lstrip (list_ascii_of_string s))).

Definition lower_char (c : ascii) : ascii :=
  let n := nat_of_ascii c in
  if ((65 <=? n) && (n <=? 90))%nat then ascii_of_nat (n + 32) else c.

(** [s.lower()].  The letters A to Z become a to z, and the Kelvin sign
    U+212A (E2 84 AA), the one code point outside ASCII whose lower case
    is an ASCII text, becomes [k].  Every other code point outside ASCII
    is kept as it is, where Python gives a text that still holds a code
    point outside ASCII (for U+0130, [i] followed by U+0307): the two
    agree on whether the result is a given ASCII text, which is all the
    controller asks of it. *)
Fixpoint lower (s : string) : string :=
  match s with
  | EmptyString => EmptyString
  | String c t =>
      match t with
      | String d (String e t') =>
          if byte_is 226 c && byte_is 132 d && byte_is 170 e then String "k" (lower t')
          else String (lower_char c) (lower t)
      | _ => String (lower_char c) (lower t)
      end
  end.

(** Line boundaries of [str.splitlines]: LF, VT, FF, CR, FS, GS, RS on one
    byte; CR LF as one boundary and U+0085 (C2 85) on two; U+2028 and
    U+2029 (E2 80 A8, E2 80 A9) on three. *)
Definition is_linebreak (c : ascii) : bool :=
  match c with
  | "010" | "011" | "012" | "013" | "028" | "029" | "030" => true
  | _ => false
  end%char.

Definition is_linebreak2 (c d : ascii) : bool :=
  (byte_is 13 c && byte_is 10 d) || (byte_is 194 c && byte_is 133 d).

Definition is_linebreak3 (c d e : ascii) : bool :=
  byte_is 226 c && byte_is 128 d && (byte_is 168 e || byte_is 169 e).

Definition linebreak_len : list ascii -> nat :=
  code_len is_linebreak is_linebreak2 is_linebreak3.

Definition snoc (s : string) (c : ascii) : string := s +:+ String c EmptyString.

(** [cur] is the line read so far; [skip] counts the bytes of a boundary
    that are still to be passed over. *)
Fixpoint splitlines_go (skip : nat) (cur : string) (l : list ascii) : list string :=
  match l with
  | [] => match cur with EmptyString => [] | _ => [cur] end
  | c :: t =>
      match skip with
      | S skip' => splitlines_go skip' cur t
      | O =>
          match linebreak_len l with
          | O => splitlines_go 0 (snoc cur c) t
          | S skip' => cur :: splitlines_go skip' EmptyString t
          end
      end
  end.

(** [s.splitlines()] *)
Definition splitlines (s : string) : list string :=
  splitlines_go 0 EmptyString (list_ascii_of_string s).

Definition digit_val (c : ascii) : option Z :=
  let n := nat_of_ascii c in
  if ((48 <=? n) && (n <=? 57))%nat then Some (Z.of_nat (n - 48)) else None.

(** Decimal digits with single underscores between digits, as [int]
    accepts them; [prev_digit] says whether the previous character was a
    digit (an underscore must follow one and be followed by one). *)
Fixpoint digits_go (acc : Z) (prev_digit : bool) (s : string) : option Z :=
  match s with
  | EmptyString => if prev_digit then Some acc else None
  | String c t =>
      match digit_val c with
      | Some d => digits_go (10 * acc + d) true t
      | None =>
          if Ascii.eqb c "_" && prev_digit then digits_go acc false t else None
      end
  end.

(** [int(s)] for a text [s]: an optional sign and the digits 0 to 9, with
    whitespace around, as the process search prints a process id; [None]
    is [ValueError].  (Python reads the decimal digits of other scripts as
    well; a text that holds one is not read here.) *)
Definition int (s : string) : option Z :=
  match strip s with
  | String c t =>
      if Ascii.eqb c "-" then Z.opp <$> digits_go 0 false t
      else if Ascii.eqb c "+" then digits_go 0 false t
      else digits_go 0 false (String c t)
  | EmptyString => None
  end.

(** [str(True)], [str(False)] *)
Definition str_bool (b : bool) : string := if b then "True" else "False".

(** [s.startswith(p)], returning the rest of [s] after [p]. *)
Fixpoint strip_prefix (p s : string) : option string :=
  match p, s with
  | EmptyString, _ => Some s
  | String a p', String b s' => if Ascii.eqb a b then strip_prefix p' s' else None
  | String _ _, EmptyString => None
  end.

(** The longest prefix of characters satisfying [f], and the rest. *)
Fixpoint span (f : ascii -> bool) (s : string) : string * string :=
  match s with
  | EmptyString => (EmptyString, EmptyString)
  | String c t =>
      if f c then let '(a, b) := span f t in (String c a, b)
      else (EmptyString, s)
  end.

Definition is_empty (s : string) : bool :=
  match s with EmptyString => true | _ => false end.

(** The pattern of [get_vms], as the source spells it in a raw string
    literal: [r'-name\\s+guest=([^,]+)'].  In a raw literal, the two
    backslashes reach the regex engine as they are, where they denote one
    literal backslash; the [s+] after them is then one or more letters
    [s].  The pattern reads, token by token:

      [-name]     the five characters
      [\\]        one backslash
      [s+]        one or more [s] (greedy)
      [guest=]    the six characters
      [([^,]+)]   group 1: one or more characters other than a comma (greedy)

    [guest_re_at] matches it at the start of [s] and returns group 1.
    Greedy matching needs no backtracking here: after the longest run of
    [s] the next character must be [g], which a shorter run would not
    reach; and group 1 is last. *)
Definition guest_re_at (s : string) : option string :=
  r1 ← strip_prefix "-name\" s;
  let '(run, r2) := span (Ascii.eqb "s") r1 in
  if is_empty run then None
  else
    r3 ← strip_prefix "guest=" r2;
    let '(grp, _) := span (fun c => negb (Ascii.eqb c ",")) r3 in
    if is_empty grp then None else Some grp.

(** [re.search(pattern, line)] followed by [match.group(1)]:
    the leftmost position where the pattern matches. *)
Fixpoint guest_re_search (s : string) : option string :=
  match guest_re_at s with
  | Some g => Some g
  | None =>
      match s with
      | EmptyString => None
      | String _ t => guest_re_search t
      end
  end.

End Py.

(** ** The host: processes, signals and the clock *)

Inductive Signal := SIGTERM | SIGKILL.

(** What the controller asks of the operating system.  [W] is the state of
    the machine; [popen] is [subprocess.Popen(argv, stdout=PIPE, cwd="/")],
    with [None] when the process cannot be spawned; [communicate] drains
    the standard output (bytes), [wait] gives the exit code; [kill] is [os.kill],
    with [false] when it raises [OSError]; [sleep] is [time.sleep] and
    [now] is [time.time], both in milliseconds. *)
Class Host (W : Type) := {
  Proc : Type;
  popen : list string -> W -> option Proc * W;
  communicate : Proc -> W -> string * W;
  wait : Proc -> W -> Z * W;
  kill : Z -> Signal -> W -> bool * W;
  sleep : Z -> W -> W;
  now : W -> Z
}.

(** A clock that does not run backwards, and a sleep that lasts at least as
    long as asked.  Only the termination of the polling loop needs it. *)
Class HostClock (W : Type) `{Host W} := {
  popen_clock : forall argv w, now w <= now (snd (popen argv w));
  communicate_clock : forall p w, now w <= now (snd (communicate p w));
  wait_clock : forall p w, now w <= now (snd (wait p w));
  sleep_clock : forall d w, now w + d <= now (sleep d w)
}.

(** Every call that reaches the host is recorded, in order. *)
Inductive Event :=
| Spawn (argv : list string)
| Kill (pid : Z) (sig : Signal)
| Sleep (ms : Z).

Record St (W : Type) := mkSt { world : W; trace : list Event }.
Arguments mkSt {W} _ _.
Arguments world {W} _.
Arguments trace {W} _.

Inductive Exn := ValueError | OSError | UnicodeDecodeError.

(** The outcome of a computation: a value, a Python exception, or a polling
    loop that was cut short by the model's step bound. *)
Inductive Res (A : Type) :=
| Ret (a : A)
| Raise (e : Exn)
| Starved.
Arguments Ret {A} _.
Arguments Raise {A} _.
Arguments Starved {A}.

Definition M (W A : Type) : Type := St W -> Res A * St W.

Definition ret {W A} (a : A) : M W A := fun s => (Ret a, s).

Definition bind {W A B} (m : M W A) (k : A -> M W B) : M W B :=
  fun s =>
    match m s with
    | (Ret a, s') => k a s'
    | (Raise e, s') => (Raise e, s')
    | (Starved, s') => (Starved, s')
    end.

Notation "'let*' x ':=' m 'in' k" := (bind m (fun x => k))
  (at level 10, x name, m at level 100, k at level 200).

Definition raise {W A} (e : Exn) : M W A := fun s => (Raise e, s).

Definition starve {W A} : M W A := fun s => (Starved, s).

(** [try: body / except Exception: handler] *)
Definition try_except {W A} (body handler : M W A) : M W A :=
  fun s =>
    match body s with
    | (Raise _, s') => handler s'
    | r => r
    end.

(** How a loop body that mutates a dictionary ends: [Next] when it ran to
    its end, [Abort] when an exception left it; either way with the
    dictionary as the mutations made so far left it. *)
Inductive Step (B : Type) :=
| Next (b : B)
| Abort (b : B).
Arguments Next {B} _.
Arguments Abort {B} _.

(** [try: for x in l: body / except Exception: log], where [body] mutates
    the dictionary [acc]: the exception ends the loop, and what was
    written before it stays. *)
Fixpoint for_each {W A B} (l : list A) (acc : B) (body : B -> A -> M W (Step B)) : M W B :=
  match l with
  | [] => ret acc
  | x :: l' =>
      let* step := body acc x in
      match step with
      | Next acc' => for_each l' acc' body
      | Abort acc' => ret acc'
      end
  end.

Section HostCalls.
Context {W : Type} `{HW : Host W}.

Definition host_popen (argv : list string) : M W (option Proc) :=
  fun s =>
    let '(p, w') := popen argv (world s) in
    (Ret p, mkSt w' (trace s ++ [Spawn argv])%list).

Definition host_communicate (p : Proc) : M W string :=
  fun s => let '(out, w') := communicate p (world s) in (Ret out, mkSt w' (trace s)).

Definition host_wait (p : Proc) : M W Z :=
  fun s => let '(code, w') := wait p (world s) in (Ret code, mkSt w' (trace s)).

(** [os.kill(pid, sig)] *)
Definition os_kill (pid : Z) (sig : Signal) : M W unit :=
  fun s =>
    let '(ok, w') := kill pid sig (world s) in
    (if ok then Ret tt else Raise OSError, mkSt w' (trace s ++ [Kill pid sig])%list).

(** [time.sleep], in milliseconds *)
Definition time_sleep (ms : Z) : M W unit :=
  fun s => (Ret tt, mkSt (sleep ms (world s)) (trace s ++ [Sleep ms])%list).

(** [time.time()], in milliseconds *)
Definition time_time : M W Z := fun s => (Ret (now (world s)), s).

End HostCalls.

(** ** The data model *)

Inductive Status := Running | Stopped | Unknown.

Definition status_eqb (a b : Status) : bool :=
  match a, b with
  | Running, Running | Stopped, Stopped | Unknown, Unknown => true
  | _, _ => false
  end.

(** The ['type'] of a status result: ['qemu'] or ['libvirt']. *)
Inductive VmType := Qemu | Libvirt.

Definition type_is (t : option VmType) (k : VmType) : bool :=
  match t, k with
  | Some Qemu, Qemu | Some Libvirt, Libvirt => true
  | _, _ => false
  end.

(** The dictionary [{'status': .., 'type': .., 'uri': ..}] of
    [get_vm_status]; [None] is Python's [None]. *)
Record StatusResult := mkStatusResult {
  r_status : Status;
  r_type : option VmType;
  r_uri : option string
}.

(** An entry [{"name": .., "status": ..}] of the inventory. *)
Record VM := mkVM { vm_name_of : string; vm_status_of : Status }.

(** The dictionary [{'qemu': [..], 'libvirt': {uri: [..]}}] of [get_vms]. *)
Record Inventory := mkInventory {
  qemu : list VM;
  libvirt : gmap string (list VM)
}.

(** A value of [vm_config]: a string or a boolean. *)
Inductive ConfigValue := CStr (s : string) | CBool (b : bool).

(** The attributes [__init__] sets. *)
Record Controller := mkController {
  flatpak : bool;
  qemu_bin_path : string;
  libvirt_available : bool;
  libvirt_uri : option string;
  default_uri : option string
}.

(** ** The controller *)

Section Controller.
Context {W : Type} `{HW : Host W}.

(** [_run_command]: under Flatpak the command is sent to the host through
    [flatpak-spawn --host]; a process that cannot be spawned gives [None]. *)
Definition spawn_argv (c : Controller) (command : list string) : list string :=
  if flatpak c then "flatpak-spawn" :: "--host" :: command else command.

Definition _run_command (c : Controller) (command : list string) : M W (option Proc) :=
  host_popen (spawn_argv c command).

(** The idiom every query of the controller repeats:
    [process = self._run_command(cmd)], and when [process] is not [None],
    [stdout, _ = process.communicate()] and [result = process.wait()].
    The reply is [None] when the process was not spawned, and the exit
    code with the output (bytes, not yet decoded) otherwise. *)
Definition run_and_wait (c : Controller) (command : list string) : M W (option (Z * string)) :=
  let* process := _run_command c command in
  match process with
  | Some p =>
      let* stdout := host_communicate p in
      let* result := host_wait p in
      ret (Some (result, stdout))
  | None => ret None
  end.

Definition _check_libvirt (c : Controller) : M W bool :=
  let* process := _run_command c ["which"; "virsh"] in
  match process with
  | Some p => let* result := host_wait p in ret (result =? 0)
  | None => ret false
  end.

(** [_get_default_uri]; an output that cannot be decoded raises into the
    [except] of the method, which returns [None]. *)
Definition _get_default_uri (c : Controller) : M W (option string) :=
  let* reply := run_and_wait c ["virsh"; "uri"] in
  match reply with
  | Some (result, stdout) =>
      if result =? 0 then
        match Py.decode stdout with
        | Some text => ret (Some (Py.strip text))
        | None => ret None
        end
      else ret None
  | None => ret None
  end.

(** [__init__]; [under_flatpak] is what the portal answers. *)
Definition __init__ (under_flatpak : bool) (qemu_bin_path : string)
    (libvirt_uri : option string) : M W Controller :=
  let self := mkController under_flatpak qemu_bin_path false libvirt_uri None in
  let* available := _check_libvirt self in
  let self := mkController under_flatpak qemu_bin_path available libvirt_uri None in
  let* default := (if available then _get_default_uri self else ret None) in
  ret (mkController under_flatpak qemu_bin_path available libvirt_uri default).

(** Python's truth value of an optional string: neither [None] nor empty. *)
Definition truthy (o : option string) : bool :=
  match o with
  | Some u => negb (Py.is_empty u)
  | None => false
  end.

(** [a or b] *)
Definition py_or (a b : option string) : option string :=
  if truthy a then a else b.

Definition _get_all_connections (c : Controller) : list string :=
  let uris := [Some "qemu:///system"; Some "qemu:///session"; default_uri c] in
  foldl (fun connections uri =>
           match uri with
           | Some u =>
               if truthy uri && negb (bool_decide (u ∈ connections))
               then (connections ++ [u])%list else connections
           | None => connections
           end) [] uris.

(** [[vm for vm in text.splitlines() if vm.strip()]] *)
Definition nonblank_lines (text : string) : list string :=
  List.filter (fun vm => negb (Py.is_empty (Py.strip vm))) (Py.splitlines text).

(** [for vm in names: vms['libvirt'][uri].append({"name": vm, "status": st})] *)
Definition append_vms (uri : string) (st : Status) (names : list string)
    (managed : gmap string (list VM)) : gmap string (list VM) :=
  foldl (fun m vm => alter (fun l => (l ++ [mkVM vm st])%list) uri m) managed names.

Definition list_running_cmd (uri : string) : list string :=
  ["virsh"; "-c"; uri; "list"; "--name"].

Definition list_inactive_cmd (uri : string) : list string :=
  ["virsh"; "-c"; uri; "list"; "--inactive"; "--name"].

(** What one list sub-command adds to the list of its endpoint:

      [if process:]
      [    ...]
      [    if result == 0:]
      [        names = [vm for vm in stdout.decode().splitlines() if vm.strip()]]
      [        for vm in names: vms['libvirt'][uri].append(..)]

    [stdout.decode()] raises before anything is appended. *)
Definition add_listed (uri : string) (st : Status) (reply : option (Z * string))
    (managed : gmap string (list VM)) : Step (gmap string (list VM)) :=
  match reply with
  | Some (result, stdout) =>
      if result =? 0 then
        match Py.decode stdout with
        | Some text => Next (append_vms uri st (nonblank_lines text) managed)
        | None => Abort managed
        end
      else Next managed
  | None => Next managed
  end.

(** The body of the loop over the connections in [get_vms]. *)
Definition list_endpoint (c : Controller) (managed : gmap string (list VM))
    (uri : option string) : M W (Step (gmap string (list VM))) :=
  match uri with
  | Some u =>
      if negb (truthy uri) then ret (Next managed)
      else
        let managed := <[u := []]> managed in
        let* reply := run_and_wait c (list_running_cmd u) in
        match add_listed u Running reply managed with
        | Next managed =>
            let* reply := run_and_wait c (list_inactive_cmd u) in
            ret (add_listed u Stopped reply managed)
        | Abort managed => ret (Abort managed)
        end
  | None => ret (Next managed)
  end.

Definition connections_of (c : Controller) (show_all_connections : bool) : list (option string) :=
  if show_all_connections then Some <$> _get_all_connections c
  else [py_or (libvirt_uri c) (default_uri c)].

(** The names of all managed VMs, gathered for the exclusion. *)
Definition libvirt_vm_names (managed : gmap string (list VM)) : gset string :=
  map_fold (fun _ uri_vms names =>
              foldl (fun names vm => names ∪ {[vm_name_of vm]}) names uri_vms)
           ∅ managed.

(** The loop over the lines of the process listing. *)
Definition scan_lines (names : gset string) (lines : list string) : list VM :=
  foldl (fun direct line =>
           match Py.guest_re_search line with
           | Some vm_name =>
               if bool_decide (vm_name ∉ names)
               then (direct ++ [mkVM vm_name Running])%list else direct
           | None => direct
           end) [] lines.

Definition scan_cmd : list string := ["pgrep"; "-fa"; "qemu"].

(** [get_vms].  Each of its two [try] blocks catches what
    [stdout.decode()] raises: in the first, the loop over the connections
    ends there, with the dictionary as it is; in the second, nothing has
    been appended to the direct list yet. *)
Definition get_vms (c : Controller) (show_all_connections : bool) : M W Inventory :=
  let* managed :=
    (if libvirt_available c
     then for_each (connections_of c show_all_connections) ∅ (list_endpoint c)
     else ret ∅) in
  let* reply := run_and_wait c scan_cmd in
  match reply with
  | Some (_, stdout) =>
      let names := libvirt_vm_names managed in
      match Py.decode stdout with
      | Some text => ret (mkInventory (scan_lines names (Py.splitlines text)) managed)
      | None => ret (mkInventory [] managed)
      end
  | None => ret (mkInventory [] managed)
  end.

(** The classification of a state reported by [virsh domstate], after
    [strip().lower()]; [None] leaves the status as it was. *)
Definition classify_state (state : string) : option Status :=
  if String.eqb state "running" then Some Running
  else if bool_decide (state ∈ ["shut off"; "inactive"; "paused"; "suspended"])
       then Some Stopped
       else None.

Definition pgrep_cmd (vm_name : string) : list string :=
  ["pgrep"; "-f"; "qemu.*" +:+ vm_name].

Definition domstate_cmd (uri vm_name : string) : list string :=
  ["virsh"; "-c"; uri; "domstate"; vm_name].

(** The command a status query runs. *)
Definition status_cmd (vm_name uri : string) : list string :=
  if String.eqb uri "qemu" then pgrep_cmd vm_name else domstate_cmd uri vm_name.

Definition get_vm_status (c : Controller) (vm_name uri : string) : M W StatusResult :=
  let result := mkStatusResult Unknown None None in
  if String.eqb uri "qemu" then
    let result := mkStatusResult (r_status result) (Some Qemu) (r_uri result) in
    let* reply := run_and_wait c (pgrep_cmd vm_name) in
    match reply with
    | Some (cmd_result, _) =>
        if cmd_result =? 0
        then ret (mkStatusResult Running (r_type result) (r_uri result))
        else ret (mkStatusResult Stopped (r_type result) (r_uri result))
    | None => ret result
    end
  else if libvirt_available c && negb (String.eqb uri "qemu") then
    let result := mkStatusResult (r_status result) (Some Libvirt) (Some uri) in
    let* reply := run_and_wait c (domstate_cmd uri vm_name) in
    match reply with
    | Some (cmd_result, stdout) =>
        if cmd_result =? 0 then
          match Py.decode stdout with
          | Some text =>
              let state := Py.lower (Py.strip text) in
              match classify_state state with
              | Some st => ret (mkStatusResult st (r_type result) (r_uri result))
              | None => ret result
              end
          | None => ret result
          end
        else ret result
    | None => ret result
    end
  else ret result.

(** [str(value)] *)
Definition str (value : ConfigValue) : string :=
  match value with
  | CStr s => s
  | CBool b => Py.str_bool b
  end.

(** The loop over [vm_config.items()], extending [cmd]. *)
Definition add_config (cmd : list string) (vm_config : list (string * ConfigValue)) : list string :=
  foldl (fun cmd '(key, value) =>
           match value with
           | CBool true => (cmd ++ ["-" +:+ key])%list
           | _ => (cmd ++ ["-" +:+ key; str value])%list
           end) cmd vm_config.

Definition start_vm (c : Controller) (vm_name uri : string)
    (vm_config : option (list (string * ConfigValue))) : M W bool :=
  let* status_info := get_vm_status c vm_name uri in
  if status_eqb (r_status status_info) Running then ret true
  else if negb (String.eqb uri "qemu") && libvirt_available c then
    let* reply := run_and_wait c ["virsh"; "-c"; uri; "start"; vm_name] in
    match reply with
    | Some (cmd_result, _) =>
        if cmd_result =? 0 then
          let* _ := time_sleep 2000 in
          let* r := get_vm_status c vm_name uri in
          ret (status_eqb (r_status r) Running)
        else ret false
    | None => ret false
    end
  else if String.eqb uri "qemu" then
    let cmd := [qemu_bin_path c; "-name"; "guest=" +:+ vm_name] in
    let cmd := match vm_config with
               | Some cfg => add_config cmd cfg
               | None => cmd
               end in
    let* process := _run_command c cmd in
    match process with
    | None => ret false
    | Some _ =>
        let* _ := time_sleep 2000 in
        let* r := get_vm_status c vm_name uri in
        ret (status_eqb (r_status r) Running)
    end
  else ret false.

(** The polling loop of [stop_vm] (the same in both branches):

      [while time.time() - start_time < timeout:]
      [    if self.get_vm_status(vm_name, uri)['status'] == 'Stopped': return True]
      [    time.sleep(1)]

    The result is [true] when the loop returned [True] out of [stop_vm]
    and [false] when the time ran out.  [fuel] bounds the number of
    rounds; a loop that uses it up is [Starved]. *)
Fixpoint poll_stopped (fuel : nat) (c : Controller) (vm_name uri : string)
    (start_time timeout : Z) : M W bool :=
  match fuel with
  | O => starve
  | S fuel' =>
      let* t := time_time in
      if t - start_time <? 1000 * timeout then
        let* r := get_vm_status c vm_name uri in
        if status_eqb (r_status r) Stopped then ret true
        else
          let* _ := time_sleep 1000 in
          poll_stopped fuel' c vm_name uri start_time timeout
      else ret false
  end.

Definition destroy_cmd (uri vm_name : string) : list string :=
  ["virsh"; "-c"; uri; "destroy"; vm_name].

Definition shutdown_cmd (uri vm_name : string) : list string :=
  ["virsh"; "-c"; uri; "shutdown"; vm_name].

(** The [if not force:] block of the libvirt branch; [true] when it
    returned [True] out of [stop_vm]. *)
Definition libvirt_graceful (fuel : nat) (c : Controller) (vm_name uri : string)
    (timeout : Z) : M W bool :=
  let* start_time := time_time in
  let* seen := poll_stopped fuel c vm_name uri start_time timeout in
  if seen then ret true
  else
    let* r := get_vm_status c vm_name uri in
    if status_eqb (r_status r) Running then
      let* force_process := _run_command c (destroy_cmd uri vm_name) in
      match force_process with
      | Some p => let* _ := host_communicate p in ret false
      | None => ret false
      end
    else ret false.

(** The [else:] block after [if force:] of the direct branch; [true] when
    it returned [True] out of [stop_vm]. *)
Definition qemu_graceful (fuel : nat) (c : Controller) (vm_name uri : string)
    (timeout pid : Z) : M W bool :=
  let* _ := os_kill pid SIGTERM in
  let* start_time := time_time in
  let* seen := poll_stopped fuel c vm_name uri start_time timeout in
  if seen then ret true
  else
    let* r := get_vm_status c vm_name uri in
    if status_eqb (r_status r) Running then
      let* _ := os_kill pid SIGKILL in ret false
    else ret false.

(** [int(stdout.decode().strip())] *)
Definition parse_pid (stdout : string) : M W Z :=
  match Py.decode stdout with
  | Some text =>
      match Py.int (Py.strip text) with
      | Some pid => ret pid
      | None => raise ValueError
      end
  | None => raise UnicodeDecodeError
  end.

Definition stop_vm (c : Controller) (vm_name uri : string) (force : bool)
    (timeout : Z) (fuel : nat) : M W bool :=
  let* status_info := get_vm_status c vm_name uri in
  if status_eqb (r_status status_info) Stopped then ret true
  else if negb (String.eqb uri "qemu") && type_is (r_type status_info) Libvirt then
    try_except
      (let cmd := if force then destroy_cmd uri vm_name else shutdown_cmd uri vm_name in
       let* reply := run_and_wait c cmd in
       match reply with
       | Some (cmd_result, _) =>
           if negb (cmd_result =? 0) then ret false
           else
             let* returned :=
               (if negb force then libvirt_graceful fuel c vm_name uri timeout
                else ret false) in
             if returned then ret true
             else
               let* _ := time_sleep 200 in
               let* r := get_vm_status c vm_name uri in
               ret (status_eqb (r_status r) Stopped)
       | None => ret false
       end)
      (ret false)
  else if String.eqb uri "qemu" && type_is (r_type status_info) Qemu then
    try_except
      (let* reply := run_and_wait c (pgrep_cmd vm_name) in
       match reply with
       | Some (result, stdout) =>
           if negb (result =? 0) then ret true
           else
             let* pid := parse_pid stdout in
             let* returned :=
               (if force then let* _ := os_kill pid SIGKILL in ret false
                else qemu_graceful fuel c vm_name uri timeout pid) in
             if returned then ret true
             else
               let* _ := time_sleep 1000 in
               let* r := get_vm_status c vm_name uri in
               ret (status_eqb (r_status r) Stopped)
       | None => ret false
       end)
      (ret false)
  else ret false.

End Controller.

(** The output of a process search that matched several processes: after
    [strip()], a line feed is still inside. *)
Definition multi_line (stdout : string) : Prop :=
  In "010"%char (list_ascii_of_string (Py.strip stdout)).

(** The tokens one entry of [vm_config] adds to the command. *)
Definition config_tokens (entry : string * ConfigValue) : list string :=
  match entry with
  | (key, CBool true) => ["-" +:+ key]
  | (key, value) => ["-" +:+ key; str value]
  end.

(** The entries one list sub-command contributes: one per non-blank line
    of its output when it was spawned, exited with code 0 and its output
    decodes; none otherwise. *)
Definition listed (st : Status) (reply : option (Z * string)) : list VM :=
  match reply with
  | Some (result, stdout) =>
      if result =? 0
      then (fun vm => mkVM vm st) <$> default [] (nonblank_lines <$> Py.decode stdout)
      else []
  | None => []
  end.

(** The output of a list sub-command can be read: it is not read at all
    (the sub-command failed), or it decodes. *)
Definition readable (reply : option (Z * string)) : bool :=
  match reply with
  | Some (result, stdout) =>
      if result =? 0
      then match Py.decode stdout with Some _ => true | None => false end
      else true
  | None => true
  end.

(** A list sub-command failed: it was not spawned, or exited with a code
    other than 0. *)
Definition failed (reply : option (Z * string)) : Prop :=
  match reply with
  | Some (result, _) => result <> 0
  | None => True
  end.

(** The endpoints [get_vms] iterates over: the connections that are
    neither [None] nor empty. *)
Definition endpoints (c : Controller) (show_all_connections : bool) : list string :=
  omap (fun uri => if truthy uri then uri else None) (connections_of c show_all_connections).

(** The two list commands of an endpoint, as they reach the host. *)
Definition list_events (c : Controller) (uri : string) : list Event :=
  [Spawn (spawn_argv c (list_running_cmd uri)); Spawn (spawn_argv c (list_inactive_cmd uri))].

(** What the host replies to a command run from the state [s]. *)
Definition reply_to {W} `{HW : Host W} (c : Controller) (command : list string) (s : St W)
    : option (Z * string) :=
  match fst (run_and_wait c command s) with
  | Ret reply => reply
  | _ => None
  end.

(** The replies to the two list sub-commands of an endpoint. *)
Record Answer := mkAnswer {
  endpoint_of : string;
  running_reply : option (Z * string);
  inactive_reply : option (Z * string)
}.

(** What the host answers when the two list sub-commands of each of the
    endpoints [uris] are run in turn from the state [s]. *)
Fixpoint answers {W} `{HW : Host W} (c : Controller) (uris : list string) (s : St W)
    : list Answer :=
  match uris with
  | [] => []
  | u :: rest =>
      let s1 := snd (run_and_wait c (list_running_cmd u) s) in
      let s2 := snd (run_and_wait c (list_inactive_cmd u) s1) in
      mkAnswer u (reply_to c (list_running_cmd u) s) (reply_to c (list_inactive_cmd u) s1)
        :: answers c rest s2
  end.

Definition all_readable (a : Answer) : Prop :=
  readable (running_reply a) = true /\ readable (inactive_reply a) = true.

(** The dictionary the loop over the endpoints builds from what the host
    answers: an output that cannot be read ends it. *)
Fixpoint collect (ans : list Answer) (managed : gmap string (list VM))
    : gmap string (list VM) :=
  match ans with
  | [] => managed
  | a :: rest =>
      let l := (listed Running (running_reply a)
                ++ (if readable (running_reply a)
                    then listed Stopped (inactive_reply a) else []))%list in
      let managed := <[endpoint_of a := l]> managed in
      if readable (running_reply a) && readable (inactive_reply a)
      then collect rest managed else managed
  end.

(** The status mapping as the specification words it, on the string the
    state query returns: [running] is [Running], the four strings
    [shut off], [inactive], [paused], [suspended] are [Stopped], and every
    other string is [Unknown]. *)
Definition spec_status_mapping (reported : string) : Status :=
  if String.eqb reported "running" then Running
  else if bool_decide (reported ∈ ["shut off"; "inactive"; "paused"; "suspended"])
       then Stopped
       else Unknown.

(** ** A scripted host

    A test double for the operating system: the replies to the successive
    [Popen] calls are read off a script (the exit code and the output of
    the process, or [None] when it cannot be spawned; an exhausted script
    spawns nothing), [os.kill] succeeds or raises as [sim_kill_ok] says,
    and the clock advances by the time slept. *)

Record Sim := mkSim {
  sim_clock : Z;
  sim_script : list (option (Z * string));
  sim_kill_ok : bool
}.

#[export] Instance sim_host : Host Sim := {|
  Proc := Z * string;
  popen _ w :=
    match sim_script w with
    | r :: rest => (r, mkSim (sim_clock w) rest (sim_kill_ok w))
    | [] => (None, w)
    end;
  communicate p w := (snd p, w);
  wait p w := (fst p, w);
  kill _ _ w := (sim_kill_ok w, w);
  sleep ms w := mkSim (sim_clock w + ms) (sim_script w) (sim_kill_ok w);
  now w := sim_clock w
|}.

(** A run of [m] on the scripted host, from time 0 and an empty trace. *)
Definition sim_run {A} (m : M Sim A) (script : list (option (Z * string))) (kill_ok : bool)
    : Res A * list Event :=
  let '(r, s) := m (mkSt (mkSim 0 script kill_ok) []) in (r, trace s).

Definition sim_state (script : list (option (Z * string))) (kill_ok : bool) : St Sim :=
  mkSt (mkSim 0 script kill_ok) [].

Definition LF : string := String "010" EmptyString.

(** The no-break space U+00A0 in UTF-8, and a byte that no UTF-8 text
    holds. *)
Definition NBSP : string := String "194" (String "160" EmptyString).

Definition not_utf8 : string := String "255" EmptyString.

(** A controller outside Flatpak, with libvirt available. *)
Definition plain : Controller :=
  mkController false "qemu-system-x86_64" true None (Some "qemu:///system").

(** ** Scenarios on the scripted host *)

Definition running_out : string := "running" +:+ LF.

(** A libvirt guest that ignores [virsh shutdown]: it is still [running]
    at each of the three polls and after the timeout of 3 seconds, and is
    [shut off] once destroyed. *)
Definition stubborn_libvirt : St Sim :=
  sim_state [Some (0, running_out); Some (0, "");
             Some (0, running_out); Some (0, running_out); Some (0, running_out);
             Some (0, running_out); Some (0, ""); Some (0, "shut off" +:+ LF)] true.

Definition stubborn_libvirt_1 : St Sim :=
  snd (get_vm_status plain "Fedora39" "qemu:///system" stubborn_libvirt).

Definition stubborn_libvirt_2 : St Sim :=
  snd (run_and_wait plain (shutdown_cmd "qemu:///system" "Fedora39") stubborn_libvirt_1).

Definition stubborn_libvirt_3 : St Sim :=
  snd (poll_stopped 4 plain "Fedora39" "qemu:///system"
         (now (world stubborn_libvirt_2)) 3 stubborn_libvirt_2).

Definition stubborn_libvirt_4 : St Sim :=
  snd (get_vm_status plain "Fedora39" "qemu:///system" stubborn_libvirt_3).

(** A direct QEMU process, pid 4242, that ignores SIGTERM: the process
    search finds it at each poll and after the timeout, and no more once
    killed. *)
Definition pid_out : string := "4242" +:+ LF.

Definition stubborn_qemu : St Sim :=
  sim_state [Some (0, pid_out); Some (0, pid_out);
             Some (0, pid_out); Some (0, pid_out); Some (0, pid_out);
             Some (0, pid_out); Some (1, "")] true.

Definition stubborn_qemu_1 : St Sim :=
  snd (get_vm_status plain "Fedora39" "qemu" stubborn_qemu).

Definition stubborn_qemu_2 : St Sim :=
  snd (run_and_wait plain (pgrep_cmd "Fedora39") stubborn_qemu_1).

Definition stubborn_qemu_3 : St Sim :=
  snd (poll_stopped 4 plain "Fedora39" "qemu" 0 3
         (mkSt (world stubborn_qemu_2) (trace stubborn_qemu_2 ++ [Kill 4242 SIGTERM]))).

Definition stubborn_qemu_4 : St Sim :=
  snd (get_vm_status plain "Fedora39" "qemu" stubborn_qemu_3).

(** A libvirt guest that is shutting down slowly: [virsh domstate] answers
    [in shutdown] at every query. *)
Definition shutting_down_out : string := "in shutdown" +:+ LF.

Definition slow_libvirt : list (option (Z * string)) :=
  [Some (0, running_out); Some (0, "");
   Some (0, shutting_down_out); Some (0, shutting_down_out); Some (0, shutting_down_out);
   Some (0, shutting_down_out); Some (0, shutting_down_out)].

Definition slow_libvirt_0 : St Sim := sim_state slow_libvirt true.

Definition slow_libvirt_1 : St Sim :=
  snd (get_vm_status plain "Fedora39" "qemu:///system" slow_libvirt_0).

Definition slow_libvirt_2 : St Sim :=
  snd (run_and_wait plain (shutdown_cmd "qemu:///system" "Fedora39") slow_libvirt_1).

Definition slow_libvirt_3 : St Sim :=
  snd (poll_stopped 4 plain "Fedora39" "qemu:///system"
         (now (world slow_libvirt_2)) 3 slow_libvirt_2).

Definition slow_libvirt_4 : St Sim :=
  snd (get_vm_status plain "Fedora39" "qemu:///system" slow_libvirt_3).

(** A direct QEMU process, pid 4242, that takes its time over SIGTERM: the
    process search finds it at each of the three polls, and no more by the
    query after the timeout. *)
Definition late_qemu : St Sim :=
  sim_state [Some (0, pid_out); Some (0, pid_out);
             Some (0, pid_out); Some (0, pid_out); Some (0, pid_out);
             Some (1, ""); Some (1, "")] true.

Definition late_qemu_1 : St Sim :=
  snd (get_vm_status plain "Fedora39" "qemu" late_qemu).

Definition late_qemu_2 : St Sim :=
  snd (run_and_wait plain (pgrep_cmd "Fedora39") late_qemu_1).

Definition late_qemu_3 : St Sim :=
  snd (poll_stopped 4 plain "Fedora39" "qemu" 0 3
         (mkSt (world late_qemu_2) (trace late_qemu_2 ++ [Kill 4242 SIGTERM]))).

Definition late_qemu_4 : St Sim :=
  snd (get_vm_status plain "Fedora39" "qemu" late_qemu_3).

(** A system endpoint whose running list fails while its inactive list
    answers [vm1]; the session endpoint lists a running [vm2]. *)
Definition half_failed : list (option (Z * string)) :=
  [Some (1, ""); Some (0, "vm1" +:+ LF);
   Some (0, "vm2" +:+ LF); Some (0, ""); Some (0, "")].

(** A system endpoint whose running list exits with code 0 and prints a
    byte that is not UTF-8; the process scan finds nothing. *)
Definition garbled : list (option (Z * string)) :=
  [Some (0, not_utf8); Some (0, "")].

(** A forced stop of a running libvirt guest; [destroy] exits with code
    [destroy_code], and the guest is [shut off] afterwards. *)
Definition forced_libvirt (destroy_code : Z) : St Sim :=
  sim_state [Some (0, running_out); Some (destroy_code, ""); Some (0, "shut off" +:+ LF)] true.

Definition forced_libvirt_1 (destroy_code : Z) : St Sim :=
  snd (get_vm_status plain "Fedora39" "qemu:///system" (forced_libvirt destroy_code)).

Definition forced_libvirt_2 (destroy_code : Z) : St Sim :=
  snd (run_and_wait plain (destroy_cmd "qemu:///system" "Fedora39")
         (forced_libvirt_1 destroy_code)).

(** A controller without libvirt. *)
Definition bare : Controller :=
  mkController false "qemu-system-x86_64" false None None.

(** ** What a computation adds to the trace *)

(** [emits P m]: from any state, the trace after [m] is the trace before
    followed by events that all satisfy [P]. *)
Definition emits {W A} (P : Event -> Prop) (m : M W A) : Prop :=
  forall s, exists evs, trace (snd (m s)) = (trace s ++ evs)%list /\ Forall P evs.



(** A status query that reported [st] and left the state [s']. *)
Definition observed {W} `{HW : Host W} (c : Controller) (vm_name uri : string)
    (st : Status) (s' : St W) : Prop :=
  exists s0 r, get_vm_status c vm_name uri s0 = (Ret r, s') /\ r_status r = st.

(** A list of an endpoint as [get_vms] builds it: entries marked
    [Running], then entries marked [Stopped], none with a blank name. *)
Definition named (st : Status) (vm : VM) : Prop :=
  vm_status_of vm = st /\ Py.is_empty (Py.strip (vm_name_of vm)) = false.

Definition well_listed (l : list VM) : Prop :=
  exists running stopped,
    l = (running ++ stopped)%list
    /\ Forall (named Running) running /\ Forall (named Stopped) stopped.

(** The names the process scan extracts from a listing that are not
    managed, in the order of the lines. *)
Definition unmanaged_guests (names : gset string) (stdout : string) : list string :=
  List.filter (fun n => bool_decide (n ∉ names))
    (omap Py.guest_re_search (Py.splitlines stdout)).

Definition start_cmd (uri vm_name : string) : list string :=
  ["virsh"; "-c"; uri; "start"; vm_name].

(** The command of the direct branch of [start_vm]. *)
Definition qemu_cmd (c : Controller) (vm_name : string)
    (vm_config : option (list (string * ConfigValue))) : list string :=
  qemu_bin_path c :: "-name" :: ("guest=" +:+ vm_name)
    :: flat_map config_tokens (default [] vm_config).

(** The host calls [start_vm] can make. *)
Definition start_events (c : Controller) (vm_name uri : string)
    (vm_config : option (list (string * ConfigValue))) (e : Event) : Prop :=
  e = Spawn (spawn_argv c (status_cmd vm_name uri))
  \/ e = Sleep 2000
  \/ (uri <> "qemu" /\ e = Spawn (spawn_argv c (start_cmd uri vm_name)))
  \/ (uri = "qemu" /\ e = Spawn (spawn_argv c (qemu_cmd c vm_name vm_config))).

(** The host calls [stop_vm] can make. *)
Definition stop_events (c : Controller) (vm_name uri : string) (force : bool)
    (e : Event) : Prop :=
  e = Spawn (spawn_argv c (status_cmd vm_name uri))
  \/ (uri <> "qemu"
      /\ (e = Sleep 200
          \/ e = Spawn (spawn_argv c (destroy_cmd uri vm_name))
          \/ (force = false
              /\ (e = Spawn (spawn_argv c (shutdown_cmd uri vm_name)) \/ e = Sleep 1000))))
  \/ (uri = "qemu"
      /\ (e = Sleep 1000
          \/ (exists pid, e = Kill pid SIGKILL)
          \/ (force = false /\ exists pid, e = Kill pid SIGTERM))).

(** A command that goes through [flatpak-spawn --host]. *)
Definition routed (e : Event) : Prop :=
  match e with
  | Spawn argv => exists command, argv = "flatpak-spawn" :: "--host" :: command
  | _ => True
  end.


(** ** The toggle action ([src/actions/ToggleState/ToggleState.py]) *)

Section ToggleState.
Context {W : Type} `{HW : Host W}.

(** [settings.get(key, "")] *)
Definition setting (settings : gmap string string) (key : string) : string :=
  default "" (settings !! key).

(** [ToggleState.get_is_running]; [c] is [self.controller]. *)
Definition get_is_running (c : Controller) (settings : gmap string string) : M W bool :=
  let vm_name := setting settings "vm_name" in
  let uri := setting settings "uri" in
  if Py.is_empty vm_name || Py.is_empty uri then ret false
  else
    let* r := get_vm_status c vm_name uri in
    ret (status_eqb (r_status r) Running).

(** The icon [set_status_image] picks under [assets]. *)
Definition set_status_image (c : Controller) (settings : gmap string string) : M W string :=
  let* running := get_is_running c settings in
  if running then ret "running.png" else ret "stopped.png".

(** [ToggleState.on_key_down]: [stop_vm] is called with [force=False] and
    its default timeout of 3 seconds, [start_vm] without configuration. *)
Definition on_key_down (c : Controller) (settings : gmap string string) (fuel : nat) : M W unit :=
  try_except
    (let vm_name := setting settings "vm_name" in
     let uri := setting settings "uri" in
     if Py.is_empty vm_name || Py.is_empty uri then ret tt
     else
       let* vm_status := get_vm_status c vm_name uri in
       if status_eqb (r_status vm_status) Running then
         let* _ := stop_vm c vm_name uri false 3 fuel in ret tt
       else
         let* _ := start_vm c vm_name uri None in ret tt)
    (ret tt).

End ToggleState.

(** ** Further scenarios on the scripted host *)

(** A libvirt guest that obeys [virsh shutdown]: [shut off] at the first
    poll. *)
Definition polite_libvirt : St Sim :=
  sim_state [Some (0, running_out); Some (0, ""); Some (0, "shut off" +:+ LF)] true.

Definition polite_libvirt_1 : St Sim :=
  snd (get_vm_status plain "Fedora39" "qemu:///system" polite_libvirt).



(** A direct QEMU process, pid 4242, that goes away at the first signal. *)
Definition polite_qemu : St Sim :=
  sim_state [Some (0, pid_out); Some (0, pid_out); Some (1, "")] true.

Definition polite_qemu_1 : St Sim :=
  snd (get_vm_status plain "Fedora39" "qemu" polite_qemu).

Definition polite_qemu_2 : St Sim :=
  snd (run_and_wait plain (pgrep_cmd "Fedora39") polite_qemu_1).


(** A direct QEMU process that is gone by the time [stop_vm] searches for
    its process id. *)
Definition vanished_qemu : St Sim := sim_state [Some (0, pid_out); Some (1, "")] true.

Definition vanished_qemu_1 : St Sim :=
  snd (get_vm_status plain "Fedora39" "qemu" vanished_qemu).

Definition vanished_qemu_2 : St Sim :=
  snd (run_and_wait plain (pgrep_cmd "Fedora39") vanished_qemu_1).

(** A stopped libvirt guest that [virsh start] brings up. *)
Definition startable_libvirt : St Sim :=
  sim_state [Some (0, "shut off" +:+ LF); Some (0, ""); Some (0, running_out)] true.

Definition startable_libvirt_1 : St Sim :=
  snd (get_vm_status plain "Fedora39" "qemu:///system" startable_libvirt).

Definition startable_libvirt_2 : St Sim :=
  snd (run_and_wait plain (start_cmd "qemu:///system" "Fedora39") startable_libvirt_1).

(** A controller under Flatpak. *)
Definition boxed : Controller :=
  mkController true "qemu-system-x86_64" true None (Some "qemu:///system").

(** The settings of an action with [Fedora39] on the system endpoint
    selected. *)
Definition selected : gmap string string :=
  <["vm_name" := "Fedora39"]> (<["uri" := "qemu:///system"]> ∅).

(** * Properties *)

(** ** Python string built-ins *)

Section PyFacts.
Import Py.

(** *** Dropping code points at the head *)

Section DropCodes.
Variable len : list ascii -> nat.
Hypothesis len_le : forall l, (len l <= List.length l)%nat.

Lemma drop_codes_fix rounds l : len l = O -> drop_codes len rounds l = l.
Proof. intros H. destruct rounds; simpl; [done|]. by rewrite H. Qed.

Lemma drop_codes_done rounds l :
  (List.length l <= rounds)%nat -> len (drop_codes len rounds l) = O.
Proof.
  revert l. induction rounds as [|rounds IH]; intros l Hl; simpl.
  - pose proof (len_le l). lia.
  - destruct (len l) as [|n] eqn:E; [done|].
    apply IH. rewrite length_drop. lia.
Qed.

(** What is dropped is a sequence of recognised code points. *)
Lemma drop_codes_split (Q : list ascii -> Prop) :
  Q [] ->
  (forall l n p, len l = S n -> Q p -> Q (take (S n) l ++ p)%list) ->
  forall rounds l, exists p, l = (p ++ drop_codes len rounds l)%list /\ Q p.
Proof.
  intros Hnil Hcons. induction rounds as [|rounds IH]; intros l; simpl.
  - by exists [].
  - destruct (len l) as [|n] eqn:E; [by exists []|].
    destruct (IH (drop (S n) l)) as (p & Hp & HQ).
    exists (take (S n) l ++ p)%list. split; [|by apply Hcons].
    rewrite <- app_assoc, <- Hp. by rewrite take_drop.
Qed.

End DropCodes.

Lemma code_len_le p1 p2 p3 l : (code_len p1 p2 p3 l <= List.length l)%nat.
Proof.
  destruct l as [|c [|d [|e l]]]; simpl; [lia| | |].
  - destruct (p1 c); lia.
  - destruct (p2 c d); [lia|]. destruct (p1 c); lia.
  - destruct (p3 c d e); [lia|]. destruct (p2 c d); [lia|]. destruct (p1 c); lia.
Qed.

(** A text that starts with a recognised code point still does when it is
    extended. *)
Lemma code_len_app p1 p2 p3 l x :
  code_len p1 p2 p3 l <> O -> code_len p1 p2 p3 (l ++ x) <> O.
Proof.
  destruct l as [|c [|d [|e l]]]; simpl; [done| | |done].
  - destruct (p1 c) eqn:H1; [|done]. intros _.
    destruct x as [|d [|e x]]; simpl; rewrite ?H1; [done| |].
    + by destruct (p2 c d).
    + destruct (p3 c d e); [done|]. by destruct (p2 c d).
  - intros H. destruct x as [|e x]; simpl; [done|].
    destruct (p3 c d e); [done|]. done.
Qed.

Lemma lstrip_fix l : space_len l = O -> lstrip l = l.
Proof. apply drop_codes_fix. Qed.

Lemma lstrip_done l : space_len (lstrip l) = O.
Proof. apply drop_codes_done; [apply code_len_le|done]. Qed.

Lemma rstrip_prefix l : exists q, l = (rstrip l ++ q)%list.
Proof.
  unfold rstrip.
  destruct (drop_codes_split space_len_rev (fun _ => True) I (fun _ _ _ _ _ => I)
              (List.length l) (rev l)) as (p & Hp & _).
  exists (rev p). rewrite <- rev_app_distr, <- Hp. by rewrite rev_involutive.
Qed.

Lemma rstrip_idemp l : rstrip (rstrip l) = rstrip l.
Proof.
  unfold rstrip. rewrite rev_involutive.
  rewrite drop_codes_fix; [done|].
  apply drop_codes_done; [apply code_len_le|]. by rewrite length_rev.
Qed.

Lemma strip_list_idemp l :
  rstrip (lstrip (rstrip (lstrip l))) = rstrip (lstrip l).
Proof.
  rewrite (lstrip_fix (rstrip (lstrip l))); [apply rstrip_idemp|].
  destruct (rstrip_prefix (lstrip l)) as [q Hq].
  destruct (space_len (rstrip (lstrip l))) eqn:E; [done|].
  exfalso.
  apply (code_len_app isspace isspace2 isspace3 (rstrip (lstrip l)) q).
  - fold space_len. by rewrite E.
  - rewrite <- Hq. apply lstrip_done.
Qed.

Lemma strip_idemp s : strip (strip s) = strip s.
Proof.
  unfold strip. rewrite list_ascii_of_string_of_list_ascii.
  by rewrite strip_list_idemp.
Qed.

Lemma digits_go_stray (c : ascii) s :
  In c (list_ascii_of_string s) -> digit_val c = None -> c <> "_"%char ->
  forall acc prev, digits_go acc prev s = None.
Proof.
  intros Hin Hd Hu. induction s as [|a t IH]; simpl in *; [done|].
  intros acc prev. destruct Hin as [->|Hin].
  - rewrite Hd. destruct (Ascii.eqb_spec c "_"); [done|]. done.
  - destruct (digit_val a); [by apply IH|].
    destruct (Ascii.eqb a "_" && prev); [by apply IH|done].
Qed.

(** [int] raises [ValueError] on a text that keeps a line feed inside
    after stripping. *)
Lemma int_multi_line stdout : multi_line stdout -> int (strip stdout) = None.
Proof.
  unfold multi_line, int. rewrite strip_idemp.
  destruct (strip stdout) as [|c t]; [done|]. intros Hin.
  assert (Hlf : forall u, In "010"%char (list_ascii_of_string u) ->
                          forall acc prev, digits_go acc prev u = None).
  { intros u Hu. by apply (digits_go_stray "010"). }
  destruct (Ascii.eqb_spec c "-") as [->|_].
  - destruct Hin as [Hin|Hin]; [done|]. by rewrite Hlf.
  - destruct (Ascii.eqb_spec c "+") as [->|_].
    + destruct Hin as [Hin|Hin]; [done|]. by rewrite Hlf.
    + by rewrite Hlf.
Qed.

(** *** Whitespace and digits are well-formed UTF-8 *)

Ltac byte_cases H :=
  unfold isspace2, isspace3, utf8_step, byte_is, in_range in *;
  repeat match type of H with
         | context [(?x =? ?y)%N] => destruct (N.eqb_spec x y); simpl in H; try discriminate H
         | context [(?x <=? ?y)%N] => destruct (N.leb_spec x y); simpl in H; try discriminate H
         end;
  repeat match goal with
         | |- context [(?x =? ?y)%N] => destruct (N.eqb_spec x y); simpl; try lia
         | |- context [(?x <=? ?y)%N] => destruct (N.leb_spec x y); simpl; try lia
         end;
  try done.

Lemma isspace_step c : isspace c = true -> utf8_step U0 c = Some U0.
Proof.
  destruct c as [[] [] [] [] [] [] [] []]; intros H; vm_compute in H |- *;
    congruence.
Qed.

Lemma isspace2_step c d :
  isspace2 c d = true -> utf8_step U0 c = Some U1 /\ utf8_step U1 d = Some U0.
Proof. intros H. split; byte_cases H. Qed.

Lemma isspace3_step c d e :
  isspace3 c d e = true ->
  utf8_step U0 c = Some U2 /\ utf8_step U2 d = Some U1 /\ utf8_step U1 e = Some U0.
Proof. intros H. repeat split; byte_cases H. Qed.

Lemma whole_nil : whole [].
Proof. done. Qed.

Lemma whole_app x y : whole x -> whole y -> whole (x ++ y).
Proof. intros Hx Hy z. by rewrite <- app_assoc, Hx, Hy. Qed.

Lemma whole_space l n : space_len l = S n -> whole (take (S n) l).
Proof.
  unfold space_len, code_len. intros H y.
  destruct l as [|c [|d [|e l]]]; [done| | |].
  - destruct (isspace c) eqn:H1; [|done]. injection H as <-. simpl take. simpl rev. cbn [app utf8_run].
    by rewrite (isspace_step _ H1).
  - destruct (isspace2 c d) eqn:H2.
    + injection H as <-. simpl take. simpl rev. cbn [app utf8_run]. destruct (isspace2_step _ _ H2) as [-> ->]. done.
    + destruct (isspace c) eqn:H1; [|done]. injection H as <-. simpl take. simpl rev. cbn [app utf8_run].
      by rewrite (isspace_step _ H1).
  - destruct (isspace3 c d e) eqn:H3.
    + injection H as <-. simpl take. simpl rev. cbn [app utf8_run]. destruct (isspace3_step _ _ _ H3) as (-> & -> & ->). done.
    + destruct (isspace2 c d) eqn:H2.
      * injection H as <-. simpl take. simpl rev. cbn [app utf8_run]. destruct (isspace2_step _ _ H2) as [-> ->]. done.
      * destruct (isspace c) eqn:H1; [|done]. injection H as <-. simpl take. simpl rev. cbn [app utf8_run].
        by rewrite (isspace_step _ H1).
Qed.

Lemma whole_space_rev l n : space_len_rev l = S n -> whole (rev (take (S n) l)).
Proof.
  unfold space_len_rev, code_len. intros H y.
  destruct l as [|c [|d [|e l]]]; [done| | |].
  - destruct (isspace c) eqn:H1; [|done]. injection H as <-. simpl take. simpl rev. cbn [app utf8_run].
    by rewrite (isspace_step _ H1).
  - destruct (isspace2 d c) eqn:H2.
    + injection H as <-. simpl take. simpl rev. cbn [app utf8_run]. destruct (isspace2_step _ _ H2) as [-> ->]. done.
    + destruct (isspace c) eqn:H1; [|done]. injection H as <-. simpl take. simpl rev. cbn [app utf8_run].
      by rewrite (isspace_step _ H1).
  - destruct (isspace3 e d c) eqn:H3.
    + injection H as <-. simpl take. simpl rev. cbn [app utf8_run]. destruct (isspace3_step _ _ _ H3) as (-> & -> & ->). done.
    + destruct (isspace2 d c) eqn:H2.
      * injection H as <-. simpl take. simpl rev. cbn [app utf8_run]. destruct (isspace2_step _ _ H2) as [-> ->]. done.
      * destruct (isspace c) eqn:H1; [|done]. injection H as <-. simpl take. simpl rev. cbn [app utf8_run].
        by rewrite (isspace_step _ H1).
Qed.

(** A text is its stripped text between two runs of whitespace. *)
Lemma strip_split l :
  exists p q, l = (p ++ rstrip (lstrip l) ++ q)%list /\ whole p /\ whole q.
Proof.
  destruct (drop_codes_split space_len whole whole_nil
              (fun l n p H Hp => whole_app _ _ (whole_space l n H) Hp)
              (List.length l) l) as (p & Hp & Wp).
  fold (lstrip l) in Hp.
  destruct (drop_codes_split space_len_rev (fun x => whole (rev x)) whole_nil) 
    with (rounds := List.length (lstrip l)) (l := rev (lstrip l)) as (q & Hq & Wq).
  { intros l' n p' H Hp'. rewrite rev_app_distr.
    apply whole_app; [done|by apply whole_space_rev]. }
  exists p, (rev q). split; [|done].
  rewrite Hp at 1. f_equal. unfold rstrip.
  rewrite <- rev_app_distr, <- Hq. by rewrite rev_involutive.
Qed.

Lemma whole_ascii7 x : Forall ascii7 x -> whole x.
Proof.
  induction 1 as [|c x Hc _ IH]; [done|]. intros y.
  cbn [app utf8_run]. unfold utf8_step. rewrite Hc. apply IH.
Qed.

Lemma digit_val_ascii7 c d : digit_val c = Some d -> ascii7 c.
Proof.
  destruct c as [[] [] [] [] [] [] [] []]; intros H; vm_compute in H |- *;
    congruence.
Qed.

Lemma digits_go_ascii7 s :
  forall acc prev v, digits_go acc prev s = Some v ->
  Forall ascii7 (list_ascii_of_string s).
Proof.
  induction s as [|c t IH]; intros acc prev v; simpl; [done|].
  destruct (digit_val c) as [d|] eqn:Hd.
  - intros H. constructor; [by eapply digit_val_ascii7|by eapply IH].
  - destruct (Ascii.eqb_spec c "_") as [->|]; [|done].
    destruct prev; [|done]. simpl. intros H. constructor; [done|by eapply IH].
Qed.

Lemma decode_inv b text : decode b = Some text -> text = b.
Proof.
  unfold decode. destruct (utf8_run U0 _) as [[]|]; congruence.
Qed.

(** A text that [int] reads after [strip()] is well-formed: what
    [int(stdout.decode().strip())] reads, [int] reads off the bytes. *)
Lemma int_decodes stdout pid :
  int (strip stdout) = Some pid -> decode stdout = Some stdout.
Proof.
  unfold int. rewrite strip_idemp. intros H.
  assert (Ha : Forall ascii7 (list_ascii_of_string (strip stdout))).
  { destruct (strip stdout) as [|c t]; [done|].
    destruct (Ascii.eqb_spec c "-") as [->|_].
    - destruct (digits_go 0 false t) eqn:E; [|done].
      constructor; [done|by eapply digits_go_ascii7].
    - destruct (Ascii.eqb_spec c "+") as [->|_].
      + constructor; [done|by eapply digits_go_ascii7].
      + by eapply digits_go_ascii7. }
  unfold strip in Ha. rewrite list_ascii_of_string_of_list_ascii in Ha.
  destruct (strip_split (list_ascii_of_string stdout)) as (p & q & Hl & Wp & Wq).
  unfold decode. rewrite Hl, Wp, (whole_ascii7 _ Ha).
  rewrite <- (app_nil_r q), Wq. done.
Qed.

End PyFacts.

(** ** Host calls and the status query *)

Ltac unfold_monad :=
  unfold bind, ret, raise, starve, try_except, _run_command, host_popen,
    host_communicate, host_wait, os_kill, time_sleep, time_time in *.

Section StatusFacts.
Context {W : Type} `{HW : Host W}.

Lemma bind_ret_eq {A B} (m : M W A) (k : A -> M W B) s a s' :
  m s = (Ret a, s') -> bind m k s = k a s'.
Proof. intros Hm. unfold bind. by rewrite Hm. Qed.

(** A command run to completion always gives a reply, and leaves exactly
    one [Spawn] in the trace. *)
Lemma run_and_wait_ret c cmd (s : St W) :
  exists reply s',
    run_and_wait c cmd s = (Ret reply, s')
    /\ trace s' = (trace s ++ [Spawn (spawn_argv c cmd)])%list.
Proof.
  unfold run_and_wait. unfold_monad.
  destruct (popen (spawn_argv c cmd) (world s)) as [[p|] w1]; simpl.
  - destruct (communicate p w1) as [out w2]; simpl.
    destruct (wait p w2) as [code w3]; simpl. eauto.
  - eauto.
Qed.

Lemma run_and_wait_clock `{HC : !HostClock W} c cmd (s : St W) reply s' :
  run_and_wait c cmd s = (Ret reply, s') -> now (world s) <= now (world s').
Proof.
  unfold run_and_wait. unfold_monad.
  pose proof (popen_clock (spawn_argv c cmd) (world s)) as H1.
  destruct (popen (spawn_argv c cmd) (world s)) as [[p|] w1]; simpl in *.
  - pose proof (communicate_clock p w1) as H2.
    destruct (communicate p w1) as [out w2]; simpl in *.
    pose proof (wait_clock p w2) as H3.
    destruct (wait p w2) as [code w3]; simpl in *.
    intros [= <- <-]. simpl. lia.
  - intros [= <- <-]. simpl. lia.
Qed.

(** [get_vm_status] always returns; it runs at most one command, the
    status query; the result carries an endpoint exactly when its type is
    libvirt; and the type follows the endpoint identifier. *)
Lemma get_vm_status_inv c n u (s : St W) :
  exists r s',
    get_vm_status c n u s = (Ret r, s')
    /\ (trace s' = (trace s ++ [Spawn (spawn_argv c (status_cmd n u))])%list
        \/ (s' = s /\ r = mkStatusResult Unknown None None
            /\ u <> "qemu" /\ libvirt_available c = false))
    /\ (r_uri r <> None <-> r_type r = Some Libvirt)
    /\ (r_uri r = None \/ r_uri r = Some u)
    /\ (u = "qemu" -> r_type r = Some Qemu)
    /\ (u <> "qemu" -> r_status r <> Unknown ->
        r_type r = Some Libvirt /\ libvirt_available c = true).
Proof.
  unfold get_vm_status, status_cmd.
  destruct (String.eqb_spec u "qemu") as [->|Hu]; simpl.
  - destruct (run_and_wait_ret c (pgrep_cmd n) s) as (reply & s' & Hr & Ht).
    rewrite (bind_ret_eq _ _ _ _ _ Hr).
    destruct reply as [[code out]|]; [destruct (code =? 0)|]; unfold ret;
      eexists _, _; (split; [reflexivity|]); simpl;
      repeat split; auto; try done.
  - destruct (libvirt_available c); simpl.
    + destruct (run_and_wait_ret c (domstate_cmd u n) s) as (reply & s' & Hr & Ht).
      rewrite (bind_ret_eq _ _ _ _ _ Hr).
      destruct reply as [[code out]|];
        [destruct (code =? 0); [destruct (Py.decode out); [destruct (classify_state _)|]|]|]; unfold ret;
        eexists _, _; (split; [reflexivity|]); simpl;
        repeat split; auto; try done.
    + unfold ret. eexists _, _. split; [reflexivity|]. simpl.
      repeat split; auto; try done.
Qed.

Lemma get_vm_status_clock `{HC : !HostClock W} c n u (s : St W) r s' :
  get_vm_status c n u s = (Ret r, s') -> now (world s) <= now (world s').
Proof.
  unfold get_vm_status.
  destruct (String.eqb u "qemu"); simpl.
  - destruct (run_and_wait_ret c (pgrep_cmd n) s) as (reply & s1 & Hr & _).
    rewrite (bind_ret_eq _ _ _ _ _ Hr). apply run_and_wait_clock in Hr.
    destruct reply as [[code out]|]; [destruct (code =? 0)|]; unfold ret;
      intros [= <- <-]; done.
  - destruct (libvirt_available c); simpl.
    + destruct (run_and_wait_ret c (domstate_cmd u n) s) as (reply & s1 & Hr & _).
      rewrite (bind_ret_eq _ _ _ _ _ Hr). apply run_and_wait_clock in Hr.
      destruct reply as [[code out]|];
        [destruct (code =? 0); [destruct (Py.decode out); [destruct (classify_state _)|]|]|]; unfold ret;
        intros [= <- <-]; done.
    + unfold ret. intros [= <- <-]. lia.
Qed.

End StatusFacts.

(** ** The status query: endpoint, backend and state mapping *)

Section StatusClaims.
Context {W : Type} `{HW : Host W}.

(** C7.  Whatever the external commands answer, [get_vm_status] returns a
    result whose endpoint ([uri]) is set if and only if its backend
    ([type]) is libvirt, the management daemon. *)
Theorem status_endpoint_iff_libvirt c vm_name uri (s : St W) :
  exists r s',
    get_vm_status c vm_name uri s = (Ret r, s')
    /\ (is_Some (r_uri r) <-> r_type r = Some Libvirt).
Proof.
  destruct (get_vm_status_inv c vm_name uri s) as (r & s' & Hg & _ & Hiff & _).
  exists r, s'. split; [done|]. rewrite <- Hiff.
  rewrite <- not_eq_None_Some. done.
Qed.

(** C6 (amended).  When the state query exits with code 0, the status is
    decided by the state it reports, read without regard to case: the
    output decoded, then [strip()] and [lower()].  [running] gives
    [Running], each of [shut off], [inactive], [paused], [suspended]
    gives [Stopped], and any other text gives [Unknown]; so does an output
    that cannot be decoded. *)
Theorem domstate_mapping_normalised c vm_name uri (s s' : St W) stdout :
  uri <> "qemu" ->
  libvirt_available c = true ->
  run_and_wait c (domstate_cmd uri vm_name) s = (Ret (Some (0, stdout)), s') ->
  exists r,
    get_vm_status c vm_name uri s = (Ret r, s')
    /\ r_status r = match Py.decode stdout with
                    | Some text => spec_status_mapping (Py.lower (Py.strip text))
                    | None => Unknown
                    end.
Proof.
  intros Hu Hav Hrun. unfold get_vm_status.
  destruct (String.eqb_spec uri "qemu") as [?|_]; [done|].
  rewrite Hav. simpl. rewrite (bind_ret_eq _ _ _ _ _ Hrun). simpl.
  destruct (Py.decode stdout) as [text|]; [|by eexists].
  unfold classify_state, spec_status_mapping.
  destruct (String.eqb _ "running"); [by eexists|].
  destruct (bool_decide _); by eexists.
Qed.

End StatusClaims.

(** The scripted host at work: a daemon that answers [Shut Off] with a
    trailing line feed. *)
Lemma domstate_mapping_normalised_witness :
  exists r,
    get_vm_status plain "Fedora39" "qemu:///system"
      (sim_state [Some (0, "Shut Off" +:+ LF)] true)
    = (Ret r, mkSt (mkSim 0 [] true)
                [Spawn (domstate_cmd "qemu:///system" "Fedora39")])
    /\ r_status r = Stopped.
Proof.
  apply (domstate_mapping_normalised plain "Fedora39" "qemu:///system"
           (sim_state [Some (0, "Shut Off" +:+ LF)] true) _ ("Shut Off" +:+ LF));
    [discriminate | reflexivity | reflexivity].
Defined.

(** C6 as worded fails on a state reported in capitals: [PAUSED] is none
    of the five strings, so the wording sends it to [Unknown], while the
    code lower-cases it and reports [Stopped]. *)
Lemma domstate_upper_case_counterexample :
  sim_run (get_vm_status plain "Fedora39" "qemu:///system")
    [Some (0, "PAUSED")] true
  = (Ret (mkStatusResult Stopped (Some Libvirt) (Some "qemu:///system")),
     [Spawn (domstate_cmd "qemu:///system" "Fedora39")])
  /\ spec_status_mapping "PAUSED" = Unknown.
Proof. split; vm_compute; reflexivity. Qed.

(** ** Starting and stopping *)

Section LifecycleClaims.
Context {W : Type} `{HW : Host W}.

(** C5.  When the first status query reports [Running], [start_vm]
    returns [True] at once, and when it reports [Stopped], [stop_vm]
    returns [True] at once: the state of the host is the one the status
    query left, and the only command in the trace is that query. *)
Theorem start_stop_idempotent c vm_name uri (s s1 : St W) r :
  get_vm_status c vm_name uri s = (Ret r, s1) ->
  (r_status r = Running ->
     forall vm_config, start_vm c vm_name uri vm_config s = (Ret true, s1))
  /\ (r_status r = Stopped ->
        forall force timeout fuel,
          stop_vm c vm_name uri force timeout fuel s = (Ret true, s1))
  /\ (r_status r <> Unknown ->
        trace s1 = (trace s ++ [Spawn (spawn_argv c (status_cmd vm_name uri))])%list).
Proof.
  intros Hg. split; [|split].
  - intros Hr cfg. unfold start_vm. rewrite (bind_ret_eq _ _ _ _ _ Hg).
    by rewrite Hr.
  - intros Hr force timeout fuel. unfold stop_vm.
    rewrite (bind_ret_eq _ _ _ _ _ Hg). by rewrite Hr.
  - intros Hr.
    destruct (get_vm_status_inv c vm_name uri s) as (r' & s' & Hg' & Ht & _).
    rewrite Hg in Hg'. injection Hg' as <- <-.
    destruct Ht as [Ht|(_ & -> & _)]; [done|]. by destruct Hr.
Qed.

Lemma add_config_app vm_config cmd :
  add_config cmd vm_config = (cmd ++ flat_map config_tokens vm_config)%list.
Proof.
  unfold add_config. revert cmd.
  induction vm_config as [|[key value] rest IH]; intros cmd; simpl.
  - by rewrite app_nil_r.
  - rewrite IH. destruct value as [v|[|]]; simpl; by rewrite <- app_assoc.
Qed.

(** C9.  On the direct path (endpoint [qemu], the VM not reported
    [Running], no Flatpak re-routing) [start_vm] spawns the binary with
    [-name guest=<name>] followed by the tokens of the configuration in
    order: a bare flag for a boolean true, a flag and the stringified
    value otherwise.  Nothing else is spawned but the status query; for
    [{"m": "2048", "enable-kvm": True}] the command is
    [<binary> -name guest=<name> -m 2048 -enable-kvm]. *)
Theorem start_vm_direct_argv c vm_name vm_config (s s1 : St W) r :
  flatpak c = false ->
  get_vm_status c vm_name "qemu" s = (Ret r, s1) ->
  r_status r <> Running ->
  let cmd := (qemu_bin_path c :: "-name" :: ("guest=" +:+ vm_name)
              :: flat_map config_tokens (default [] vm_config)) in
  (exists b s2 rest,
     start_vm c vm_name "qemu" vm_config s = (Ret b, s2)
     /\ trace s2 = (trace s1 ++ Spawn cmd :: rest)%list
     /\ (rest = [] \/ rest = [Sleep 2000; Spawn (pgrep_cmd vm_name)]))
  /\ (vm_config = Some [("m", CStr "2048"); ("enable-kvm", CBool true)] ->
      cmd = [qemu_bin_path c; "-name"; "guest=" +:+ vm_name;
             "-m"; "2048"; "-enable-kvm"]).
Proof.
  intros Hf Hg Hr cmd. split; [|by intros ->].
  unfold start_vm. rewrite (bind_ret_eq _ _ _ _ _ Hg).
  destruct (status_eqb (r_status r) Running) eqn:Hs.
  { destruct (r_status r); done. }
  simpl.
  assert (Hcmd : match vm_config with
                 | Some cfg => add_config [qemu_bin_path c; "-name"; "guest=" +:+ vm_name] cfg
                 | None => [qemu_bin_path c; "-name"; "guest=" +:+ vm_name]
                 end = cmd).
  { subst cmd. destruct vm_config as [cfg|]; simpl; [|done].
    by rewrite add_config_app. }
  rewrite Hcmd. unfold bind at 1. unfold _run_command, host_popen, spawn_argv.
  rewrite Hf. destruct (popen cmd (world s1)) as [[p|] w2]; simpl.
  - unfold bind at 1. unfold time_sleep. simpl.
    match goal with |- context [bind (get_vm_status c vm_name "qemu") _ ?st] =>
      destruct (get_vm_status_inv c vm_name "qemu" st) as (r3 & s3 & Hg3 & Ht3 & _)
    end.
    rewrite (bind_ret_eq _ _ _ _ _ Hg3). unfold ret.
    eexists _, s3, _. split; [reflexivity|].
    destruct Ht3 as [Ht3|(_ & _ & ? & _)]; [|done]. simpl in Ht3.
    rewrite Ht3. unfold status_cmd, spawn_argv. rewrite Hf. simpl.
    split; [|right; reflexivity]. by rewrite <- !app_assoc.
  - eexists _, _, []. split; [reflexivity|]. simpl. auto.
Qed.

Lemma try_except_ret {A} (body handler : M W A) s a s' :
  body s = (Ret a, s') -> try_except body handler s = (Ret a, s').
Proof. intros Hb. unfold try_except. by rewrite Hb. Qed.

Lemma try_except_raise {A} (body handler : M W A) s e s' :
  body s = (Raise e, s') -> try_except body handler s = handler s'.
Proof. intros Hb. unfold try_except. by rewrite Hb. Qed.

Lemma status_eqb_eq a b : status_eqb a b = true <-> a = b.
Proof. destruct a, b; simpl; split; intros; congruence. Qed.

Lemma running_not_stopped r : r_status r = Running -> r_status r <> Stopped.
Proof. intros ->. discriminate. Qed.

Lemma status_eqb_neq a b : a <> b -> status_eqb a b = false.
Proof. intros Hne. destruct (status_eqb a b) eqn:E; [|done]. by apply status_eqb_eq in E. Qed.

(** The process id is read when [int] reads it off the output, and an
    output of several lines raises. *)
Lemma parse_pid_ok stdout pid (s : St W) :
  Py.int (Py.strip stdout) = Some pid -> parse_pid stdout s = (Ret pid, s).
Proof.
  intros Hpid. unfold parse_pid. rewrite (int_decodes _ _ Hpid).
  by rewrite Hpid.
Qed.

Lemma parse_pid_multi_line stdout (s : St W) :
  multi_line stdout -> exists e, parse_pid stdout s = (Raise e, s).
Proof.
  intros Hml. unfold parse_pid.
  destruct (Py.decode stdout) as [text|] eqn:Hd; [|by eexists].
  apply decode_inv in Hd as ->. rewrite (int_multi_line _ Hml).
  by eexists.
Qed.

(** C10.  On the direct path, when the VM is reported [Running] and the
    process search that resolves the process id prints several lines,
    [int] raises, the handler returns [False], and no signal is sent:
    the trace holds the two process searches and nothing else. *)
Theorem stop_vm_direct_multi_line c vm_name force timeout fuel (s s1 s2 : St W) r stdout :
  get_vm_status c vm_name "qemu" s = (Ret r, s1) ->
  r_status r = Running ->
  run_and_wait c (pgrep_cmd vm_name) s1 = (Ret (Some (0, stdout)), s2) ->
  multi_line stdout ->
  stop_vm c vm_name "qemu" force timeout fuel s = (Ret false, s2)
  /\ trace s2 = (trace s ++ [Spawn (spawn_argv c (pgrep_cmd vm_name));
                             Spawn (spawn_argv c (pgrep_cmd vm_name))])%list.
Proof.
  intros Hg Hr Hrun Hml.
  destruct (get_vm_status_inv c vm_name "qemu" s) as (r' & s' & Hg' & Ht & _ & _ & Hty & _).
  rewrite Hg in Hg'. injection Hg' as <- <-.
  destruct Ht as [Ht|(_ & _ & ? & _)]; [|done].
  split.
  - unfold stop_vm. rewrite (bind_ret_eq _ _ _ _ _ Hg). rewrite Hr, (Hty eq_refl). simpl.
    destruct (parse_pid_multi_line stdout s2 Hml) as [e He].
    rewrite (try_except_raise _ _ _ e s2); [reflexivity|].
    rewrite (bind_ret_eq _ _ _ _ _ Hrun). simpl.
    unfold bind. by rewrite He.
  - destruct (run_and_wait_ret c (pgrep_cmd vm_name) s1) as (reply & s2' & Hrun' & Ht2).
    rewrite Hrun in Hrun'. injection Hrun' as <- <-.
    rewrite Ht2, Ht. unfold status_cmd. simpl. by rewrite <- app_assoc.
Qed.

(** C4 (amended).  [stop_vm] with [force=True] on a libvirt endpoint
    whose status query reports [Running] issues [virsh destroy] once and
    never polls.  When [destroy] is spawned and exits with code 0, it
    waits the settle delay, queries the status again and returns whether
    that status is [Stopped]; when [destroy] cannot be spawned or exits
    with another code, it returns [False] without waiting or querying. *)
Theorem stop_vm_force_libvirt c vm_name uri timeout fuel (s s1 s2 : St W) r reply :
  uri <> "qemu" ->
  get_vm_status c vm_name uri s = (Ret r, s1) ->
  r_status r = Running ->
  run_and_wait c (destroy_cmd uri vm_name) s1 = (Ret reply, s2) ->
  let query := Spawn (spawn_argv c (domstate_cmd uri vm_name)) in
  let destroy := Spawn (spawn_argv c (destroy_cmd uri vm_name)) in
  ((exists stdout, reply = Some (0, stdout)) ->
     exists r3 s3,
       get_vm_status c vm_name uri
         (mkSt (sleep 200 (world s2)) (trace s2 ++ [Sleep 200])) = (Ret r3, s3)
       /\ stop_vm c vm_name uri true timeout fuel s
          = (Ret (status_eqb (r_status r3) Stopped), s3)
       /\ trace s3 = (trace s ++ [query; destroy; Sleep 200; query])%list)
  /\ ((forall stdout, reply <> Some (0, stdout)) ->
        stop_vm c vm_name uri true timeout fuel s = (Ret false, s2)
        /\ trace s2 = (trace s ++ [query; destroy])%list).
Proof.
  intros Hu Hg Hr Hrun query destroy.
  destruct (get_vm_status_inv c vm_name uri s)
    as (r' & s' & Hg' & Ht & _ & _ & _ & Hty).
  rewrite Hg in Hg'. injection Hg' as <- <-.
  assert (Hlib : r_type r = Some Libvirt /\ libvirt_available c = true)
    by (apply Hty; [done|by rewrite Hr]).
  destruct Hlib as [Hlib Hav].
  destruct Ht as [Ht|(_ & -> & _)]; [|done].
  destruct (run_and_wait_ret c (destroy_cmd uri vm_name) s1) as (reply' & s2' & Hrun' & Ht2).
  rewrite Hrun in Hrun'. injection Hrun' as <- <-.
  assert (Hq : status_cmd vm_name uri = domstate_cmd uri vm_name).
  { unfold status_cmd. by destruct (String.eqb_spec uri "qemu"). }
  rewrite Hq in Ht.
  assert (Hpre :
    stop_vm c vm_name uri true timeout fuel s
    = try_except (let* reply := run_and_wait c (destroy_cmd uri vm_name) in
                  match reply with
                  | Some (cmd_result, _) =>
                      if negb (cmd_result =? 0) then ret false
                      else
                        let* returned := ret false in
                        if returned then ret true
                        else
                          let* _ := time_sleep 200 in
                          let* r := get_vm_status c vm_name uri in
                          ret (status_eqb (r_status r) Stopped)
                  | None => ret false
                  end) (ret false) s1).
  { unfold stop_vm. rewrite (bind_ret_eq _ _ _ _ _ Hg). rewrite Hr, Hlib.
    destruct (String.eqb_spec uri "qemu"); [done|]. reflexivity. }
  rewrite Hpre. clear Hpre.
  split.
  - intros [stdout ->].
    destruct (get_vm_status_inv c vm_name uri
                (mkSt (sleep 200 (world s2)) (trace s2 ++ [Sleep 200])))
      as (r3 & s3 & Hg3 & Ht3 & _).
    exists r3, s3. split; [done|]. split.
    + apply try_except_ret. rewrite (bind_ret_eq _ _ _ _ _ Hrun). simpl.
      unfold bind at 1. unfold ret at 1. unfold bind at 1. unfold time_sleep.
      by rewrite (bind_ret_eq _ _ _ _ _ Hg3).
    + destruct Ht3 as [Ht3|(_ & _ & _ & ?)]; [|congruence].
      simpl in Ht3. rewrite Ht3, Ht2, Ht, Hq. by rewrite <- !app_assoc.
  - intros Hfail. split.
    + apply try_except_ret. rewrite (bind_ret_eq _ _ _ _ _ Hrun).
      destruct reply as [[code out]|]; [|done].
      destruct (Z.eqb_spec code 0) as [->|]; [by destruct (Hfail out)|done].
    + rewrite Ht2, Ht. by rewrite <- app_assoc.
Qed.

Lemma poll_stopped_S fuel c vm_name uri start_time timeout :
  poll_stopped (S fuel) c vm_name uri start_time timeout
  = (let* t := time_time in
     if t - start_time <? 1000 * timeout then
       let* r := get_vm_status c vm_name uri in
       if status_eqb (r_status r) Stopped then ret true
       else
         let* _ := time_sleep 1000 in
         poll_stopped fuel c vm_name uri start_time timeout
     else ret false).
Proof. reflexivity. Qed.

(** The polling loop ends: on a host whose clock does not run backwards
    and whose sleep lasts as long as asked, one round more than the
    seconds that remain is enough. *)
Lemma poll_stopped_returns `{HC : !HostClock W} c vm_name uri start_time timeout :
  forall fuel (s : St W),
    1000 * timeout - (now (world s) - start_time) <= 1000 * Z.of_nat fuel ->
    exists b s', poll_stopped (S fuel) c vm_name uri start_time timeout s = (Ret b, s').
Proof.
  induction fuel as [|fuel IH]; intros s Hrem; rewrite poll_stopped_S;
    unfold bind at 1; unfold time_time;
    destruct (Z.ltb_spec (now (world s) - start_time) (1000 * timeout)) as [Hlt|Hge];
    try (unfold ret; by eauto).
  - lia.
  - destruct (get_vm_status_inv c vm_name uri s) as (r & s1 & Hg & _).
    rewrite (bind_ret_eq _ _ _ _ _ Hg).
    destruct (status_eqb (r_status r) Stopped); [unfold ret; by eauto|].
    unfold bind at 1. unfold time_sleep.
    apply IH. simpl.
    pose proof (get_vm_status_clock _ _ _ _ _ _ Hg).
    pose proof (sleep_clock 1000 (world s1)). lia.
Qed.

Lemma poll_stopped_times_out `{HC : !HostClock W} c vm_name uri timeout fuel (s : St W) :
  Z.max 0 timeout < Z.of_nat fuel ->
  fst (poll_stopped fuel c vm_name uri (now (world s)) timeout s) <> Ret true ->
  poll_stopped fuel c vm_name uri (now (world s)) timeout s
  = (Ret false, snd (poll_stopped fuel c vm_name uri (now (world s)) timeout s)).
Proof.
  intros Hfuel Hne. destruct fuel as [|fuel]; [simpl in Hfuel; lia|].
  destruct (poll_stopped_returns c vm_name uri (now (world s)) timeout fuel s)
    as (b & s' & Hp); [lia|].
  rewrite Hp in *. simpl in *. by destruct b.
Qed.

Lemma libvirt_graceful_escalates c vm_name uri timeout fuel (s2 s3 s4 : St W) r3 :
  poll_stopped fuel c vm_name uri (now (world s2)) timeout s2 = (Ret false, s3) ->
  get_vm_status c vm_name uri s3 = (Ret r3, s4) ->
  r_status r3 = Running ->
  exists s5,
    libvirt_graceful fuel c vm_name uri timeout s2 = (Ret false, s5)
    /\ trace s5 = (trace s4 ++ [Spawn (spawn_argv c (destroy_cmd uri vm_name))])%list.
Proof.
  intros Hp Hg Hr. unfold libvirt_graceful.
  unfold bind at 1. unfold time_time at 1.
  rewrite (bind_ret_eq _ _ _ _ _ Hp). rewrite (bind_ret_eq _ _ _ _ _ Hg). rewrite Hr. simpl.
  unfold_monad.
  destruct (popen (spawn_argv c (destroy_cmd uri vm_name)) (world s4)) as [[p|] w5]; simpl.
  - destruct (communicate p w5) as [out w6]; simpl. by eexists.
  - by eexists.
Qed.

Lemma qemu_graceful_escalates c vm_name timeout fuel pid (s2 s3 s4 : St W) w2 r3 :
  kill pid SIGTERM (world s2) = (true, w2) ->
  let s2' := mkSt w2 (trace s2 ++ [Kill pid SIGTERM]) in
  poll_stopped fuel c vm_name "qemu" (now w2) timeout s2' = (Ret false, s3) ->
  get_vm_status c vm_name "qemu" s3 = (Ret r3, s4) ->
  r_status r3 = Running ->
  qemu_graceful fuel c vm_name "qemu" timeout pid s2
  = (if fst (kill pid SIGKILL (world s4)) then Ret false else Raise OSError,
     mkSt (snd (kill pid SIGKILL (world s4))) (trace s4 ++ [Kill pid SIGKILL])).
Proof.
  intros Hk s2' Hp Hg Hr. unfold qemu_graceful.
  unfold bind at 1. unfold os_kill at 1. rewrite Hk.
  unfold bind at 1. unfold time_time at 1. fold s2'.
  change (now (world s2')) with (now w2).
  rewrite (bind_ret_eq _ _ _ _ _ Hp). rewrite (bind_ret_eq _ _ _ _ _ Hg). rewrite Hr. simpl.
  unfold_monad. by destruct (kill pid SIGKILL (world s4)) as [[|] w5].
Qed.

(** When the status after the timeout is not [Running], the graceful
    block ends there, with nothing sent. *)
Lemma libvirt_graceful_gives_up c vm_name uri timeout fuel (s2 s3 s4 : St W) r3 :
  poll_stopped fuel c vm_name uri (now (world s2)) timeout s2 = (Ret false, s3) ->
  get_vm_status c vm_name uri s3 = (Ret r3, s4) ->
  r_status r3 <> Running ->
  libvirt_graceful fuel c vm_name uri timeout s2 = (Ret false, s4).
Proof.
  intros Hp Hg Hr. unfold libvirt_graceful.
  unfold bind at 1. unfold time_time at 1.
  rewrite (bind_ret_eq _ _ _ _ _ Hp). rewrite (bind_ret_eq _ _ _ _ _ Hg).
  by rewrite (status_eqb_neq _ _ Hr).
Qed.

Lemma qemu_graceful_gives_up c vm_name timeout fuel pid (s2 s3 s4 : St W) w2 r3 :
  kill pid SIGTERM (world s2) = (true, w2) ->
  let s2' := mkSt w2 (trace s2 ++ [Kill pid SIGTERM]) in
  poll_stopped fuel c vm_name "qemu" (now w2) timeout s2' = (Ret false, s3) ->
  get_vm_status c vm_name "qemu" s3 = (Ret r3, s4) ->
  r_status r3 <> Running ->
  qemu_graceful fuel c vm_name "qemu" timeout pid s2 = (Ret false, s4).
Proof.
  intros Hk s2' Hp Hg Hr. unfold qemu_graceful.
  unfold bind at 1. unfold os_kill at 1. rewrite Hk.
  unfold bind at 1. unfold time_time at 1. fold s2'.
  change (now (world s2')) with (now w2).
  rewrite (bind_ret_eq _ _ _ _ _ Hp). rewrite (bind_ret_eq _ _ _ _ _ Hg).
  by rewrite (status_eqb_neq _ _ Hr).
Qed.

(** A result of type libvirt comes from the branch of the daemon. *)
Lemma get_vm_status_libvirt c n u (s s' : St W) r :
  get_vm_status c n u s = (Ret r, s') ->
  r_type r = Some Libvirt ->
  u <> "qemu" /\ libvirt_available c = true.
Proof.
  intros Hg Hty.
  destruct (get_vm_status_inv c n u s) as (r' & s0 & Hg' & Ht & _ & _ & Hq & _).
  rewrite Hg in Hg'. injection Hg' as <- <-.
  destruct (String.eqb_spec u "qemu") as [->|Hu].
  { rewrite (Hq eq_refl) in Hty. discriminate. }
  split; [done|]. revert Hg. unfold get_vm_status.
  destruct (String.eqb_spec u "qemu"); [done|].
  destruct (libvirt_available c); [done|]. simpl. unfold ret.
  intros [= <- <-]. discriminate.
Qed.

(** The libvirt branch of a graceful [stop_vm], once [shutdown] has
    exited with code 0. *)
Lemma stop_vm_libvirt_unfold c vm_name uri timeout fuel (s s1 s2 : St W) r stdout :
  uri <> "qemu" ->
  get_vm_status c vm_name uri s = (Ret r, s1) ->
  r_status r <> Stopped ->
  r_type r = Some Libvirt ->
  run_and_wait c (shutdown_cmd uri vm_name) s1 = (Ret (Some (0, stdout)), s2) ->
  stop_vm c vm_name uri false timeout fuel s
  = try_except
      (let* returned := libvirt_graceful fuel c vm_name uri timeout in
       if returned then ret true
       else
         let* _ := time_sleep 200 in
         let* r := get_vm_status c vm_name uri in
         ret (status_eqb (r_status r) Stopped))
      (ret false) s2.
Proof.
  intros Hu Hg Hr Hlib Hrun.
  unfold stop_vm. rewrite (bind_ret_eq _ _ _ _ _ Hg).
  rewrite (status_eqb_neq _ _ Hr), Hlib.
  destruct (String.eqb_spec uri "qemu"); [done|]. simpl.
  unfold try_except. by rewrite (bind_ret_eq _ _ _ _ _ Hrun).
Qed.

(** The direct branch of [stop_vm], once the process id is resolved. *)
Lemma stop_vm_direct_unfold c vm_name force timeout fuel (s s1 s2 : St W) r stdout pid :
  get_vm_status c vm_name "qemu" s = (Ret r, s1) ->
  r_status r <> Stopped ->
  run_and_wait c (pgrep_cmd vm_name) s1 = (Ret (Some (0, stdout)), s2) ->
  Py.int (Py.strip stdout) = Some pid ->
  stop_vm c vm_name "qemu" force timeout fuel s
  = try_except
      (let* returned :=
         (if force then let* _ := os_kill pid SIGKILL in ret false
          else qemu_graceful fuel c vm_name "qemu" timeout pid) in
       if returned then ret true
       else
         let* _ := time_sleep 1000 in
         let* r := get_vm_status c vm_name "qemu" in
         ret (status_eqb (r_status r) Stopped))
      (ret false) s2.
Proof.
  intros Hg Hr Hrun Hpid.
  destruct (get_vm_status_inv c vm_name "qemu" s) as (r' & s' & Hg' & _ & _ & _ & Hty & _).
  rewrite Hg in Hg'. injection Hg' as <- <-.
  unfold stop_vm. rewrite (bind_ret_eq _ _ _ _ _ Hg).
  rewrite (status_eqb_neq _ _ Hr), (Hty eq_refl). simpl.
  unfold try_except. rewrite (bind_ret_eq _ _ _ _ _ Hrun). simpl.
  unfold bind at 1. by rewrite (parse_pid_ok _ _ _ Hpid).
Qed.

(** The settle delay and the last status query, from the state [s5]. *)
Lemma settle_and_requery c vm_name uri ms (s5 : St W) :
  exists r6 s6,
    get_vm_status c vm_name uri (snd (time_sleep ms s5)) = (Ret r6, s6)
    /\ (let* _ := time_sleep ms in
        let* r := get_vm_status c vm_name uri in
        ret (status_eqb (r_status r) Stopped)) s5
       = (Ret (status_eqb (r_status r6) Stopped), s6).
Proof.
  destruct (get_vm_status_inv c vm_name uri (snd (time_sleep ms s5)))
    as (r6 & s6 & Hg6 & _).
  exists r6, s6. split; [done|].
  unfold bind at 1.
  change (time_sleep ms s5) with (Ret tt, snd (time_sleep ms s5)).
  cbv beta iota. by rewrite (bind_ret_eq _ _ _ _ _ Hg6).
Qed.

(** C2 (amended).  Take a graceful stop ([force=False]) that issues its
    stop request (the first status query does not report [Stopped] and
    reports the backend of the path) and whose request goes through
    ([virsh shutdown] exits with code 0; SIGTERM is delivered to the
    process id found), and let no poll within [timeout] seconds see
    [Stopped].  When the status queried after the timeout is [Running],
    [stop_vm] issues the forced termination before it returns: [virsh
    destroy] on the libvirt path, SIGKILL on the direct path.  When that
    status is not [Running], it issues none: the settle delay and the last
    status query follow at once.  Either way the boolean returned is
    whether the status queried after the settle delay is [Stopped], except
    that on the direct path it is [False] when [os.kill] raises on
    SIGKILL. *)
Theorem stop_vm_graceful_escalates `{HC : !HostClock W} c vm_name timeout fuel :
  Z.max 0 timeout < Z.of_nat fuel ->
  (forall uri (s s1 s2 s4 : St W) r r3 stdout,
     uri <> "qemu" ->
     get_vm_status c vm_name uri s = (Ret r, s1) ->
     r_status r <> Stopped ->
     r_type r = Some Libvirt ->
     run_and_wait c (shutdown_cmd uri vm_name) s1 = (Ret (Some (0, stdout)), s2) ->
     let polled := poll_stopped fuel c vm_name uri (now (world s2)) timeout s2 in
     fst polled <> Ret true ->
     get_vm_status c vm_name uri (snd polled) = (Ret r3, s4) ->
     (r_status r3 = Running ->
        exists s5 r6 s6,
          trace s5 = (trace s4 ++ [Spawn (spawn_argv c (destroy_cmd uri vm_name))])%list
          /\ get_vm_status c vm_name uri (snd (time_sleep 200 s5)) = (Ret r6, s6)
          /\ stop_vm c vm_name uri false timeout fuel s
             = (Ret (status_eqb (r_status r6) Stopped), s6))
     /\ (r_status r3 <> Running ->
           exists r6 s6,
             get_vm_status c vm_name uri (snd (time_sleep 200 s4)) = (Ret r6, s6)
             /\ stop_vm c vm_name uri false timeout fuel s
                = (Ret (status_eqb (r_status r6) Stopped), s6)
             /\ trace s6
                = (trace s4 ++ [Sleep 200;
                                Spawn (spawn_argv c (domstate_cmd uri vm_name))])%list))
  /\ (forall (s s1 s2 s4 : St W) r r3 stdout pid w2,
        get_vm_status c vm_name "qemu" s = (Ret r, s1) ->
        r_status r <> Stopped ->
        run_and_wait c (pgrep_cmd vm_name) s1 = (Ret (Some (0, stdout)), s2) ->
        Py.int (Py.strip stdout) = Some pid ->
        kill pid SIGTERM (world s2) = (true, w2) ->
        let polled :=
          poll_stopped fuel c vm_name "qemu" (now w2) timeout
            (mkSt w2 (trace s2 ++ [Kill pid SIGTERM])) in
        fst polled <> Ret true ->
        get_vm_status c vm_name "qemu" (snd polled) = (Ret r3, s4) ->
        (r_status r3 = Running ->
           let s5 := mkSt (snd (kill pid SIGKILL (world s4)))
                          (trace s4 ++ [Kill pid SIGKILL]) in
           if fst (kill pid SIGKILL (world s4)) then
             exists r6 s6,
               get_vm_status c vm_name "qemu" (snd (time_sleep 1000 s5)) = (Ret r6, s6)
               /\ stop_vm c vm_name "qemu" false timeout fuel s
                  = (Ret (status_eqb (r_status r6) Stopped), s6)
           else stop_vm c vm_name "qemu" false timeout fuel s = (Ret false, s5))
        /\ (r_status r3 <> Running ->
              exists r6 s6,
                get_vm_status c vm_name "qemu" (snd (time_sleep 1000 s4)) = (Ret r6, s6)
                /\ stop_vm c vm_name "qemu" false timeout fuel s
                   = (Ret (status_eqb (r_status r6) Stopped), s6)
                /\ trace s6
                   = (trace s4 ++ [Sleep 1000;
                                   Spawn (spawn_argv c (pgrep_cmd vm_name))])%list)).
Proof.
  intros Hfuel. split.
  - intros uri s s1 s2 s4 r r3 stdout Hu Hg Hr Hlib Hrun polled Hne Hg3.
    pose proof (poll_stopped_times_out c vm_name uri timeout fuel s2 Hfuel Hne) as Hp.
    rewrite (stop_vm_libvirt_unfold _ _ _ _ _ _ _ _ _ _ Hu Hg Hr Hlib Hrun).
    split; intros Hr3.
    + destruct (libvirt_graceful_escalates _ _ _ _ _ _ _ _ _ Hp Hg3 Hr3) as (s5 & Hlg & Ht5).
      destruct (settle_and_requery c vm_name uri 200 s5) as (r6 & s6 & Hg6 & Hend).
      exists s5, r6, s6. split; [done|]. split; [done|].
      apply try_except_ret. by rewrite (bind_ret_eq _ _ _ _ _ Hlg).
    + pose proof (libvirt_graceful_gives_up _ _ _ _ _ _ _ _ _ Hp Hg3 Hr3) as Hlg.
      destruct (settle_and_requery c vm_name uri 200 s4) as (r6 & s6 & Hg6 & Hend).
      exists r6, s6. split; [done|]. split.
      * apply try_except_ret. by rewrite (bind_ret_eq _ _ _ _ _ Hlg).
      * destruct (get_vm_status_libvirt _ _ _ _ _ _ Hg Hlib) as [_ Hav].
        destruct (get_vm_status_inv c vm_name uri (snd (time_sleep 200 s4)))
          as (r6' & s6' & Hg6' & Ht6 & _).
        rewrite Hg6 in Hg6'. injection Hg6' as <- <-.
        destruct Ht6 as [Ht6|(_ & _ & _ & ?)]; [|congruence].
        rewrite Ht6. simpl. unfold status_cmd.
        destruct (String.eqb_spec uri "qemu"); [done|]. by rewrite <- app_assoc.
  - intros s s1 s2 s4 r r3 stdout pid w2 Hg Hr Hrun Hpid Hk polled Hne Hg3.
    pose proof (poll_stopped_times_out c vm_name "qemu" timeout fuel
                  (mkSt w2 (trace s2 ++ [Kill pid SIGTERM])) Hfuel Hne) as Hp.
    rewrite (stop_vm_direct_unfold _ _ _ _ _ _ _ _ _ _ _ Hg Hr Hrun Hpid).
    split; intros Hr3.
    + pose proof (qemu_graceful_escalates _ _ _ _ _ _ _ _ _ _ Hk Hp Hg3 Hr3) as Hqg.
      intros s5. unfold try_except. subst s5.
      destruct (kill pid SIGKILL (world s4)) as [[|] w5]; simpl in *;
        unfold bind at 1; rewrite Hqg; [|done].
      destruct (settle_and_requery c vm_name "qemu" 1000
                  (mkSt w5 (trace s4 ++ [Kill pid SIGKILL]))) as (r6 & s6 & Hg6 & Hend).
      exists r6, s6. split; [done|]. cbv beta iota. by rewrite Hend.
    + pose proof (qemu_graceful_gives_up _ _ _ _ _ _ _ _ _ _ Hk Hp Hg3 Hr3) as Hqg.
      destruct (settle_and_requery c vm_name "qemu" 1000 s4) as (r6 & s6 & Hg6 & Hend).
      exists r6, s6. split; [done|]. split.
      * apply try_except_ret. by rewrite (bind_ret_eq _ _ _ _ _ Hqg).
      * destruct (get_vm_status_inv c vm_name "qemu" (snd (time_sleep 1000 s4)))
          as (r6' & s6' & Hg6' & Ht6 & _).
        rewrite Hg6 in Hg6'. injection Hg6' as <- <-.
        destruct Ht6 as [Ht6|(_ & _ & ? & _)]; [|done].
        rewrite Ht6. simpl. by rewrite <- app_assoc.
Qed.

End LifecycleClaims.

(** ** Enumeration *)

Section EnumerationFacts.
Context {W : Type} `{HW : Host W}.

Lemma append_vms_insert uri st names (managed : gmap string (list VM)) l :
  append_vms uri st names (<[uri := l]> managed)
  = <[uri := (l ++ ((fun vm => mkVM vm st) <$> names))%list]> managed.
Proof.
  unfold append_vms. revert l.
  induction names as [|vm names IH]; intros l; simpl.
  - by rewrite app_nil_r.
  - rewrite alter_insert_eq. rewrite IH. by rewrite <- app_assoc.
Qed.

(** One list sub-command: the loop goes on exactly when its output can be
    read, and the list of the endpoint grows by what it contributes. *)
Lemma add_listed_insert uri st reply (managed : gmap string (list VM)) l :
  add_listed uri st reply (<[uri := l]> managed)
  = (if readable reply then Next else Abort)
      (<[uri := (l ++ listed st reply)%list]> managed).
Proof.
  unfold add_listed, listed, readable. destruct reply as [[result stdout]|].
  - destruct (result =? 0); [|by rewrite app_nil_r].
    destruct (Py.decode stdout) as [text|]; simpl.
    + by rewrite append_vms_insert.
    + by rewrite app_nil_r.
  - by rewrite app_nil_r.
Qed.

Lemma failed_listed st reply : failed reply -> listed st reply = [].
Proof.
  destruct reply as [[result stdout]|]; simpl; [|done].
  intros Hne. by destruct (Z.eqb_spec result 0).
Qed.

Lemma failed_readable reply : failed reply -> readable reply = true.
Proof.
  destruct reply as [[result stdout]|]; simpl; [|done].
  intros Hne. by destruct (Z.eqb_spec result 0).
Qed.

Lemma reply_to_eq c cmd (s s' : St W) r :
  run_and_wait c cmd s = (Ret r, s') ->
  reply_to c cmd s = r /\ snd (run_and_wait c cmd s) = s'.
Proof. intros H. unfold reply_to. by rewrite H. Qed.

(** One endpoint: the running list is asked; when its output can be read
    the inactive list is asked too, and the endpoint maps to what the two
    contribute; an output that cannot be read ends the loop there. *)
Lemma list_endpoint_spec c managed u (s : St W) :
  truthy (Some u) = true ->
  exists r1 s1 r2 s2,
    run_and_wait c (list_running_cmd u) s = (Ret r1, s1)
    /\ run_and_wait c (list_inactive_cmd u) s1 = (Ret r2, s2)
    /\ trace s2 = (trace s ++ list_events c u)%list
    /\ list_endpoint c managed (Some u) s
       = if readable r1
         then (Ret ((if readable r2 then Next else Abort)
                      (<[u := (listed Running r1 ++ listed Stopped r2)%list]> managed)), s2)
         else (Ret (Abort (<[u := listed Running r1]> managed)), s1).
Proof.
  intros Hu.
  destruct (run_and_wait_ret c (list_running_cmd u) s) as (r1 & s1 & Hr1 & Ht1).
  destruct (run_and_wait_ret c (list_inactive_cmd u) s1) as (r2 & s2 & Hr2 & Ht2).
  exists r1, s1, r2, s2. split; [done|]. split; [done|]. split.
  - rewrite Ht2, Ht1. unfold list_events. by rewrite <- app_assoc.
  - unfold list_endpoint. rewrite Hu. cbn [negb]. cbv beta iota zeta.
    rewrite (bind_ret_eq _ _ _ _ _ Hr1). rewrite add_listed_insert. simpl app.
    destruct (readable r1); [|done].
    rewrite (bind_ret_eq _ _ _ _ _ Hr2). unfold ret. by rewrite add_listed_insert.
Qed.

(** The loop over the connections returns the dictionary that [collect]
    builds from the answers of the host; when every output can be read,
    the trace holds the two list commands of every endpoint, in order. *)
Lemma for_each_list_endpoint c (conns : list (option string)) :
  forall (managed : gmap string (list VM)) (s : St W),
  exists s',
    for_each conns managed (list_endpoint c) s
    = (Ret (collect
              (answers c (omap (fun uri => if truthy uri then uri else None) conns) s)
              managed), s')
    /\ (Forall all_readable
          (answers c (omap (fun uri => if truthy uri then uri else None) conns) s) ->
        trace s' = (trace s ++ flat_map (list_events c)
                      (omap (fun uri => if truthy uri then uri else None) conns))%list).
Proof.
  set (live := fun uri : option string => if truthy uri then uri else None).
  induction conns as [|uri conns IH]; intros managed s.
  - exists s. split; [done|]. intros _. simpl. by rewrite app_nil_r.
  - cbn [for_each].
    assert (Hskip : live uri = None ->
              list_endpoint c managed uri s = (Ret (Next managed), s) ->
              exists s',
                (let* step := list_endpoint c managed uri in
                 match step with
                 | Next acc' => for_each conns acc' (list_endpoint c)
                 | Abort acc' => ret acc'
                 end) s
                = (Ret (collect (answers c (omap live (uri :: conns)) s) managed), s')
                /\ (Forall all_readable (answers c (omap live (uri :: conns)) s) ->
                    trace s' = (trace s ++ flat_map (list_events c)
                                  (omap live (uri :: conns)))%list)).
    { intros Hnone Hle. rewrite (bind_ret_eq _ _ _ _ _ Hle).
      assert (Ho : omap live (uri :: conns) = omap live conns).
      { cbn [omap list_omap]. by rewrite Hnone. }
      rewrite Ho. apply IH. }
    destruct uri as [u|]; [|by apply Hskip].
    destruct (truthy (Some u)) eqn:Hu.
    2:{ apply Hskip; [unfold live; by rewrite Hu|].
        unfold list_endpoint. by rewrite Hu. }
    clear Hskip.
    assert (Ho : omap live (Some u :: conns) = u :: omap live conns).
    { cbn [omap list_omap]. unfold live at 1. by rewrite Hu. }
    rewrite Ho. clear Ho.
    destruct (list_endpoint_spec c managed u s Hu)
      as (r1 & s1 & r2 & s2 & Hr1 & Hr2 & Ht & Hle).
    cbn [answers collect flat_map].
    destruct (reply_to_eq _ _ _ _ _ Hr1) as [-> ->].
    destruct (reply_to_eq _ _ _ _ _ Hr2) as [-> ->].
    cbn [endpoint_of running_reply inactive_reply].
    unfold bind at 1. rewrite Hle.
    destruct (readable r1) eqn:E1; [destruct (readable r2) eqn:E2|]; cbn [andb].
    + destruct (IH (<[u := (listed Running r1 ++ listed Stopped r2)%list]> managed) s2)
        as (s' & Hfe & Htr).
      exists s'. split; [done|]. intros Hall. apply Forall_cons in Hall as [_ Hall].
      rewrite (Htr Hall), Ht. by rewrite <- app_assoc.
    + exists s2. split; [done|]. intros Hall. apply Forall_cons in Hall as [[_ Ha] _].
      simpl in Ha. congruence.
    + exists s1. rewrite app_nil_r. split; [done|].
      intros Hall. apply Forall_cons in Hall as [[Ha _] _]. simpl in Ha. congruence.
Qed.

Lemma answers_endpoints c uris :
  forall s : St W, endpoint_of <$> answers c uris s = uris.
Proof.
  induction uris as [|u uris IH]; intros s; simpl; [done|]. by rewrite IH.
Qed.

Lemma listed_named st reply : Forall (named st) (listed st reply).
Proof.
  unfold listed. destruct reply as [[code out]|]; [|done].
  destruct (code =? 0); [|done].
  destruct (Py.decode out) as [text|]; [|done]. simpl.
  apply Forall_fmap, Forall_forall. intros n Hn. unfold nonblank_lines in Hn.
  apply list_elem_of_In, filter_In in Hn as [_ Hn]. split; [done|].
  simpl. by destruct (Py.is_empty (Py.strip n)).
Qed.

(** What [collect] builds: well-formed lists, under the endpoints asked. *)
Lemma collect_well_listed ans :
  forall managed : gmap string (list VM),
    (forall u l, managed !! u = Some l -> well_listed l) ->
    forall u l, collect ans managed !! u = Some l -> well_listed l.
Proof.
  induction ans as [|a ans IH]; intros managed Hwl; simpl; [done|].
  assert (Hins : forall u l,
            <[endpoint_of a := (listed Running (running_reply a)
                                ++ (if readable (running_reply a)
                                    then listed Stopped (inactive_reply a) else []))%list]>
              managed !! u = Some l -> well_listed l).
  { intros u l. destruct (decide (endpoint_of a = u)) as [->|Hne].
    - rewrite lookup_insert_eq. intros [= <-].
      exists (listed Running (running_reply a)),
             (if readable (running_reply a) then listed Stopped (inactive_reply a) else []).
      split; [done|]. split; [apply listed_named|].
      destruct (readable _); [apply listed_named|done].
    - rewrite lookup_insert_ne by done. apply Hwl. }
  destruct (readable (running_reply a) && readable (inactive_reply a)); [|done].
  by apply IH.
Qed.

Lemma collect_dom ans :
  forall managed : gmap string (list VM),
    dom (collect ans managed) ⊆ dom managed ∪ list_to_set (endpoint_of <$> ans)
    /\ (Forall all_readable ans ->
        dom (collect ans managed) = dom managed ∪ list_to_set (endpoint_of <$> ans)).
Proof.
  induction ans as [|a ans IH]; intros managed; simpl.
  - split; [set_solver|]. intros _. set_solver.
  - destruct (readable (running_reply a)) eqn:E1;
      [destruct (readable (inactive_reply a)) eqn:E2|]; simpl.
    + destruct (IH (<[endpoint_of a := (listed Running (running_reply a)
                                         ++ listed Stopped (inactive_reply a))%list]> managed))
        as [Hsub Heq].
      rewrite dom_insert_L in Hsub. split; [set_solver|].
      intros Hall. apply Forall_cons in Hall as [_ Hall].
      rewrite (Heq Hall), dom_insert_L. set_solver.
    + rewrite dom_insert_L. split; [set_solver|].
      intros Hall. apply Forall_cons in Hall as [[_ Ha] _]. congruence.
    + rewrite dom_insert_L. split; [set_solver|].
      intros Hall. apply Forall_cons in Hall as [[Ha _] _]. congruence.
Qed.

Lemma collect_lookup_other ans :
  forall (managed : gmap string (list VM)) u,
    u ∉ endpoint_of <$> ans -> collect ans managed !! u = managed !! u.
Proof.
  induction ans as [|a ans IH]; intros managed u Hu; simpl; [done|].
  apply not_elem_of_cons in Hu as [Hne Hu].
  destruct (readable (running_reply a) && readable (inactive_reply a)).
  - rewrite IH by done. by rewrite lookup_insert_ne.
  - by rewrite lookup_insert_ne.
Qed.

(** When every output can be read, an endpoint maps to what its two list
    sub-commands contribute. *)
Lemma collect_lookup ans :
  forall (managed : gmap string (list VM)) a,
    Forall all_readable ans -> NoDup (endpoint_of <$> ans) -> a ∈ ans ->
    collect ans managed !! endpoint_of a
    = Some (listed Running (running_reply a) ++ listed Stopped (inactive_reply a))%list.
Proof.
  induction ans as [|a0 ans IH]; intros managed a Hall Hnd Hin; simpl.
  - by apply elem_of_nil in Hin.
  - apply Forall_cons in Hall as [[E1 E2] Hall]. rewrite E1, E2. simpl.
    rewrite fmap_cons in Hnd. apply NoDup_cons in Hnd as [Hfresh Hnd].
    apply elem_of_cons in Hin as [->|Hin]; [|by apply IH].
    rewrite collect_lookup_other by done. by rewrite lookup_insert_eq.
Qed.

Lemma endpoints_NoDup c show_all : NoDup (endpoints c show_all).
Proof.
  unfold endpoints, connections_of. destruct show_all.
  - assert (Hbase : NoDup ["qemu:///system"; "qemu:///session"]).
    { apply NoDup_cons. split; [|apply NoDup_singleton].
      intros Hin. apply list_elem_of_singleton in Hin. discriminate. }
    unfold _get_all_connections. destruct (default_uri c) as [d|]; simpl; [|done].
    destruct (Py.is_empty d) eqn:Hd; simpl; [done|].
    destruct (bool_decide_reflect (d ∈ ["qemu:///system"; "qemu:///session"])) as [Hin|Hnin];
      simpl; [done|]. rewrite Hd. simpl.
    change ["qemu:///system"; "qemu:///session"; d]
      with (["qemu:///system"; "qemu:///session"] ++ [d])%list.
    apply NoDup_app. split; [done|]. split; [|apply NoDup_singleton].
    intros x Hx Hxd. apply list_elem_of_singleton in Hxd. by subst.
  - simpl. destruct (truthy (py_or (libvirt_uri c) (default_uri c)));
      [|apply NoDup_nil_2].
    destruct (py_or (libvirt_uri c) (default_uri c)); [apply NoDup_singleton|apply NoDup_nil_2].
Qed.

(** [get_vms] always returns: the managed part comes from the loop over
    the connections, the direct part from the lines of the process
    listing, when it decodes, filtered against the managed names. *)
Lemma get_vms_shape c show_all (s : St W) :
  exists managed s1 reply s2,
    (if libvirt_available c
     then for_each (connections_of c show_all) ∅ (list_endpoint c)
     else ret ∅) s = (Ret managed, s1)
    /\ run_and_wait c scan_cmd s1 = (Ret reply, s2)
    /\ trace s2 = (trace s1 ++ [Spawn (spawn_argv c scan_cmd)])%list
    /\ get_vms c show_all s
       = (Ret (mkInventory
                 match reply with
                 | Some (_, stdout) =>
                     match Py.decode stdout with
                     | Some text =>
                         scan_lines (libvirt_vm_names managed) (Py.splitlines text)
                     | None => []
                     end
                 | None => []
                 end managed), s2).
Proof.
  assert (Hm : exists managed s1,
    (if libvirt_available c
     then for_each (connections_of c show_all) ∅ (list_endpoint c)
     else ret ∅) s = (Ret managed, s1)).
  { destruct (libvirt_available c); [|by eexists _, _].
    destruct (for_each_list_endpoint c (connections_of c show_all) ∅ s)
      as (s1 & Hfe & _). by eexists _, s1. }
  destruct Hm as (managed & s1 & Hm).
  destruct (run_and_wait_ret c scan_cmd s1) as (reply & s2 & Hr & Ht).
  exists managed, s1, reply, s2. split; [done|]. split; [done|]. split; [done|].
  unfold get_vms. rewrite (bind_ret_eq _ _ _ _ _ Hm).
  rewrite (bind_ret_eq _ _ _ _ _ Hr). destruct reply as [[code out]|]; [|done].
  by destruct (Py.decode out).
Qed.

(** With libvirt available, the managed part of the inventory is what
    [collect] builds from the answers of the host. *)
Lemma get_vms_managed c show_all (s : St W) :
  libvirt_available c = true ->
  exists inv s',
    get_vms c show_all s = (Ret inv, s')
    /\ libvirt inv = collect (answers c (endpoints c show_all) s) ∅
    /\ (Forall all_readable (answers c (endpoints c show_all) s) ->
        trace s' = (trace s ++ flat_map (list_events c) (endpoints c show_all)
                      ++ [Spawn (spawn_argv c scan_cmd)])%list).
Proof.
  intros Hav.
  destruct (get_vms_shape c show_all s) as (managed & s1 & reply & s2 & Hm & _ & Ht & Hg).
  rewrite Hav in Hm.
  destruct (for_each_list_endpoint c (connections_of c show_all) ∅ s)
    as (s1' & Hfe & Ht1).
  rewrite Hm in Hfe. injection Hfe as -> <-.
  eexists _, _. split; [exact Hg|]. split; [done|].
  intros Hall. rewrite Ht, (Ht1 Hall). unfold endpoints. by rewrite <- app_assoc.
Qed.

Lemma libvirt_vm_names_covers (managed : gmap string (list VM)) uri l vm :
  managed !! uri = Some l -> vm ∈ l -> vm_name_of vm ∈ libvirt_vm_names managed.
Proof.
  unfold libvirt_vm_names. revert uri l vm.
  apply (map_fold_weak_ind
           (fun names (m : gmap string (list VM)) =>
              forall uri l vm, m !! uri = Some l -> vm ∈ l -> vm_name_of vm ∈ names)).
  - intros uri l vm Hl. by rewrite lookup_empty in Hl.
  - intros i x m names Hi IH uri l vm Hl Hvm.
    assert (Hmono : forall (vms : list VM) (acc : gset string) n,
              n ∈ acc \/ (exists v, v ∈ vms /\ vm_name_of v = n) ->
              n ∈ foldl (fun names vm => names ∪ {[vm_name_of vm]}) acc vms).
    { induction vms as [|v vms IHv]; intros acc n Hn; simpl.
      - destruct Hn as [Hn|(v & Hv & _)]; [done|by apply elem_of_nil in Hv].
      - apply IHv. destruct Hn as [Hn|(v' & Hv' & Hname)]; [left; set_solver|].
        apply elem_of_cons in Hv' as [->|Hv']; [left; set_solver|right; eauto]. }
    apply Hmono. destruct (decide (i = uri)) as [->|Hne].
    + rewrite lookup_insert_eq in Hl. injection Hl as ->. right. eauto.
    + rewrite lookup_insert_ne in Hl by done. left. eauto.
Qed.

Lemma scan_lines_excludes names lines vm :
  vm ∈ scan_lines names lines -> vm_name_of vm ∉ names.
Proof.
  unfold scan_lines.
  assert (Hinv : forall (acc : list VM),
            (forall v, v ∈ acc -> vm_name_of v ∉ names) ->
            forall v, v ∈ foldl (fun direct line =>
                         match Py.guest_re_search line with
                         | Some vm_name =>
                             if bool_decide (vm_name ∉ names)
                             then (direct ++ [mkVM vm_name Running])%list else direct
                         | None => direct
                         end) acc lines -> vm_name_of v ∉ names).
  { induction lines as [|line lines IH]; intros acc Hacc v; simpl; [by apply Hacc|].
    apply IH. destruct (Py.guest_re_search line) as [n|]; [|done].
    destruct (bool_decide_reflect (n ∉ names)) as [Hn|_]; [|done].
    intros v' Hv'. apply elem_of_app in Hv' as [Hv'|Hv']; [by apply Hacc|].
    apply list_elem_of_singleton in Hv' as ->. done. }
  apply Hinv. intros v Hv. by apply elem_of_nil in Hv.
Qed.

(** C8.  In every inventory [get_vms] returns, no name of the direct
    list is the name of a VM in the list of any endpoint. *)
Theorem get_vms_direct_excludes_managed c show_all (s : St W) :
  exists inv s',
    get_vms c show_all s = (Ret inv, s')
    /\ forall vm uri l vm',
         vm ∈ qemu inv -> libvirt inv !! uri = Some l -> vm' ∈ l ->
         vm_name_of vm <> vm_name_of vm'.
Proof.
  destruct (get_vms_shape c show_all s) as (managed & s1 & reply & s2 & _ & _ & _ & Hg).
  eexists _, _. split; [exact Hg|]. simpl.
  intros vm uri l vm' Hvm Hl Hvm' Heq.
  destruct reply as [[code out]|]; [|by apply elem_of_nil in Hvm].
  destruct (Py.decode out) as [text|]; [|by apply elem_of_nil in Hvm].
  apply scan_lines_excludes in Hvm. apply Hvm. rewrite Heq.
  by eapply libvirt_vm_names_covers.
Qed.

(** C3 (amended).  Let the output of every list sub-command that exits
    with code 0 decode.  A list sub-command that fails for an endpoint (it
    cannot be spawned, or exits with a code other than 0) contributes no
    entry: the list of the endpoint in the inventory then holds exactly
    the entries of the other sub-command, and none when that one fails as
    well.  Such a failure stops nothing: [get_vms] runs both list commands
    of every endpoint, in order, then the process scan, and every endpoint
    has its list in the inventory, holding the non-blank lines of its
    running list and then those of its inactive list. *)
Theorem list_failure_is_per_subcommand c show_all (s : St W) :
  libvirt_available c = true ->
  Forall all_readable (answers c (endpoints c show_all) s) ->
  exists inv s',
    get_vms c show_all s = (Ret inv, s')
    /\ endpoint_of <$> answers c (endpoints c show_all) s = endpoints c show_all
    /\ trace s' = (trace s ++ flat_map (list_events c) (endpoints c show_all)
                     ++ [Spawn (spawn_argv c scan_cmd)])%list
    /\ forall a, a ∈ answers c (endpoints c show_all) s ->
         let r1 := running_reply a in
         let r2 := inactive_reply a in
         libvirt inv !! endpoint_of a = Some (listed Running r1 ++ listed Stopped r2)%list
         /\ (failed r1 -> libvirt inv !! endpoint_of a = Some (listed Stopped r2))
         /\ (failed r2 -> libvirt inv !! endpoint_of a = Some (listed Running r1))
         /\ (failed r1 -> failed r2 -> libvirt inv !! endpoint_of a = Some []).
Proof.
  intros Hav Hall.
  destruct (get_vms_managed c show_all s Hav) as (inv & s' & Hg & Hm & Ht).
  exists inv, s'. split; [done|]. split; [apply answers_endpoints|].
  split; [by apply Ht|]. intros a Ha r1 r2.
  assert (Hl : libvirt inv !! endpoint_of a
               = Some (listed Running r1 ++ listed Stopped r2)%list).
  { rewrite Hm. apply collect_lookup; [done| |done].
    rewrite answers_endpoints. apply endpoints_NoDup. }
  split; [done|]. rewrite Hl. split; [|split].
  - intros Hf. by rewrite (failed_listed _ _ Hf).
  - intros Hf. by rewrite (failed_listed _ _ Hf), app_nil_r.
  - intros Hf1 Hf2. by rewrite (failed_listed _ _ Hf1), (failed_listed _ _ Hf2).
Qed.

End EnumerationFacts.

(** ** The regular expression of the process scan *)

Section ScanFacts.
Import Py.

Lemma strip_prefix_In p s r (c : ascii) :
  strip_prefix p s = Some r ->
  In c (list_ascii_of_string p) -> In c (list_ascii_of_string s).
Proof.
  revert s. induction p as [|a p IH]; intros [|b s]; simpl; try done.
  destruct (Ascii.eqb_spec a b) as [->|]; [|done].
  intros Hp [->|Hin]; [by left|right; by apply IH].
Qed.

(** The pattern asks for a backslash after [-name]: a line without one
    is never matched, whatever [-name guest=..] token it holds. *)
Lemma guest_re_search_needs_backslash line :
  ~ In "\"%char (list_ascii_of_string line) -> guest_re_search line = None.
Proof.
  induction line as [|c t IH]; intros Hno.
  - reflexivity.
  - assert (Hat : guest_re_at (String c t) = None).
    { unfold guest_re_at.
      destruct (strip_prefix "-name\" (String c t)) as [r|] eqn:Hp; [|done].
      destruct Hno. apply (strip_prefix_In _ _ _ _ Hp). simpl. tauto. }
    simpl guest_re_search. rewrite Hat. apply IH.
    intros Hin. apply Hno. simpl. tauto.
Qed.

End ScanFacts.

(** C1, at the input of Scenario A.  With no managed VM at all, a process
    listing whose line holds [-name guest=Fedora39,foo] gives an empty
    direct list: the pattern of the scan wants a backslash and letters [s]
    between [-name] and [guest=], where the line has a blank. *)
Theorem scenario_a_line_not_matched :
  sim_run (get_vms bare true)
    [Some (0, "4242 qemu-system-x86_64 -name guest=Fedora39,foo -m 2048" +:+ LF)] true
  = (Ret (mkInventory [] ∅), [Spawn scan_cmd]).
Proof. vm_compute. reflexivity. Qed.

(** ** Witnesses and counterexamples on the scripted host *)

#[export] Instance sim_clock_ok : HostClock Sim.
Proof.
  split.
  - intros argv w. simpl. destruct (sim_script w); simpl; lia.
  - intros p w. simpl. lia.
  - intros p w. simpl. lia.
  - intros d w. simpl. lia.
Qed.

Lemma start_stop_idempotent_witness :
  start_vm plain "Fedora39" "qemu" None (sim_state [Some (0, pid_out)] true)
  = (Ret true, mkSt (mkSim 0 [] true) [Spawn (pgrep_cmd "Fedora39")])
  /\ stop_vm plain "Fedora39" "qemu" false 3 4 (sim_state [Some (1, "")] true)
     = (Ret true, mkSt (mkSim 0 [] true) [Spawn (pgrep_cmd "Fedora39")]).
Proof.
  split.
  - apply (proj1 (start_stop_idempotent (HW:=sim_host) plain "Fedora39" "qemu"
                    (sim_state [Some (0, pid_out)] true)
                    (mkSt (mkSim 0 [] true) [Spawn (pgrep_cmd "Fedora39")])
                    (mkStatusResult Running (Some Qemu) None)
                    ltac:(vm_compute; reflexivity)));
      reflexivity.
  - apply (proj1 (proj2 (start_stop_idempotent (HW:=sim_host) plain "Fedora39" "qemu"
                    (sim_state [Some (1, "")] true)
                    (mkSt (mkSim 0 [] true) [Spawn (pgrep_cmd "Fedora39")])
                    (mkStatusResult Stopped (Some Qemu) None)
                    ltac:(vm_compute; reflexivity))));
      reflexivity.
Defined.

Lemma start_vm_direct_argv_witness :
  exists b s2 rest,
    start_vm plain "Fedora39" "qemu"
      (Some [("m", CStr "2048"); ("enable-kvm", CBool true)])
      (sim_state [Some (1, ""); Some (0, ""); Some (0, pid_out)] true) = (Ret b, s2)
    /\ trace s2
       = ([Spawn (pgrep_cmd "Fedora39")]
            ++ Spawn ["qemu-system-x86_64"; "-name"; "guest=Fedora39";
                      "-m"; "2048"; "-enable-kvm"] :: rest)%list
    /\ (rest = [] \/ rest = [Sleep 2000; Spawn (pgrep_cmd "Fedora39")]).
Proof.
  apply (proj1 (start_vm_direct_argv (HW:=sim_host) plain "Fedora39"
                  (Some [("m", CStr "2048"); ("enable-kvm", CBool true)])
                  (sim_state [Some (1, ""); Some (0, ""); Some (0, pid_out)] true)
                  (mkSt (mkSim 0 [Some (0, ""); Some (0, pid_out)] true)
                        [Spawn (pgrep_cmd "Fedora39")])
                  (mkStatusResult Stopped (Some Qemu) None)
                  ltac:(reflexivity) ltac:(vm_compute; reflexivity) ltac:(discriminate))).
Defined.

Lemma stop_vm_direct_multi_line_witness :
  stop_vm plain "Fedora39" "qemu" false 3 4
    (sim_state [Some (0, pid_out); Some (0, "4242" +:+ LF +:+ "4243" +:+ LF)] true)
  = (Ret false, mkSt (mkSim 0 [] true)
                  [Spawn (pgrep_cmd "Fedora39"); Spawn (pgrep_cmd "Fedora39")]).
Proof.
  apply (stop_vm_direct_multi_line (HW:=sim_host) plain "Fedora39" false 3 4
           (sim_state [Some (0, pid_out); Some (0, "4242" +:+ LF +:+ "4243" +:+ LF)] true)
           (mkSt (mkSim 0 [Some (0, "4242" +:+ LF +:+ "4243" +:+ LF)] true)
                 [Spawn (pgrep_cmd "Fedora39")])
           (mkSt (mkSim 0 [] true)
                 [Spawn (pgrep_cmd "Fedora39"); Spawn (pgrep_cmd "Fedora39")])
           (mkStatusResult Running (Some Qemu) None)
           ("4242" +:+ LF +:+ "4243" +:+ LF));
    [vm_compute; reflexivity | reflexivity | vm_compute; reflexivity | vm_compute; tauto].
Defined.

Lemma stop_vm_force_libvirt_witness :
  exists r3 s3,
    get_vm_status plain "Fedora39" "qemu:///system"
      (mkSt (sleep 200 (world (forced_libvirt_2 0)))
            (trace (forced_libvirt_2 0) ++ [Sleep 200])) = (Ret r3, s3)
    /\ stop_vm plain "Fedora39" "qemu:///system" true 3 4 (forced_libvirt 0)
       = (Ret (status_eqb (r_status r3) Stopped), s3)
    /\ trace s3
       = (trace (forced_libvirt 0)
            ++ [Spawn (domstate_cmd "qemu:///system" "Fedora39");
                Spawn (destroy_cmd "qemu:///system" "Fedora39");
                Sleep 200;
                Spawn (domstate_cmd "qemu:///system" "Fedora39")])%list.
Proof.
  apply (proj1 (stop_vm_force_libvirt (HW:=sim_host) plain "Fedora39" "qemu:///system" 3 4
                  (forced_libvirt 0) (forced_libvirt_1 0) (forced_libvirt_2 0)
                  (mkStatusResult Running (Some Libvirt) (Some "qemu:///system"))
                  (Some (0, ""))
                  ltac:(discriminate) ltac:(vm_compute; reflexivity)
                  ltac:(reflexivity) ltac:(vm_compute; reflexivity))).
  by exists "".
Defined.

(** C4 as worded fails when [destroy] exits with a code other than 0:
    [stop_vm] returns [False] right after it, with no settle delay and no
    second status query in the trace, although a status query after the
    settle delay would report [Stopped]. *)
Lemma stop_vm_force_destroy_fails_counterexample :
  stop_vm plain "Fedora39" "qemu:///system" true 3 4 (forced_libvirt 1)
  = (Ret false,
     mkSt (mkSim 0 [Some (0, "shut off" +:+ LF)] true)
          [Spawn (domstate_cmd "qemu:///system" "Fedora39");
           Spawn (destroy_cmd "qemu:///system" "Fedora39")])
  /\ fst (get_vm_status plain "Fedora39" "qemu:///system"
            (snd (time_sleep 200 (forced_libvirt_2 1))))
     = Ret (mkStatusResult Stopped (Some Libvirt) (Some "qemu:///system")).
Proof. split; vm_compute; reflexivity. Qed.

(** The four cases on the scripted host: a libvirt guest that is still
    [running] after the timeout (destroyed), one that is [in shutdown]
    (left alone); a direct process that is still found after the timeout
    (killed), one that is gone by then (left alone). *)
Lemma stop_vm_graceful_escalates_witness :
  (exists s5 r6 s6,
     trace s5 = (trace stubborn_libvirt_4
                   ++ [Spawn (destroy_cmd "qemu:///system" "Fedora39")])%list
     /\ get_vm_status plain "Fedora39" "qemu:///system" (snd (time_sleep 200 s5))
        = (Ret r6, s6)
     /\ stop_vm plain "Fedora39" "qemu:///system" false 3 4 stubborn_libvirt
        = (Ret (status_eqb (r_status r6) Stopped), s6))
  /\ (exists r6 s6,
        get_vm_status plain "Fedora39" "qemu:///system"
          (snd (time_sleep 200 slow_libvirt_4)) = (Ret r6, s6)
        /\ stop_vm plain "Fedora39" "qemu:///system" false 3 4 slow_libvirt_0
           = (Ret (status_eqb (r_status r6) Stopped), s6)
        /\ trace s6
           = (trace slow_libvirt_4
                ++ [Sleep 200; Spawn (domstate_cmd "qemu:///system" "Fedora39")])%list)
  /\ (exists r6 s6,
        get_vm_status plain "Fedora39" "qemu"
          (snd (time_sleep 1000
                  (mkSt (world stubborn_qemu_4)
                        (trace stubborn_qemu_4 ++ [Kill 4242 SIGKILL]))))
        = (Ret r6, s6)
        /\ stop_vm plain "Fedora39" "qemu" false 3 4 stubborn_qemu
           = (Ret (status_eqb (r_status r6) Stopped), s6))
  /\ (exists r6 s6,
        get_vm_status plain "Fedora39" "qemu" (snd (time_sleep 1000 late_qemu_4))
        = (Ret r6, s6)
        /\ stop_vm plain "Fedora39" "qemu" false 3 4 late_qemu
           = (Ret (status_eqb (r_status r6) Stopped), s6)
        /\ trace s6
           = (trace late_qemu_4 ++ [Sleep 1000; Spawn (pgrep_cmd "Fedora39")])%list).
Proof.
  split; [|split; [|split]].
  - apply (proj1 (proj1 (stop_vm_graceful_escalates (HW:=sim_host) (HC:=sim_clock_ok)
                           plain "Fedora39" 3 4 ltac:(vm_compute; reflexivity))
                    "qemu:///system" stubborn_libvirt stubborn_libvirt_1 stubborn_libvirt_2
                    stubborn_libvirt_4
                    (mkStatusResult Running (Some Libvirt) (Some "qemu:///system"))
                    (mkStatusResult Running (Some Libvirt) (Some "qemu:///system")) ""
                    ltac:(discriminate) ltac:(vm_compute; reflexivity)
                    ltac:(discriminate) ltac:(reflexivity)
                    ltac:(vm_compute; reflexivity) ltac:(vm_compute; discriminate)
                    ltac:(vm_compute; reflexivity))).
    reflexivity.
  - apply (proj2 (proj1 (stop_vm_graceful_escalates (HW:=sim_host) (HC:=sim_clock_ok)
                           plain "Fedora39" 3 4 ltac:(vm_compute; reflexivity))
                    "qemu:///system" slow_libvirt_0 slow_libvirt_1 slow_libvirt_2
                    slow_libvirt_4
                    (mkStatusResult Running (Some Libvirt) (Some "qemu:///system"))
                    (mkStatusResult Unknown (Some Libvirt) (Some "qemu:///system")) ""
                    ltac:(discriminate) ltac:(vm_compute; reflexivity)
                    ltac:(discriminate) ltac:(reflexivity)
                    ltac:(vm_compute; reflexivity) ltac:(vm_compute; discriminate)
                    ltac:(vm_compute; reflexivity))).
    discriminate.
  - apply (proj1 (proj2 (stop_vm_graceful_escalates (HW:=sim_host) (HC:=sim_clock_ok)
                           plain "Fedora39" 3 4 ltac:(vm_compute; reflexivity))
                    stubborn_qemu stubborn_qemu_1 stubborn_qemu_2 stubborn_qemu_4
                    (mkStatusResult Running (Some Qemu) None)
                    (mkStatusResult Running (Some Qemu) None) pid_out 4242
                    (world stubborn_qemu_2)
                    ltac:(vm_compute; reflexivity) ltac:(discriminate)
                    ltac:(vm_compute; reflexivity) ltac:(vm_compute; reflexivity)
                    ltac:(vm_compute; reflexivity) ltac:(vm_compute; discriminate)
                    ltac:(vm_compute; reflexivity))).
    reflexivity.
  - apply (proj2 (proj2 (stop_vm_graceful_escalates (HW:=sim_host) (HC:=sim_clock_ok)
                           plain "Fedora39" 3 4 ltac:(vm_compute; reflexivity))
                    late_qemu late_qemu_1 late_qemu_2 late_qemu_4
                    (mkStatusResult Running (Some Qemu) None)
                    (mkStatusResult Stopped (Some Qemu) None) pid_out 4242
                    (world late_qemu_2)
                    ltac:(vm_compute; reflexivity) ltac:(discriminate)
                    ltac:(vm_compute; reflexivity) ltac:(vm_compute; reflexivity)
                    ltac:(vm_compute; reflexivity) ltac:(vm_compute; discriminate)
                    ltac:(vm_compute; reflexivity))).
    discriminate.
Defined.

(** C2 as worded fails when the guest is neither [Stopped] nor [Running]
    after the timeout: a domain that [virsh domstate] reports as
    [in shutdown] has status [Unknown], no [destroy] is issued, and
    [stop_vm] returns [False]. *)
Lemma stop_vm_graceful_unknown_counterexample :
  sim_run (stop_vm plain "Fedora39" "qemu:///system" false 3 4) slow_libvirt true
  = (Ret false,
     [Spawn (domstate_cmd "qemu:///system" "Fedora39");
      Spawn (shutdown_cmd "qemu:///system" "Fedora39");
      Spawn (domstate_cmd "qemu:///system" "Fedora39"); Sleep 1000;
      Spawn (domstate_cmd "qemu:///system" "Fedora39"); Sleep 1000;
      Spawn (domstate_cmd "qemu:///system" "Fedora39"); Sleep 1000;
      Spawn (domstate_cmd "qemu:///system" "Fedora39"); Sleep 200;
      Spawn (domstate_cmd "qemu:///system" "Fedora39")])
  /\ ~ In (Spawn (destroy_cmd "qemu:///system" "Fedora39"))
          (snd (sim_run (stop_vm plain "Fedora39" "qemu:///system" false 3 4)
                  slow_libvirt true)).
Proof.
  split; [vm_compute; reflexivity|].
  vm_compute. intros Hin.
  repeat (destruct Hin as [Hin|Hin]; [discriminate Hin|]). exact Hin.
Qed.

(** The scripted host at work: the running list of the system endpoint
    exits with code 1, and the session endpoint is still asked. *)
Lemma list_failure_is_per_subcommand_witness :
  exists inv s',
    get_vms plain true (sim_state half_failed true) = (Ret inv, s')
    /\ endpoint_of <$> answers plain (endpoints plain true) (sim_state half_failed true)
       = endpoints plain true
    /\ trace s' = (trace (sim_state half_failed true)
                     ++ flat_map (list_events plain) (endpoints plain true)
                     ++ [Spawn (spawn_argv plain scan_cmd)])%list
    /\ forall a, a ∈ answers plain (endpoints plain true) (sim_state half_failed true) ->
         let r1 := running_reply a in
         let r2 := inactive_reply a in
         libvirt inv !! endpoint_of a = Some (listed Running r1 ++ listed Stopped r2)%list
         /\ (failed r1 -> libvirt inv !! endpoint_of a = Some (listed Stopped r2))
         /\ (failed r2 -> libvirt inv !! endpoint_of a = Some (listed Running r1))
         /\ (failed r1 -> failed r2 -> libvirt inv !! endpoint_of a = Some []).
Proof.
  apply (list_failure_is_per_subcommand (HW:=sim_host) plain true
           (sim_state half_failed true));
    [reflexivity | vm_compute; repeat constructor].
Defined.

(** C3 as worded fails either way a list sub-command can fail.  When the
    running list of the system endpoint exits with code 1, the list of
    that endpoint is not empty: it holds the inactive [vm1] (and the
    session endpoint is listed).  And when the output of that running list
    does not decode, the exception leaves the loop: the session endpoint
    is neither queried nor in the inventory. *)
Lemma list_failure_counterexample :
  (exists inv tr,
     sim_run (get_vms plain true) half_failed true = (Ret inv, tr)
     /\ libvirt inv !! "qemu:///system" = Some [mkVM "vm1" Stopped]
     /\ libvirt inv !! "qemu:///session" = Some [mkVM "vm2" Running])
  /\ (exists inv,
        sim_run (get_vms plain true) garbled true
        = (Ret inv, [Spawn (list_running_cmd "qemu:///system"); Spawn scan_cmd])
        /\ endpoints plain true = ["qemu:///system"; "qemu:///session"]
        /\ libvirt inv !! "qemu:///system" = Some []
        /\ libvirt inv !! "qemu:///session" = None).
Proof.
  split.
  - eexists _, _. split; [vm_compute; reflexivity|].
    split; vm_compute; reflexivity.
  - eexists. split; [vm_compute; reflexivity|].
    repeat split; vm_compute; reflexivity.
Qed.

(** ** Sanity checks of the string built-ins *)

Example strip_ex : Py.strip (LF +:+ " Running " +:+ LF) = "Running".
Proof. reflexivity. Qed.

Example lower_ex : Py.lower "Shut Off" = "shut off".
Proof. reflexivity. Qed.

Example splitlines_ex :
  Py.splitlines ("a" +:+ String "013" LF +:+ "b" +:+ LF +:+ LF +:+ "c") = ["a"; "b"; ""; "c"].
Proof. vm_compute. reflexivity. Qed.

Example int_ex : Py.int (" 12_3" +:+ LF) = Some 123.
Proof. reflexivity. Qed.

Example int_two_lines_ex : Py.int ("4242" +:+ LF +:+ "4243") = None.
Proof. reflexivity. Qed.

Example strip_nbsp_ex : Py.strip (NBSP +:+ " running" +:+ NBSP +:+ LF) = "running".
Proof. vm_compute. reflexivity. Qed.

(** U+2028, the line separator, is a line boundary. *)
Example splitlines_ls_ex :
  Py.splitlines ("vm1" +:+ String "226" (String "128" (String "168" "vm2")) +:+ LF)
  = ["vm1"; "vm2"].
Proof. vm_compute. reflexivity. Qed.

(** The Kelvin sign U+212A lower-cases to [k]. *)
Example lower_kelvin_ex :
  Py.lower (String "226" (String "132" (String "170" "VM"))) = "kvm".
Proof. vm_compute. reflexivity. Qed.

Example decode_ex :
  Py.decode ("running" +:+ NBSP) = Some ("running" +:+ NBSP)
  /\ Py.decode not_utf8 = None
  /\ Py.decode (String "194" "a") = None
  /\ Py.decode (String "237" (String "160" (String "128" ""))) = None.
Proof. repeat split; vm_compute; reflexivity. Qed.

(** What the pattern of the scan does match: a backslash and letters [s]
    between [-name] and [guest=]. *)
Example guest_re_search_ex :
  Py.guest_re_search "qemu -name\ssguest=Fedora39,foo" = Some "Fedora39".
Proof. reflexivity. Qed.

Example get_all_connections_ex :
  _get_all_connections plain = ["qemu:///system"; "qemu:///session"].
Proof. reflexivity. Qed.

(** ** Outputs outside ASCII, and outputs that do not decode *)

(** A state followed by a no-break space is read as the state. *)
Example domstate_nbsp_ex :
  sim_run (get_vm_status plain "Fedora39" "qemu:///system")
    [Some (0, "running" +:+ NBSP +:+ LF)] true
  = (Ret (mkStatusResult Running (Some Libvirt) (Some "qemu:///system")),
     [Spawn (domstate_cmd "qemu:///system" "Fedora39")]).
Proof. vm_compute. reflexivity. Qed.

Example domstate_not_utf8_ex :
  sim_run (get_vm_status plain "Fedora39" "qemu:///system")
    [Some (0, "running" +:+ not_utf8)] true
  = (Ret (mkStatusResult Unknown (Some Libvirt) (Some "qemu:///system")),
     [Spawn (domstate_cmd "qemu:///system" "Fedora39")]).
Proof. vm_compute. reflexivity. Qed.

(** An inactive list that does not decode ends the enumeration after the
    entries of the running list: the session endpoint is neither queried
    nor in the inventory. *)
Example inactive_list_not_utf8_ex :
  exists inv,
    sim_run (get_vms plain true)
      [Some (0, "vm1" +:+ LF); Some (0, not_utf8); Some (0, "vm2" +:+ LF)] true
    = (Ret inv, [Spawn (list_running_cmd "qemu:///system");
                 Spawn (list_inactive_cmd "qemu:///system"); Spawn scan_cmd])
    /\ libvirt inv !! "qemu:///system" = Some [mkVM "vm1" Running]
    /\ libvirt inv !! "qemu:///session" = None.
Proof.
  eexists. split; [vm_compute; reflexivity|].
  repeat split; vm_compute; reflexivity.
Qed.

(** A process listing that does not decode leaves the direct list empty,
    whatever its lines hold. *)
Example scan_not_utf8_ex :
  sim_run (get_vms bare true) [Some (0, not_utf8 +:+ " -name\sguest=a")] true
  = (Ret (mkInventory [] ∅), [Spawn scan_cmd])
  /\ sim_run (get_vms bare true) [Some (0, "1 -name\sguest=a")] true
     = (Ret (mkInventory [mkVM "a" Running] ∅), [Spawn scan_cmd]).
Proof. split; vm_compute; reflexivity. Qed.

(** A process id that does not decode raises into the handler of
    [stop_vm]. *)
Example pid_not_utf8_ex :
  sim_run (stop_vm plain "Fedora39" "qemu" false 3 4)
    [Some (0, pid_out); Some (0, "4242" +:+ not_utf8)] true
  = (Ret false, [Spawn (pgrep_cmd "Fedora39"); Spawn (pgrep_cmd "Fedora39")]).
Proof. vm_compute. reflexivity. Qed.

(** * Further properties of the controller *)

(** ** Composing what computations add to the trace *)

Section EmitsFacts.
Context {W : Type} `{HW : Host W}.

Lemma emits_nil {A} (P : Event -> Prop) (m : M W A) :
  (forall s, snd (m s) = s) -> emits P m.
Proof. intros Hm s. exists []. rewrite Hm, app_nil_r. by split. Qed.

Lemma emits_ret {A} (P : Event -> Prop) (a : A) : emits P (ret (W:=W) a).
Proof. by apply emits_nil. Qed.

Lemma emits_raise {A} (P : Event -> Prop) e : emits P (raise (W:=W) (A:=A) e).
Proof. by apply emits_nil. Qed.

Lemma emits_starve {A} (P : Event -> Prop) : emits P (starve (W:=W) (A:=A)).
Proof. by apply emits_nil. Qed.

Lemma emits_time_time (P : Event -> Prop) : emits P time_time.
Proof. by apply emits_nil. Qed.

Lemma emits_bind {A B} (P : Event -> Prop) (m : M W A) (k : A -> M W B) :
  emits P m -> (forall a, emits P (k a)) -> emits P (bind m k).
Proof.
  intros Hm Hk s. destruct (Hm s) as (e1 & Ht1 & HP1). unfold bind.
  destruct (m s) as [[a|e|] s1]; simpl in *; [|by exists e1..].
  destruct (Hk a s1) as (e2 & Ht2 & HP2). exists (e1 ++ e2)%list.
  rewrite Ht2, Ht1, app_assoc. split; [done|by apply Forall_app].
Qed.

Lemma emits_try {A} (P : Event -> Prop) (body handler : M W A) :
  emits P body -> emits P handler -> emits P (try_except body handler).
Proof.
  intros Hb Hh s. destruct (Hb s) as (e1 & Ht1 & HP1). unfold try_except.
  destruct (body s) as [[a|e|] s1]; simpl in *; [by exists e1| |by exists e1].
  destruct (Hh s1) as (e2 & Ht2 & HP2). exists (e1 ++ e2)%list.
  rewrite Ht2, Ht1, app_assoc. split; [done|by apply Forall_app].
Qed.

Lemma emits_mono {A} (P Q : Event -> Prop) (m : M W A) :
  (forall e, P e -> Q e) -> emits P m -> emits Q m.
Proof.
  intros HPQ Hm s. destruct (Hm s) as (evs & Ht & HP). exists evs.
  split; [done|]. eapply Forall_impl; eauto.
Qed.

Lemma emits_popen (P : Event -> Prop) argv : P (Spawn argv) -> emits P (host_popen argv).
Proof.
  intros HP s. exists [Spawn argv]. unfold host_popen.
  destruct (popen argv (world s)) as [p w']. simpl. split; [done|by constructor].
Qed.

Lemma emits_communicate (P : Event -> Prop) p : emits P (host_communicate p).
Proof.
  intros s. exists []. unfold host_communicate.
  destruct (communicate p (world s)) as [out w']. simpl. by rewrite app_nil_r.
Qed.

Lemma emits_wait (P : Event -> Prop) p : emits P (host_wait p).
Proof.
  intros s. exists []. unfold host_wait.
  destruct (wait p (world s)) as [code w']. simpl. by rewrite app_nil_r.
Qed.

Lemma emits_kill (P : Event -> Prop) pid sig : P (Kill pid sig) -> emits P (os_kill pid sig).
Proof.
  intros HP s. exists [Kill pid sig]. unfold os_kill.
  destruct (kill pid sig (world s)) as [ok w']. simpl. split; [done|by constructor].
Qed.

Lemma emits_sleep (P : Event -> Prop) ms : P (Sleep ms) -> emits P (time_sleep ms).
Proof. intros HP s. exists [Sleep ms]. simpl. split; [done|by constructor]. Qed.

Lemma emits_run_and_wait (P : Event -> Prop) c cmd :
  P (Spawn (spawn_argv c cmd)) -> emits P (run_and_wait c cmd).
Proof.
  intros HP. unfold run_and_wait, _run_command.
  apply emits_bind; [by apply emits_popen|]. intros [p|]; [|apply emits_ret].
  apply emits_bind; [apply emits_communicate|]. intros out.
  apply emits_bind; [apply emits_wait|]. intros code. apply emits_ret.
Qed.

Lemma emits_get_vm_status (P : Event -> Prop) c n u :
  P (Spawn (spawn_argv c (status_cmd n u))) -> emits P (get_vm_status c n u).
Proof.
  unfold get_vm_status, status_cmd. intros HP.
  destruct (String.eqb u "qemu"); simpl.
  - apply emits_bind; [by apply emits_run_and_wait|].
    intros [[code out]|]; [destruct (code =? 0)|]; apply emits_ret.
  - destruct (libvirt_available c); simpl; [|apply emits_ret].
    apply emits_bind; [by apply emits_run_and_wait|].
    intros [[code out]|]; [destruct (code =? 0); [destruct (Py.decode out); [destruct (classify_state _)|]|]|];
      apply emits_ret.
Qed.

Lemma emits_poll_stopped (P : Event -> Prop) c n u start_time timeout fuel :
  P (Spawn (spawn_argv c (status_cmd n u))) -> P (Sleep 1000) ->
  emits P (poll_stopped fuel c n u start_time timeout).
Proof.
  intros HPq HPs. induction fuel as [|fuel IH]; [apply emits_starve|].
  rewrite poll_stopped_S. apply emits_bind; [apply emits_time_time|]. intros t.
  destruct (t - start_time <? 1000 * timeout); [|apply emits_ret].
  apply emits_bind; [by apply emits_get_vm_status|]. intros r.
  destruct (status_eqb (r_status r) Stopped); [apply emits_ret|].
  apply emits_bind; [by apply emits_sleep|]. intros _. exact IH.
Qed.

End EmitsFacts.

(** ** What the lifecycle operations do and never do *)

Section LifecycleExtras.
Context {W : Type} `{HW : Host W}.















Lemma emits_start_vm c vm_name uri vm_config :
  emits (start_events c vm_name uri vm_config) (start_vm c vm_name uri vm_config).
Proof.
  unfold start_vm.
  apply emits_bind; [apply emits_get_vm_status; by left|]. intros r.
  destruct (status_eqb (r_status r) Running); [apply emits_ret|].
  destruct (String.eqb_spec uri "qemu") as [Hq|Hq]; simpl.
  - assert (Hcmd : match vm_config with
                   | Some cfg => add_config [qemu_bin_path c; "-name"; "guest=" +:+ vm_name] cfg
                   | None => [qemu_bin_path c; "-name"; "guest=" +:+ vm_name]
                   end = qemu_cmd c vm_name vm_config).
    { destruct vm_config as [cfg|]; [|done]. by rewrite add_config_app. }
    rewrite Hcmd. unfold _run_command.
    apply emits_bind; [apply emits_popen; by right; right; right|].
    intros [p|]; [|apply emits_ret].
    apply emits_bind; [apply emits_sleep; by right; left|]. intros _.
    apply emits_bind; [apply emits_get_vm_status; left; by subst|]. intros r'.
    apply emits_ret.
  - destruct (libvirt_available c); [|apply emits_ret].
    apply emits_bind; [apply emits_run_and_wait; by right; right; left|].
    intros [[code out]|]; [|apply emits_ret].
    destruct (code =? 0); [|apply emits_ret].
    apply emits_bind; [apply emits_sleep; by right; left|]. intros _.
    apply emits_bind; [apply emits_get_vm_status; by left|]. intros r'.
    apply emits_ret.
Qed.

Lemma emits_stop_vm c vm_name uri force timeout fuel :
  emits (stop_events c vm_name uri force) (stop_vm c vm_name uri force timeout fuel).
Proof.
  unfold stop_vm.
  assert (Hq : stop_events c vm_name uri force (Spawn (spawn_argv c (status_cmd vm_name uri))))
    by (by left).
  apply emits_bind; [by apply emits_get_vm_status|]. intros r.
  destruct (status_eqb (r_status r) Stopped); [apply emits_ret|].
  destruct (String.eqb_spec uri "qemu") as [Hu|Hu]; simpl.
  - destruct (type_is (r_type r) Qemu); [|apply emits_ret].
    apply emits_try; [|apply emits_ret].
    apply emits_bind.
    { apply emits_run_and_wait. left. subst uri. reflexivity. }
    intros [[code out]|]; [|apply emits_ret].
    destruct (negb (code =? 0)); [apply emits_ret|].
    apply emits_bind.
    { unfold parse_pid. destruct (Py.decode out); [|apply emits_raise].
      destruct (Py.int _); [apply emits_ret|apply emits_raise]. }
    intros pid.
    assert (Hkill9 : stop_events c vm_name uri force (Kill pid SIGKILL)).
    { right; right. split; [done|]. right; left. by exists pid. }
    assert (Hs : stop_events c vm_name uri force (Sleep 1000)).
    { right; right. split; [done|]. by left. }
    apply emits_bind.
    + destruct force.
      * apply emits_bind; [by apply emits_kill|]. intros _. apply emits_ret.
      * unfold qemu_graceful.
        apply emits_bind.
        { apply emits_kill. right; right. split; [done|]. right; right.
          split; [done|]. by exists pid. }
        intros _. apply emits_bind; [apply emits_time_time|]. intros t.
        apply emits_bind; [apply emits_poll_stopped; by subst|]. intros [|];
          [apply emits_ret|].
        apply emits_bind; [apply emits_get_vm_status; by subst|]. intros r'.
        destruct (status_eqb (r_status r') Running); [|apply emits_ret].
        apply emits_bind; [by apply emits_kill|]. intros _. apply emits_ret.
    + intros [|]; [apply emits_ret|].
      apply emits_bind; [by apply emits_sleep|]. intros _.
      apply emits_bind; [apply emits_get_vm_status; by subst|]. intros r'.
      apply emits_ret.
  - destruct (type_is (r_type r) Libvirt); [|apply emits_ret].
    assert (Hd : stop_events c vm_name uri force (Spawn (spawn_argv c (destroy_cmd uri vm_name)))).
    { right; left. split; [done|]. right; by left. }
    apply emits_try; [|apply emits_ret].
    apply emits_bind.
    { apply emits_run_and_wait. destruct force; [done|].
      right; left. split; [done|]. right; right. split; [done|]. by left. }
    intros [[code out]|]; [|apply emits_ret].
    destruct (negb (code =? 0)); [apply emits_ret|].
    apply emits_bind.
    + destruct force; simpl; [apply emits_ret|].
      unfold libvirt_graceful.
      apply emits_bind; [apply emits_time_time|]. intros t.
      apply emits_bind.
      { apply emits_poll_stopped; [done|]. right; left. split; [done|].
        right; right. split; [done|]. by right. }
      intros [|]; [apply emits_ret|].
      apply emits_bind; [by apply emits_get_vm_status|]. intros r'.
      destruct (status_eqb (r_status r') Running); [|apply emits_ret].
      unfold _run_command. apply emits_bind; [by apply emits_popen|].
      intros [p|]; [|apply emits_ret].
      apply emits_bind; [apply emits_communicate|]. intros _. apply emits_ret.
    + intros [|]; [apply emits_ret|].
      apply emits_bind; [apply emits_sleep; right; left; split; [done|by left]|].
      intros _. apply emits_bind; [by apply emits_get_vm_status|]. intros r'.
      apply emits_ret.
Qed.


(** X2.  The only host calls [start_vm] makes are the status query, the
    settle delay of 2 seconds, [virsh start] on a libvirt endpoint and the
    spawn of the QEMU binary on the endpoint [qemu]: it sends no signal
    and issues neither [shutdown] nor [destroy]. *)
Theorem start_vm_emits c vm_name uri vm_config (s : St W) :
  exists evs,
    trace (snd (start_vm c vm_name uri vm_config s)) = (trace s ++ evs)%list
    /\ Forall (start_events c vm_name uri vm_config) evs.
Proof. apply emits_start_vm. Qed.

(** X3.  The only host calls [stop_vm] makes: the status query; on a
    libvirt endpoint [virsh destroy], the settle delay of 0.2 seconds and,
    when not forced, [virsh shutdown] and the polling sleeps; on the
    endpoint [qemu] SIGKILL, sleeps of 1 second and, when not forced,
    SIGTERM.  So the libvirt path sends no signal, the direct path runs no
    [virsh] command, a forced stop on a libvirt endpoint neither asks
    politely nor polls, and [stop_vm] never starts anything. *)
Theorem stop_vm_emits c vm_name uri force timeout fuel (s : St W) :
  exists evs,
    trace (snd (stop_vm c vm_name uri force timeout fuel s)) = (trace s ++ evs)%list
    /\ Forall (stop_events c vm_name uri force) evs.
Proof. apply emits_stop_vm. Qed.

Lemma bind_ret_inv {A B} (m : M W A) (k : A -> M W B) s b s' :
  bind m k s = (Ret b, s') -> exists a s1, m s = (Ret a, s1) /\ k a s1 = (Ret b, s').
Proof.
  unfold bind. destruct (m s) as [[a|e|] s1]; [|done..]. intros Hk. by exists a, s1.
Qed.

Lemma try_false_true_inv (body : M W bool) s s' :
  try_except body (ret false) s = (Ret true, s') -> body s = (Ret true, s').
Proof. unfold try_except, ret. by destruct (body s) as [[[|]|e|] s1]. Qed.

Lemma requery_true_inv c n u st ms (s s' : St W) :
  (let* _ := time_sleep ms in
   let* r := get_vm_status c n u in
   ret (status_eqb (r_status r) st)) s = (Ret true, s') ->
  observed c n u st s'.
Proof.
  intros Hb. apply bind_ret_inv in Hb as (_ & s1 & _ & Hb).
  apply bind_ret_inv in Hb as (r & s2 & Hg & Hb).
  injection Hb as Hst <-. apply status_eqb_eq in Hst. by exists s1, r.
Qed.

Lemma poll_stopped_true_inv c n u start_time timeout fuel (s s' : St W) :
  poll_stopped fuel c n u start_time timeout s = (Ret true, s') ->
  observed c n u Stopped s'.
Proof.
  revert s. induction fuel as [|fuel IH]; intros s; [done|].
  rewrite poll_stopped_S. intros Hb.
  apply bind_ret_inv in Hb as (t & s1 & _ & Hb).
  destruct (t - start_time <? 1000 * timeout); [|done].
  apply bind_ret_inv in Hb as (r & s2 & Hg & Hb).
  destruct (status_eqb (r_status r) Stopped) eqn:Hst.
  - injection Hb as <-. apply status_eqb_eq in Hst. by exists s1, r.
  - apply bind_ret_inv in Hb as (_ & s3 & _ & Hb). by apply IH in Hb.
Qed.

(** X4.  [start_vm] answers [True] only on the evidence of a status query:
    the state it returns in is the one a status query reporting [Running]
    has just left. *)
Theorem start_vm_true_observed c vm_name uri vm_config (s s' : St W) :
  start_vm c vm_name uri vm_config s = (Ret true, s') ->
  observed c vm_name uri Running s'.
Proof.
  unfold start_vm. intros Hb.
  apply bind_ret_inv in Hb as (r & s1 & Hg & Hb).
  destruct (status_eqb (r_status r) Running) eqn:Hst.
  { injection Hb as <-. apply status_eqb_eq in Hst. by exists s, r. }
  destruct (negb (String.eqb uri "qemu") && libvirt_available c).
  - apply bind_ret_inv in Hb as ([[code out]|] & s2 & _ & Hb); [|done].
    destruct (code =? 0); [|done]. by apply requery_true_inv in Hb.
  - destruct (String.eqb uri "qemu"); [|done].
    apply bind_ret_inv in Hb as ([p|] & s2 & _ & Hb); [|done].
    by apply requery_true_inv in Hb.
Qed.

(** X5.  [stop_vm] answers [True] only on the evidence of a query made
    last: a status query reporting [Stopped], or, on the endpoint [qemu],
    the search for the process id exiting with a code other than 0. *)
Theorem stop_vm_true_observed c vm_name uri force timeout fuel (s s' : St W) :
  stop_vm c vm_name uri force timeout fuel s = (Ret true, s') ->
  observed c vm_name uri Stopped s'
  \/ (uri = "qemu"
      /\ exists s0 code stdout,
           run_and_wait c (pgrep_cmd vm_name) s0 = (Ret (Some (code, stdout)), s')
           /\ code <> 0).
Proof.
  unfold stop_vm. intros Hb.
  apply bind_ret_inv in Hb as (r & s1 & Hg & Hb).
  destruct (status_eqb (r_status r) Stopped) eqn:Hst.
  { injection Hb as <-. apply status_eqb_eq in Hst. left. by exists s, r. }
  destruct (negb (String.eqb uri "qemu") && type_is (r_type r) Libvirt).
  { apply try_false_true_inv in Hb. left.
    apply bind_ret_inv in Hb as ([[code out]|] & s2 & _ & Hb); [|done].
    destruct (negb (code =? 0)); [done|].
    apply bind_ret_inv in Hb as (returned & s3 & Hret & Hb).
    destruct returned.
    - injection Hb as <-. destruct (negb force); [|done].
      unfold libvirt_graceful in Hret.
      apply bind_ret_inv in Hret as (t & s4 & _ & Hret).
      apply bind_ret_inv in Hret as ([|] & s5 & Hp & Hret).
      + injection Hret as <-. by apply poll_stopped_true_inv in Hp.
      + apply bind_ret_inv in Hret as (r' & s6 & _ & Hret).
        destruct (status_eqb (r_status r') Running); [|done].
        apply bind_ret_inv in Hret as ([p|] & s7 & _ & Hret); [|done].
        by apply bind_ret_inv in Hret as (? & ? & _ & ?).
    - by apply requery_true_inv in Hb. }
  destruct (String.eqb_spec uri "qemu") as [->|]; [|done]. simpl in Hb.
  destruct (type_is (r_type r) Qemu); [|done].
  apply try_false_true_inv in Hb.
  apply bind_ret_inv in Hb as ([[code out]|] & s2 & Hrun & Hb); [|done].
  destruct (Z.eqb_spec code 0) as [->|Hcode]; simpl in Hb.
  2:{ injection Hb as <-. right. split; [done|]. by exists s1, code, out. }
  left. apply bind_ret_inv in Hb as (pid & s3 & _ & Hb).
  apply bind_ret_inv in Hb as (returned & s4 & Hret & Hb).
  destruct returned; [|by apply requery_true_inv in Hb].
  injection Hb as <-. destruct force.
  - apply bind_ret_inv in Hret as (? & ? & _ & ?). done.
  - unfold qemu_graceful in Hret.
    apply bind_ret_inv in Hret as (_ & s5 & _ & Hret).
    apply bind_ret_inv in Hret as (t & s6 & _ & Hret).
    apply bind_ret_inv in Hret as ([|] & s7 & Hp & Hret).
    + injection Hret as <-. by apply poll_stopped_true_inv in Hp.
    + apply bind_ret_inv in Hret as (r' & s8 & _ & Hret).
      destruct (status_eqb (r_status r') Running); [|done].
      by apply bind_ret_inv in Hret as (? & ? & _ & ?).
Qed.

(** X6.  Without libvirt, an endpoint other than [qemu] is served by no
    backend: [get_vm_status] returns [Unknown] with neither type nor
    endpoint, [start_vm] and [stop_vm] return [False], and none of them
    makes a single host call. *)
Theorem no_daemon_no_call c vm_name uri (s : St W) :
  libvirt_available c = false ->
  uri <> "qemu" ->
  get_vm_status c vm_name uri s = (Ret (mkStatusResult Unknown None None), s)
  /\ (forall vm_config, start_vm c vm_name uri vm_config s = (Ret false, s))
  /\ (forall force timeout fuel, stop_vm c vm_name uri force timeout fuel s = (Ret false, s)).
Proof.
  intros Hav Hu.
  assert (Hg : get_vm_status c vm_name uri s = (Ret (mkStatusResult Unknown None None), s)).
  { unfold get_vm_status. destruct (String.eqb_spec uri "qemu"); [done|]. by rewrite Hav. }
  split; [done|]. split.
  - intros cfg. unfold start_vm. rewrite (bind_ret_eq _ _ _ _ _ Hg). simpl.
    destruct (String.eqb_spec uri "qemu"); [done|]. by rewrite Hav.
  - intros force timeout fuel. unfold stop_vm. rewrite (bind_ret_eq _ _ _ _ _ Hg). simpl.
    destruct (String.eqb_spec uri "qemu"); [done|]. reflexivity.
Qed.

(** X7.  On the endpoint [qemu], when the VM is not reported [Stopped] and
    the search for its process id then finds nothing (an exit code other
    than 0: the process went away in between), [stop_vm] returns [True];
    when the search cannot be spawned it returns [False].  Either way no
    signal is sent: the trace holds the two searches only. *)
Theorem stop_vm_direct_process_gone c vm_name force timeout fuel (s s1 s2 : St W) r reply :
  get_vm_status c vm_name "qemu" s = (Ret r, s1) ->
  r_status r <> Stopped ->
  run_and_wait c (pgrep_cmd vm_name) s1 = (Ret reply, s2) ->
  (forall stdout, reply <> Some (0, stdout)) ->
  stop_vm c vm_name "qemu" force timeout fuel s
  = (Ret (match reply with Some _ => true | None => false end), s2)
  /\ trace s2 = (trace s ++ [Spawn (spawn_argv c (pgrep_cmd vm_name));
                             Spawn (spawn_argv c (pgrep_cmd vm_name))])%list.
Proof.
  intros Hg Hr Hrun Hfail.
  destruct (get_vm_status_inv c vm_name "qemu" s) as (r' & s' & Hg' & Ht & _ & _ & Hty & _).
  rewrite Hg in Hg'. injection Hg' as <- <-.
  destruct Ht as [Ht|(_ & _ & ? & _)]; [|done].
  destruct (run_and_wait_ret c (pgrep_cmd vm_name) s1) as (reply' & s2' & Hrun' & Ht2).
  rewrite Hrun in Hrun'. injection Hrun' as <- <-.
  split; [|rewrite Ht2, Ht; by rewrite <- app_assoc].
  unfold stop_vm. rewrite (bind_ret_eq _ _ _ _ _ Hg).
  destruct (status_eqb (r_status r) Stopped) eqn:Hst.
  { apply status_eqb_eq in Hst. done. }
  rewrite (Hty eq_refl). simpl. apply try_except_ret.
  rewrite (bind_ret_eq _ _ _ _ _ Hrun).
  destruct reply as [[code out]|]; [|done].
  destruct (Z.eqb_spec code 0) as [->|]; [by destruct (Hfail out)|done].
Qed.

(** X8.  A forced stop on the endpoint [qemu] of a VM reported [Running]
    sends SIGKILL to the process id the search printed, once, with no
    SIGTERM and no polling; when the signal is delivered it sleeps one
    second and returns whether the status queried then is [Stopped]; when
    [os.kill] raises it returns [False]. *)
Theorem stop_vm_force_direct c vm_name timeout fuel (s s1 s2 : St W) r stdout pid :
  get_vm_status c vm_name "qemu" s = (Ret r, s1) ->
  r_status r = Running ->
  run_and_wait c (pgrep_cmd vm_name) s1 = (Ret (Some (0, stdout)), s2) ->
  Py.int (Py.strip stdout) = Some pid ->
  let search := Spawn (spawn_argv c (pgrep_cmd vm_name)) in
  let s3 := mkSt (snd (kill pid SIGKILL (world s2))) (trace s2 ++ [Kill pid SIGKILL]) in
  trace s3 = (trace s ++ [search; search; Kill pid SIGKILL])%list
  /\ if fst (kill pid SIGKILL (world s2)) then
       exists r4 s4,
         get_vm_status c vm_name "qemu" (snd (time_sleep 1000 s3)) = (Ret r4, s4)
         /\ stop_vm c vm_name "qemu" true timeout fuel s
            = (Ret (status_eqb (r_status r4) Stopped), s4)
         /\ trace s4 = (trace s ++ [search; search; Kill pid SIGKILL; Sleep 1000; search])%list
     else stop_vm c vm_name "qemu" true timeout fuel s = (Ret false, s3).
Proof.
  intros Hg Hr Hrun Hpid search s3.
  destruct (get_vm_status_inv c vm_name "qemu" s) as (r' & s' & Hg' & Ht & _).
  rewrite Hg in Hg'. injection Hg' as <- <-.
  destruct Ht as [Ht|(_ & _ & ? & _)]; [|done].
  destruct (run_and_wait_ret c (pgrep_cmd vm_name) s1) as (reply' & s2' & Hrun' & Ht2).
  rewrite Hrun in Hrun'. injection Hrun' as <- <-.
  assert (Ht3 : trace s3 = (trace s ++ [search; search; Kill pid SIGKILL])%list).
  { subst s3. simpl. rewrite Ht2, Ht. by rewrite <- !app_assoc. }
  split; [done|].
  assert (Hk : (let* _ := os_kill pid SIGKILL in ret false) s2
               = (if fst (kill pid SIGKILL (world s2)) then Ret false else Raise OSError, s3)).
  { unfold bind, os_kill, ret. subst s3.
    by destruct (kill pid SIGKILL (world s2)) as [[|] w3]. }
  clearbody s3.
  destruct (fst (kill pid SIGKILL (world s2)));
    rewrite (stop_vm_direct_unfold _ _ _ _ _ _ _ _ _ _ _ Hg (running_not_stopped _ Hr) Hrun Hpid);
    unfold try_except; unfold bind at 1; rewrite Hk; [|done].
  destruct (get_vm_status_inv c vm_name "qemu" (snd (time_sleep 1000 s3)))
    as (r4 & s4 & Hg4 & Ht4 & _).
  exists r4, s4. split; [done|]. split.
  - unfold bind at 1.
    change (time_sleep 1000 s3) with (Ret tt, snd (time_sleep 1000 s3)).
    cbv beta iota. by rewrite (bind_ret_eq _ _ _ _ _ Hg4).
  - destruct Ht4 as [Ht4|(_ & _ & ? & _)]; [|done].
    rewrite Ht4. simpl. rewrite Ht3. by rewrite <- !app_assoc.
Qed.


(** X10.  On a libvirt endpoint [start_vm] of a VM not reported [Running]
    runs [virsh start]; when that exits with code 0 it sleeps two seconds
    and returns whether the status queried then is [Running]; when it
    cannot be spawned or exits with another code it returns [False] at
    once, with no delay and no second query. *)
Theorem start_vm_libvirt c vm_name uri vm_config (s s1 s2 : St W) r reply :
  uri <> "qemu" ->
  libvirt_available c = true ->
  get_vm_status c vm_name uri s = (Ret r, s1) ->
  r_status r <> Running ->
  run_and_wait c (start_cmd uri vm_name) s1 = (Ret reply, s2) ->
  ((exists stdout, reply = Some (0, stdout)) ->
     exists r3 s3,
       get_vm_status c vm_name uri (snd (time_sleep 2000 s2)) = (Ret r3, s3)
       /\ start_vm c vm_name uri vm_config s = (Ret (status_eqb (r_status r3) Running), s3))
  /\ ((forall stdout, reply <> Some (0, stdout)) ->
        start_vm c vm_name uri vm_config s = (Ret false, s2)).
Proof.
  intros Hu Hav Hg Hr Hrun.
  assert (Hpre : start_vm c vm_name uri vm_config s
    = match reply with
      | Some (cmd_result, _) =>
          if cmd_result =? 0 then
            (let* _ := time_sleep 2000 in
             let* r := get_vm_status c vm_name uri in
             ret (status_eqb (r_status r) Running)) s2
          else (Ret false, s2)
      | None => (Ret false, s2)
      end).
  { unfold start_vm. rewrite (bind_ret_eq _ _ _ _ _ Hg).
    destruct (status_eqb (r_status r) Running) eqn:Hst.
    { apply status_eqb_eq in Hst. done. }
    destruct (String.eqb_spec uri "qemu"); [done|]. rewrite Hav. simpl.
    change ["virsh"; "-c"; uri; "start"; vm_name] with (start_cmd uri vm_name).
    rewrite (bind_ret_eq _ _ _ _ _ Hrun).
    destruct reply as [[code out]|]; [|done]. by destruct (code =? 0). }
  rewrite Hpre. split.
  - intros [stdout ->]. simpl.
    destruct (get_vm_status_inv c vm_name uri (snd (time_sleep 2000 s2)))
      as (r3 & s3 & Hg3 & _).
    exists r3, s3. split; [done|]. unfold bind at 1.
    change (time_sleep 2000 s2) with (Ret tt, snd (time_sleep 2000 s2)).
    cbv beta iota. by rewrite (bind_ret_eq _ _ _ _ _ Hg3).
  - intros Hfail. destruct reply as [[code out]|]; [|done].
    destruct (Z.eqb_spec code 0) as [->|]; [by destruct (Hfail out)|done].
Qed.



End LifecycleExtras.

(** ** Enumeration, beyond the claims *)

Section EnumerationExtras.
Context {W : Type} `{HW : Host W}.

(** X12.  The connections of [_get_all_connections] are the system and
    the session URI, in that order, followed by the default URI when it is
    set, not empty and not one of the two; the list has no duplicate and
    no empty entry. *)
Theorem get_all_connections_shape c :
  exists rest,
    _get_all_connections c = "qemu:///system" :: "qemu:///session" :: rest
    /\ NoDup (_get_all_connections c)
    /\ ("" ∉ _get_all_connections c)
    /\ (forall d, default_uri c = Some d -> d <> "" -> d ∈ _get_all_connections c)
    /\ (forall u, u ∈ rest -> default_uri c = Some u).
Proof.
  assert (Hbase : NoDup ["qemu:///system"; "qemu:///session"]).
  { apply NoDup_cons. split; [|apply NoDup_singleton].
    intros Hin. apply list_elem_of_singleton in Hin. discriminate. }
  assert (Hne : "" ∉ ["qemu:///system"; "qemu:///session"]).
  { intros Hin. apply elem_of_cons in Hin as [?|Hin]; [done|].
    apply list_elem_of_singleton in Hin. discriminate. }
  unfold _get_all_connections. destruct (default_uri c) as [d|]; simpl.
  2:{ exists []. repeat split; try done. intros u Hu. by apply elem_of_nil in Hu. }
  destruct (Py.is_empty d) eqn:Hd; simpl.
  { exists []. repeat split; try done.
    - intros d0 [= <-] Hd0. by destruct d.
    - intros u Hu. by apply elem_of_nil in Hu. }
  destruct (bool_decide_reflect (d ∈ ["qemu:///system"; "qemu:///session"])) as [Hin|Hnin];
    simpl.
  { exists []. repeat split; try done.
    - by intros d0 [= <-] _.
    - intros u Hu. by apply elem_of_nil in Hu. }
  exists [d]. repeat split; try done.
  - change ["qemu:///system"; "qemu:///session"; d]
      with (["qemu:///system"; "qemu:///session"] ++ [d])%list.
    apply NoDup_app. split; [done|]. split; [|apply NoDup_singleton].
    intros x Hx Hxd. apply list_elem_of_singleton in Hxd. by subst.
  - intros Hin. apply elem_of_cons in Hin as [?|Hin]; [done|].
    apply elem_of_cons in Hin as [?|Hin]; [done|].
    apply list_elem_of_singleton in Hin. subst d. done.
  - intros d0 [= <-] _. set_solver.
  - intros u Hu. apply list_elem_of_singleton in Hu. by subst.
Qed.

(** X13.  In every inventory, the list of an endpoint holds the VMs of
    the running list first, all marked [Running], then those of the
    inactive list, all marked [Stopped]; no entry has a blank name and no
    entry is [Unknown]. *)
Theorem get_vms_managed_well_listed c show_all (s : St W) :
  exists inv s',
    get_vms c show_all s = (Ret inv, s')
    /\ forall uri l, libvirt inv !! uri = Some l -> well_listed l.
Proof.
  destruct (get_vms_shape c show_all s) as (managed & s1 & reply & s2 & Hm & _ & _ & Hg).
  eexists _, _. split; [exact Hg|]. simpl.
  destruct (libvirt_available c).
  - destruct (for_each_list_endpoint c (connections_of c show_all) ∅ s)
      as (s' & Hfe & _).
    rewrite Hm in Hfe. injection Hfe as -> <-.
    apply collect_well_listed. intros u l Hl. by rewrite lookup_empty in Hl.
  - injection Hm as <- <-. intros u l Hl. by rewrite lookup_empty in Hl.
Qed.

(** An output that cannot be read ends the loop at its endpoint. *)
Lemma collect_abort pre a post :
  forall managed : gmap string (list VM),
    Forall all_readable pre -> ~ all_readable a ->
    dom (collect (pre ++ a :: post) managed)
    = dom managed ∪ list_to_set (endpoint_of <$> pre) ∪ {[endpoint_of a]}.
Proof.
  induction pre as [|a0 pre IH]; intros managed Hpre Ha; simpl.
  - destruct (readable (running_reply a)) eqn:E1;
      [destruct (readable (inactive_reply a)) eqn:E2|]; simpl.
    + destruct Ha. by split.
    + rewrite dom_insert_L. set_solver.
    + rewrite dom_insert_L. set_solver.
  - apply Forall_cons in Hpre as [[E1 E2] Hpre]. rewrite E1, E2. simpl.
    rewrite IH by done. rewrite dom_insert_L. set_solver.
Qed.

(** X14.  The endpoints of an inventory are among the connections that
    were to be queried, and are all of them when the output of every list
    sub-command that exits with code 0 decodes; an output that does not
    decode ends the enumeration at its endpoint, and the endpoints after
    it are left out.  Without libvirt there is no endpoint, and the
    process scan is the only command [get_vms] runs. *)
Theorem get_vms_endpoints c show_all (s : St W) :
  exists inv s',
    get_vms c show_all s = (Ret inv, s')
    /\ (libvirt_available c = true ->
        dom (libvirt inv) ⊆ list_to_set (endpoints c show_all)
        /\ (Forall all_readable (answers c (endpoints c show_all) s) ->
            dom (libvirt inv) = list_to_set (endpoints c show_all))
        /\ (forall pre a post,
              answers c (endpoints c show_all) s = (pre ++ a :: post)%list ->
              Forall all_readable pre -> ~ all_readable a ->
              dom (libvirt inv)
              = list_to_set (endpoint_of <$> pre) ∪ {[endpoint_of a]}))
    /\ (libvirt_available c = false ->
        libvirt inv = ∅
        /\ trace s' = (trace s ++ [Spawn (spawn_argv c scan_cmd)])%list).
Proof.
  destruct (libvirt_available c) eqn:Hav.
  - destruct (get_vms_managed c show_all s Hav) as (inv & s' & Hg & Hm & _).
    exists inv, s'. split; [done|]. split; [|done]. intros _. rewrite Hm.
    destruct (collect_dom (answers c (endpoints c show_all) s) ∅) as [Hsub Heq].
    rewrite answers_endpoints in Hsub, Heq. split; [set_solver|]. split.
    + intros Hall. rewrite (Heq Hall). set_solver.
    + intros pre a post Hans Hpre Ha. rewrite Hans.
      rewrite collect_abort by done. set_solver.
  - destruct (get_vms_shape c show_all s) as (managed & s1 & reply & s2 & Hm & _ & Ht & Hg).
    rewrite Hav in Hm. injection Hm as <- <-.
    eexists _, _. split; [exact Hg|]. split; [done|]. intros _. by rewrite Ht.
Qed.

Lemma scan_lines_spec names lines :
  scan_lines names lines
  = (fun n => mkVM n Running)
      <$> List.filter (fun n => bool_decide (n ∉ names)) (omap Py.guest_re_search lines).
Proof.
  unfold scan_lines.
  assert (Hacc : forall acc,
    foldl (fun direct line =>
             match Py.guest_re_search line with
             | Some vm_name =>
                 if bool_decide (vm_name ∉ names)
                 then (direct ++ [mkVM vm_name Running])%list else direct
             | None => direct
             end) acc lines
    = (acc ++ ((fun n => mkVM n Running)
                 <$> List.filter (fun n => bool_decide (n ∉ names))
                       (omap Py.guest_re_search lines)))%list).
  { induction lines as [|line lines IH]; intros acc; simpl; [by rewrite app_nil_r|].
    rewrite IH. destruct (Py.guest_re_search line) as [n|]; simpl; [|done].
    destruct (bool_decide (n ∉ names)); simpl; [|done]. by rewrite <- app_assoc. }
  by rewrite Hacc.
Qed.

(** X15.  The direct list is read off the output of the process scan
    whatever its exit code: when the output decodes, it holds, in the
    order of the lines and all marked [Running], the names the pattern
    extracts that no endpoint lists; when the scan cannot be spawned or
    its output does not decode, the direct list is empty and the managed
    part is still returned. *)
Theorem get_vms_direct_list c show_all (s : St W) :
  exists inv s1 reply s',
    get_vms c show_all s = (Ret inv, s')
    /\ run_and_wait c scan_cmd s1 = (Ret reply, s')
    /\ qemu inv
       = match reply with
         | Some (_, stdout) =>
             match Py.decode stdout with
             | Some text =>
                 (fun n => mkVM n Running)
                   <$> unmanaged_guests (libvirt_vm_names (libvirt inv)) text
             | None => []
             end
         | None => []
         end.
Proof.
  destruct (get_vms_shape c show_all s) as (managed & s1 & reply & s2 & _ & Hr & _ & Hg).
  eexists _, s1, reply, s2. split; [exact Hg|]. split; [done|]. simpl.
  destruct reply as [[code out]|]; [|done].
  destruct (Py.decode out); [|done]. apply scan_lines_spec.
Qed.

Lemma span_all f s a b :
  Py.span f s = (a, b) -> forall ch, In ch (list_ascii_of_string a) -> f ch = true.
Proof.
  revert a b. induction s as [|c t IH]; intros a b; simpl.
  - intros [= <- <-]. done.
  - destruct (f c) eqn:Hc; [|by intros [= <- <-]].
    destruct (Py.span f t) as [a' b'] eqn:Hs. intros [= <- <-] ch [->|Hin]; [done|].
    by eapply IH.
Qed.

Lemma guest_re_search_group line g :
  Py.guest_re_search line = Some g ->
  g <> "" /\ ~ In ","%char (list_ascii_of_string g).
Proof.
  assert (Hat : forall s, Py.guest_re_at s = Some g ->
                          g <> "" /\ ~ In ","%char (list_ascii_of_string g)).
  { intros s. unfold Py.guest_re_at.
    destruct (Py.strip_prefix "-name\" s) as [r1|]; [|done]. cbn [mbind option_bind].
    destruct (Py.span (Ascii.eqb "s") r1) as [run r2].
    destruct (Py.is_empty run); [done|].
    destruct (Py.strip_prefix "guest=" r2) as [r3|]; [|done]. cbn [mbind option_bind].
    destruct (Py.span (fun c => negb (Ascii.eqb c ",")) r3) as [grp rest] eqn:Hs.
    destruct (Py.is_empty grp) eqn:He; [done|]. intros [= <-]. split.
    - by destruct grp.
    - intros Hin. by apply (span_all _ _ _ _ Hs) in Hin. }
  induction line as [|c t IH]; [done|]. intros Hs.
  assert (Heq : Py.guest_re_search (String c t)
                = match Py.guest_re_at (String c t) with
                  | Some g' => Some g'
                  | None => Py.guest_re_search t
                  end) by reflexivity.
  rewrite Heq in Hs. destruct (Py.guest_re_at (String c t)) eqn:Ha; [|by apply IH].
  injection Hs as ->. by apply (Hat (String c t)).
Qed.

(** X16.  Every name in the direct list is the non-empty text between
    [guest=] and the next comma: it holds no comma (a guest name with a
    comma in it is cut there). *)
Theorem get_vms_direct_names c show_all (s : St W) :
  exists inv s',
    get_vms c show_all s = (Ret inv, s')
    /\ Forall (fun vm => vm_name_of vm <> ""
                         /\ ~ In ","%char (list_ascii_of_string (vm_name_of vm)))
              (qemu inv).
Proof.
  destruct (get_vms_shape c show_all s) as (managed & s1 & reply & s2 & _ & _ & _ & Hg).
  eexists _, _. split; [exact Hg|]. simpl.
  destruct reply as [[code out]|]; [|done].
  destruct (Py.decode out) as [text|]; [|done]. rewrite scan_lines_spec.
  apply Forall_fmap, Forall_forall. intros n Hn. simpl.
  apply list_elem_of_In, filter_In in Hn as [Hn _].
  apply list_elem_of_In, list_elem_of_omap in Hn as (line & _ & Hline).
  by apply guest_re_search_group in Hline.
Qed.

Lemma snoc_chars cur c ch :
  In ch (list_ascii_of_string (Py.snoc cur c)) ->
  In ch (list_ascii_of_string cur) \/ ch = c.
Proof.
  unfold Py.snoc. induction cur as [|a cur IH].
  - simpl. intros [->|[]]. by right.
  - change (String a cur +:+ String c "") with (String a (cur +:+ String c "")).
    simpl. intros [->|Hin]; [left; by left|].
    destruct (IH Hin) as [?|?]; [left; by right|by right].
Qed.

Lemma splitlines_go_chars l :
  forall skip cur line ch,
    line ∈ Py.splitlines_go skip cur l ->
    In ch (list_ascii_of_string line) ->
    In ch (list_ascii_of_string cur) \/ In ch l.
Proof.
  induction l as [|c t IH]; intros skip cur line ch; cbn [Py.splitlines_go].
  - destruct cur; [by intros ?%elem_of_nil|].
    intros ->%list_elem_of_singleton. by left.
  - destruct skip as [|skip].
    + destruct (Py.linebreak_len (c :: t)) as [|skip].
      * intros Hl Hch. destruct (IH _ _ _ _ Hl Hch) as [Hs|?]; [|right; by right].
        destruct (snoc_chars _ _ _ Hs) as [?|Hc]; [by left|subst; right; by left].
      * intros [->|Hl]%elem_of_cons Hch; [by left|].
        destruct (IH _ _ _ _ Hl Hch) as [[]|?]. right; by right.
    + intros Hl Hch. destruct (IH _ _ _ _ Hl Hch); [by left|right; by right].
Qed.

(** X17.  The pattern of the scan wants a backslash after [-name]: when
    the output of the process scan holds no backslash, the direct list is
    empty, whatever [-name guest=..] tokens the lines hold. *)
Theorem get_vms_scan_without_backslash c show_all (s : St W) :
  exists inv s1 reply s',
    get_vms c show_all s = (Ret inv, s')
    /\ run_and_wait c scan_cmd s1 = (Ret reply, s')
    /\ forall code stdout,
         reply = Some (code, stdout) ->
         ~ In "\"%char (list_ascii_of_string stdout) ->
         qemu inv = [].
Proof.
  destruct (get_vms_shape c show_all s) as (managed & s1 & reply & s2 & _ & Hr & _ & Hg).
  eexists _, s1, reply, s2. split; [exact Hg|]. split; [done|]. simpl.
  intros code stdout -> Hno.
  destruct (Py.decode stdout) as [text|] eqn:Hd; [|done].
  apply decode_inv in Hd as ->. rewrite scan_lines_spec.
  assert (Hnone : omap Py.guest_re_search (Py.splitlines stdout) = []).
  { assert (Hall : forall lines : list string,
              (forall line, line ∈ lines -> Py.guest_re_search line = None) ->
              omap Py.guest_re_search lines = []).
    { induction lines as [|l lines IHl]; intros Hl; simpl; [done|].
      rewrite (Hl l) by (by left). apply IHl. intros line Hin. apply Hl. by right. }
    apply Hall. intros line Hline. apply guest_re_search_needs_backslash.
    intros Hbs. destruct (splitlines_go_chars _ _ _ _ _ Hline Hbs) as [[]|?]. done. }
  by rewrite Hnone.
Qed.

End EnumerationExtras.

(** ** Construction, sandbox routing and the toggle action *)

Section GlueExtras.
Context {W : Type} `{HW : Host W}.

(** X18.  [__init__] keeps what it is given and probes the host: one
    [which virsh], and [virsh uri] only when libvirt is there.  A default
    URI is set only with libvirt available, and it carries no surrounding
    whitespace. *)
Theorem init_probes under_flatpak bin uri (s : St W) :
  exists c s',
    __init__ under_flatpak bin uri s = (Ret c, s')
    /\ flatpak c = under_flatpak /\ qemu_bin_path c = bin /\ libvirt_uri c = uri
    /\ (libvirt_available c = false ->
        default_uri c = None
        /\ trace s' = (trace s ++ [Spawn (spawn_argv c ["which"; "virsh"])])%list)
    /\ (libvirt_available c = true ->
        trace s' = (trace s ++ [Spawn (spawn_argv c ["which"; "virsh"]);
                                Spawn (spawn_argv c ["virsh"; "uri"])])%list)
    /\ (forall d, default_uri c = Some d -> Py.strip d = d).
Proof.
  unfold __init__, _check_libvirt, _run_command. unfold bind at 1. unfold bind at 1.
  unfold host_popen at 1. unfold spawn_argv at 1. simpl flatpak.
  destruct (popen _ (world s)) as [[p|] w1]; simpl.
  2:{ eexists _, _. split; [reflexivity|]. simpl. repeat split; try done. }
  unfold bind at 1. unfold host_wait. simpl.
  destruct (wait p w1) as [code w2]; simpl.
  destruct (code =? 0) eqn:Hcode.
  2:{ eexists _, _. split; [reflexivity|]. simpl. repeat split; try done. }
  unfold bind at 1. unfold _get_default_uri.
  match goal with |- context [run_and_wait ?c0 ?cmd] =>
    match goal with |- context [bind (run_and_wait c0 cmd) _ ?s0] =>
      destruct (run_and_wait_ret c0 cmd s0) as (reply & s3 & Hr & Ht)
    end
  end.
  rewrite (bind_ret_eq _ _ _ _ _ Hr). simpl in Ht.
  destruct reply as [[code' out]|];
    [destruct (code' =? 0); [destruct (Py.decode out) as [text|]|]|];
    eexists _, _; (split; [reflexivity|]); simpl;
    (split; [done|]); (split; [done|]); (split; [done|]); (split; [done|]);
    (split; [intros _; rewrite Ht; by rewrite <- app_assoc|]); try done.
  intros d [= <-]. apply strip_idemp.
Qed.

Lemma emits_for_each {A B} (P : Event -> Prop) (l : list A)
    (body : B -> A -> M W (Step B)) :
  (forall acc x, emits P (body acc x)) -> forall acc, emits P (for_each l acc body).
Proof.
  intros Hb. induction l as [|x l IH]; intros acc; simpl; [apply emits_ret|].
  apply emits_bind; [apply Hb|]. intros [acc'|acc']; [apply IH|apply emits_ret].
Qed.

Lemma emits_get_vms (P : Event -> Prop) c show_all :
  (forall command, P (Spawn (spawn_argv c command))) -> emits P (get_vms c show_all).
Proof.
  intros HP. unfold get_vms. apply emits_bind.
  - destruct (libvirt_available c); [|apply emits_ret].
    apply emits_for_each. intros managed [u|]; simpl; [|apply emits_ret].
    destruct (negb (negb (Py.is_empty u))); [apply emits_ret|].
    apply emits_bind; [by apply emits_run_and_wait|]. intros r1.
    destruct (add_listed u Running r1 _); [|apply emits_ret].
    apply emits_bind; [by apply emits_run_and_wait|]. intros r2. apply emits_ret.
  - intros managed. apply emits_bind; [by apply emits_run_and_wait|].
    intros [[code out]|]; [|apply emits_ret].
    destruct (Py.decode out); apply emits_ret.
Qed.

Lemma routed_spawn c command : flatpak c = true -> routed (Spawn (spawn_argv c command)).
Proof. intros Hf. unfold spawn_argv. rewrite Hf. simpl. by exists command. Qed.

(** X19.  Under Flatpak every command the controller spawns, in
    enumeration, status query, start and stop alike, goes through
    [flatpak-spawn --host]. *)
Theorem flatpak_routes_every_command c :
  flatpak c = true ->
  (forall show_all, emits routed (get_vms c show_all))
  /\ (forall vm_name uri, emits routed (get_vm_status c vm_name uri))
  /\ (forall vm_name uri vm_config, emits routed (start_vm c vm_name uri vm_config))
  /\ (forall vm_name uri force timeout fuel,
        emits routed (stop_vm c vm_name uri force timeout fuel)).
Proof.
  intros Hf. split; [|split; [|split]].
  - intros show_all. apply emits_get_vms. intros command. by apply routed_spawn.
  - intros n u. apply emits_get_vm_status. by apply routed_spawn.
  - intros n u cfg. eapply emits_mono; [|apply emits_start_vm].
    intros e [->|[->|[[_ ->]|[_ ->]]]]; try done; by apply routed_spawn.
  - intros n u force timeout fuel. eapply emits_mono; [|apply emits_stop_vm].
    intros e [->|[[_ He]|[_ He]]]; [by apply routed_spawn| |].
    + destruct He as [->|[->|[_ [->| ->]]]]; try done; by apply routed_spawn.
    + destruct He as [->|[[pid ->]|[_ [pid ->]]]]; done.
Qed.

(** X20.  With no VM selected (the name or the endpoint missing from the
    settings, or empty), the action touches nothing: the key press makes
    no host call, the VM counts as not running and the icon is the
    stopped one. *)
Theorem toggle_without_selection c (settings : gmap string string) fuel (s : St W) :
  setting settings "vm_name" = "" \/ setting settings "uri" = "" ->
  on_key_down c settings fuel s = (Ret tt, s)
  /\ get_is_running c settings s = (Ret false, s)
  /\ set_status_image c settings s = (Ret "stopped.png", s).
Proof.
  intros Hsel.
  assert (Hb : Py.is_empty (setting settings "vm_name")
               || Py.is_empty (setting settings "uri") = true).
  { destruct Hsel as [-> | ->]; [done|]. by rewrite orb_true_r. }
  assert (Hr : get_is_running c settings s = (Ret false, s)).
  { unfold get_is_running. by rewrite Hb. }
  split; [|split; [done|]].
  - unfold on_key_down, try_except. by rewrite Hb.
  - unfold set_status_image. by rewrite (bind_ret_eq _ _ _ _ _ Hr).
Qed.

(** X21.  A key press decides on one status query and then only stops or
    only starts: when the query reports [Running] every further host call
    is one [stop_vm] with [force=False] can make (nothing is started, even
    if the VM has stopped in between), and otherwise every further call is
    one [start_vm] can make (no signal, no [shutdown], no [destroy]). *)
Theorem on_key_down_one_way c (settings : gmap string string) fuel (s s1 : St W) r :
  let vm_name := setting settings "vm_name" in
  let uri := setting settings "uri" in
  vm_name <> "" -> uri <> "" ->
  get_vm_status c vm_name uri s = (Ret r, s1) ->
  exists evs,
    trace (snd (on_key_down c settings fuel s)) = (trace s1 ++ evs)%list
    /\ Forall (if status_eqb (r_status r) Running
               then stop_events c vm_name uri false
               else start_events c vm_name uri None) evs.
Proof.
  intros vm_name uri Hn Hu Hg.
  assert (Hb : Py.is_empty vm_name || Py.is_empty uri = false).
  { destruct vm_name; [done|]. by destruct uri. }
  assert (Hkd : on_key_down c settings fuel s
    = try_except
        (if status_eqb (r_status r) Running
         then let* _ := stop_vm c vm_name uri false 3 fuel in ret tt
         else let* _ := start_vm c vm_name uri None in ret tt) (ret tt) s1).
  { unfold on_key_down, try_except. fold vm_name uri. rewrite Hb.
    by rewrite (bind_ret_eq _ _ _ _ _ Hg). }
  rewrite Hkd.
  destruct (status_eqb (r_status r) Running).
  - apply (emits_try (stop_events c vm_name uri false)); [|apply emits_ret].
    apply emits_bind; [apply emits_stop_vm|]. intros _. apply emits_ret.
  - apply (emits_try (start_events c vm_name uri None)); [|apply emits_ret].
    apply emits_bind; [apply emits_start_vm|]. intros _. apply emits_ret.
Qed.


End GlueExtras.

(** ** The further properties on the scripted host *)


Lemma start_vm_true_observed_witness :
  observed plain "Fedora39" "qemu:///system" Running
    (snd (start_vm plain "Fedora39" "qemu:///system" None startable_libvirt)).
Proof.
  apply (start_vm_true_observed (HW:=sim_host) plain "Fedora39" "qemu:///system" None
           startable_libvirt).
  vm_compute. reflexivity.
Defined.

Lemma stop_vm_true_observed_witness :
  observed plain "Fedora39" "qemu" Stopped
    (snd (stop_vm plain "Fedora39" "qemu" false 3 4 vanished_qemu))
  \/ ("qemu" = "qemu"
      /\ exists s0 code stdout,
           run_and_wait plain (pgrep_cmd "Fedora39") s0
           = (Ret (Some (code, stdout)),
              snd (stop_vm plain "Fedora39" "qemu" false 3 4 vanished_qemu))
           /\ code <> 0).
Proof.
  apply (stop_vm_true_observed (HW:=sim_host) plain "Fedora39" "qemu" false 3 4
           vanished_qemu).
  vm_compute. reflexivity.
Defined.

Lemma no_daemon_no_call_witness :
  get_vm_status bare "Fedora39" "qemu:///system" stubborn_libvirt
  = (Ret (mkStatusResult Unknown None None), stubborn_libvirt)
  /\ (forall vm_config,
        start_vm bare "Fedora39" "qemu:///system" vm_config stubborn_libvirt
        = (Ret false, stubborn_libvirt))
  /\ (forall force timeout fuel,
        stop_vm bare "Fedora39" "qemu:///system" force timeout fuel stubborn_libvirt
        = (Ret false, stubborn_libvirt)).
Proof.
  apply (no_daemon_no_call (HW:=sim_host) bare "Fedora39" "qemu:///system" stubborn_libvirt);
    [reflexivity|discriminate].
Defined.

Lemma stop_vm_direct_process_gone_witness :
  stop_vm plain "Fedora39" "qemu" false 3 4 vanished_qemu = (Ret true, vanished_qemu_2).
Proof.
  apply (proj1 (stop_vm_direct_process_gone (HW:=sim_host) plain "Fedora39" false 3 4
                  vanished_qemu vanished_qemu_1 vanished_qemu_2
                  (mkStatusResult Running (Some Qemu) None) (Some (1, ""))
                  ltac:(vm_compute; reflexivity) ltac:(discriminate)
                  ltac:(vm_compute; reflexivity) ltac:(discriminate))).
Defined.

Lemma stop_vm_force_direct_witness :
  trace (mkSt (snd (kill 4242 SIGKILL (world polite_qemu_2)))
              (trace polite_qemu_2 ++ [Kill 4242 SIGKILL]))
  = (trace polite_qemu
       ++ [Spawn (pgrep_cmd "Fedora39"); Spawn (pgrep_cmd "Fedora39");
           Kill 4242 SIGKILL])%list.
Proof.
  apply (proj1 (stop_vm_force_direct (HW:=sim_host) plain "Fedora39" 3 4
                  polite_qemu polite_qemu_1 polite_qemu_2
                  (mkStatusResult Running (Some Qemu) None) pid_out 4242
                  ltac:(vm_compute; reflexivity) ltac:(reflexivity)
                  ltac:(vm_compute; reflexivity) ltac:(vm_compute; reflexivity))).
Defined.


Lemma start_vm_libvirt_witness :
  exists r3 s3,
    get_vm_status plain "Fedora39" "qemu:///system"
      (snd (time_sleep 2000 startable_libvirt_2)) = (Ret r3, s3)
    /\ start_vm plain "Fedora39" "qemu:///system" None startable_libvirt
       = (Ret (status_eqb (r_status r3) Running), s3).
Proof.
  apply (proj1 (start_vm_libvirt (HW:=sim_host) plain "Fedora39" "qemu:///system" None
                  startable_libvirt startable_libvirt_1 startable_libvirt_2
                  (mkStatusResult Stopped (Some Libvirt) (Some "qemu:///system"))
                  (Some (0, ""))
                  ltac:(discriminate) ltac:(reflexivity)
                  ltac:(vm_compute; reflexivity) ltac:(discriminate)
                  ltac:(vm_compute; reflexivity))).
  by exists "".
Defined.


Lemma flatpak_routes_every_command_witness :
  emits (W:=Sim) routed (get_vms boxed true)
  /\ emits (W:=Sim) routed (stop_vm boxed "Fedora39" "qemu:///system" false 3 4).
Proof.
  destruct (flatpak_routes_every_command (HW:=sim_host) boxed ltac:(reflexivity))
    as (Hlist & _ & _ & Hstop).
  split; [apply Hlist|apply Hstop].
Defined.

Lemma toggle_without_selection_witness :
  on_key_down plain ∅ 4 stubborn_libvirt = (Ret tt, stubborn_libvirt)
  /\ get_is_running plain ∅ stubborn_libvirt = (Ret false, stubborn_libvirt)
  /\ set_status_image plain ∅ stubborn_libvirt = (Ret "stopped.png", stubborn_libvirt).
Proof.
  apply (toggle_without_selection (HW:=sim_host) plain ∅ 4 stubborn_libvirt).
  left. reflexivity.
Defined.

Lemma on_key_down_one_way_witness :
  exists evs,
    trace (snd (on_key_down plain selected 4 polite_libvirt))
    = (trace polite_libvirt_1 ++ evs)%list
    /\ Forall (stop_events plain "Fedora39" "qemu:///system" false) evs.
Proof.
  apply (on_key_down_one_way (HW:=sim_host) plain selected 4 polite_libvirt polite_libvirt_1
           (mkStatusResult Running (Some Libvirt) (Some "qemu:///system"))
           ltac:(discriminate) ltac:(discriminate) ltac:(vm_compute; reflexivity)).
Defined.


(** The toggle on the scripted host: a key press on a running guest asks
    for a shutdown and sees it stop at the first poll. *)
Example on_key_down_ex :
  snd (sim_run (on_key_down plain selected 4)
         [Some (0, running_out); Some (0, running_out); Some (0, "");
          Some (0, "shut off" +:+ LF)] true)
  = [Spawn (domstate_cmd "qemu:///system" "Fedora39");
     Spawn (domstate_cmd "qemu:///system" "Fedora39");
     Spawn (shutdown_cmd "qemu:///system" "Fedora39");
     Spawn (domstate_cmd "qemu:///system" "Fedora39")].
Proof. vm_compute. reflexivity. Qed.
